(** * netexp: remote console automation (helpers.py) and the DPDK pktgen
      controller (pktgen/dpdk.py)

    A shallow embedding of [watch_command], [run_console_commands],
    [RemoteIntelFpga] and [DpdkPktgen], and the properties of their
    stop, retry, parsing and readiness logic. *)

From Stdlib Require Import ZArith QArith List String Ascii Bool Lia.
Import ListNotations.
Local Open Scope string_scope.
Local Open Scope Z_scope.

(** ** Python text primitives

    Console text is modelled as [string] over 8-bit characters: the
    transcripts the consoles emit, and every marker the code looks for,
    are ASCII. *)
Module PyStr.

Definition CR : string := String "013"%char "".
Definition LF : string := String "010"%char "".
Definition CRLF : string := CR ++ LF.
Definition DQ : string := String "034"%char "".
Definition ETX : string := String "003"%char "".

(** [len(s)] *)
Definition len (s : string) : Z := Z.of_nat (String.length s).

Fixpoint drop (n : nat) (s : string) : string :=
  match n, s with
  | O, _ => s
  | S _, EmptyString => EmptyString
  | S n', String _ s' => drop n' s'
  end.

(** [s[start:]]: a negative start counts from the end, and both ends are
    clamped to the string. *)
Definition slice_from (start : Z) (s : string) : string :=
  if start <? 0
  then drop (Z.to_nat (Z.max 0 (len s + start))) s
  else drop (Z.to_nat (Z.min start (len s))) s.

(** [s.startswith(p)] *)
Fixpoint startswith (p s : string) : bool :=
  match p, s with
  | EmptyString, _ => true
  | String _ _, EmptyString => false
  | String a p', String b s' => Ascii.eqb a b && startswith p' s'
  end.

(** [needle in hay] *)
Fixpoint contains (needle hay : string) : bool :=
  startswith needle hay ||
  match hay with
  | EmptyString => false
  | String _ hay' => contains needle hay'
  end.

Fixpoint rev_acc (s acc : string) : string :=
  match s with
  | EmptyString => acc
  | String c s' => rev_acc s' (String c acc)
  end.

(** [s.split(sep)] for a non-empty separator: [cur] holds the current
    field reversed, [skip] the separator characters still to pass over. *)
Fixpoint split_aux (sep s cur : string) (skip : nat) : list string :=
  match s with
  | EmptyString => [rev_acc cur ""]
  | String c s' =>
      match skip with
      | S k => split_aux sep s' cur k
      | O =>
          if startswith sep s
          then rev_acc cur "" :: split_aux sep s' "" (String.length sep - 1)
          else split_aux sep s' (String c cur) O
      end
  end.

Definition split (sep s : string) : list string := split_aux sep s "" O.

Definition is_ascii_digit (c : ascii) : bool :=
  let n := nat_of_ascii c in Nat.leb 48 n && Nat.leb n 57.

Fixpoint all_digits (s : string) : bool :=
  match s with
  | EmptyString => true
  | String c s' => is_ascii_digit c && all_digits s'
  end.

(** [s.isdigit()]: false on the empty string. *)
Definition isdigit (s : string) : bool :=
  match s with
  | EmptyString => false
  | _ => all_digits s
  end.

Fixpoint int_acc (s : string) (acc : Z) : Z :=
  match s with
  | EmptyString => acc
  | String c s' => int_acc s' (10 * acc + (Z.of_nat (nat_of_ascii c) - 48))
  end.

(** [int(s)] on a string of decimal digits. *)
Definition int (s : string) : Z := int_acc s 0.

Definition digit_char (d : Z) : ascii := ascii_of_nat (Z.to_nat (48 + d)).

Fixpoint str_pos_aux (fuel : nat) (n : Z) (acc : string) : string :=
  match fuel with
  | O => acc
  | S f =>
      let acc' := String (digit_char (n mod 10)) acc in
      if n / 10 =? 0 then acc' else str_pos_aux f (n / 10) acc'
  end.

(** [str(n)], the text an f-string gives an [int]. *)
Definition str (n : Z) : string :=
  if n <? 0
  then "-" ++ str_pos_aux (S (Z.to_nat (Z.log2 (- n)))) (- n) ""
  else str_pos_aux (S (Z.to_nat (Z.log2 n))) n "".

(** [lst[-1]] *)
Definition last_opt {A} (l : list A) : option A :=
  match rev l with
  | [] => None
  | x :: _ => Some x
  end.

End PyStr.

(** ** Regular expressions ([re.search])

    The fragment of Python's pattern syntax the consoles' patterns use:
    literal characters, [.], [\d], an escaped punctuation character, and
    the postfix operators [*], [+], [?] on one atom. *)
Module Re.
Import PyStr.

Inductive regex : Type :=
| Void
| Eps
| Chr (c : ascii)
| Digit
| Dot
| Seq (r1 r2 : regex)
| Alt (r1 r2 : regex)
| Star (r : regex).

(** The strings a pattern matches in full. *)
Inductive matches : regex -> string -> Prop :=
| MEps : matches Eps ""
| MChr c : matches (Chr c) (String c "")
| MDigit c : is_ascii_digit c = true -> matches Digit (String c "")
| MDot c : Ascii.eqb c "010" = false -> matches Dot (String c "")
| MSeq r1 r2 s1 s2 :
    matches r1 s1 -> matches r2 s2 -> matches (Seq r1 r2) (s1 ++ s2)
| MAltL r1 r2 s : matches r1 s -> matches (Alt r1 r2) s
| MAltR r1 r2 s : matches r2 s -> matches (Alt r1 r2) s
| MStar0 r : matches (Star r) ""
| MStarS r s1 s2 :
    matches r s1 -> matches (Star r) s2 -> matches (Star r) (s1 ++ s2).

(** [occurs r s]: some substring of [s] matches [r]. *)
Definition occurs (r : regex) (s : string) : Prop :=
  exists pre m post, s = pre ++ m ++ post /\ matches r m.

Fixpoint nullable (r : regex) : bool :=
  match r with
  | Void | Chr _ | Digit | Dot => false
  | Eps | Star _ => true
  | Seq r1 r2 => nullable r1 && nullable r2
  | Alt r1 r2 => nullable r1 || nullable r2
  end.

Fixpoint deriv (c : ascii) (r : regex) : regex :=
  match r with
  | Void | Eps => Void
  | Chr a => if Ascii.eqb a c then Eps else Void
  | Digit => if is_ascii_digit c then Eps else Void
  | Dot => if Ascii.eqb c "010" then Void else Eps
  | Seq r1 r2 =>
      if nullable r1
      then Alt (Seq (deriv c r1) r2) (deriv c r2)
      else Seq (deriv c r1) r2
  | Alt r1 r2 => Alt (deriv c r1) (deriv c r2)
  | Star r1 => Seq (deriv c r1) (Star r1)
  end.

(** Some prefix of [s] matches [r]. *)
Fixpoint match_here (r : regex) (s : string) : bool :=
  nullable r ||
  match s with
  | EmptyString => false
  | String c s' => match_here (deriv c r) s'
  end.

(** Some substring of [s] matches [r]: the truth value of
    [re.search(r, s)]. *)
Fixpoint search (r : regex) (s : string) : bool :=
  match_here r s ||
  match s with
  | EmptyString => false
  | String _ s' => search r s'
  end.

Definition is_alnum (c : ascii) : bool :=
  let n := nat_of_ascii c in
  (Nat.leb 48 n && Nat.leb n 57) || (Nat.leb 65 n && Nat.leb n 90)
  || (Nat.leb 97 n && Nat.leb n 122) || Nat.leb 128 n.

Definition is_unsupported_meta (c : ascii) : bool :=
  existsb (Ascii.eqb c) ["("; ")"; "["; "{"; "|"; "^"; "$"]%char.

Definition quantifier (c : ascii) (r : regex) : option regex :=
  if Ascii.eqb c "*" then Some (Star r)
  else if Ascii.eqb c "+" then Some (Seq r (Star r))
  else if Ascii.eqb c "?" then Some (Alt Eps r)
  else None.

Definition push (acc : regex) (cur : option regex) : regex :=
  match cur with
  | Some a => Seq acc a
  | None => acc
  end.

(** [acc] is the pattern read so far, [cur] its last atom while a postfix
    operator may still apply to it.  [None]: the pattern is invalid or
    outside the fragment. *)
Fixpoint compile_aux (p : string) (acc : regex) (cur : option regex)
  : option regex :=
  match p with
  | EmptyString => Some (push acc cur)
  | String c p' =>
      if Ascii.eqb c "\" then
        match p' with
        | EmptyString => None
        | String e p'' =>
            if Ascii.eqb e "d" then compile_aux p'' (push acc cur) (Some Digit)
            else if is_alnum e then None
            else compile_aux p'' (push acc cur) (Some (Chr e))
        end
      else if is_unsupported_meta c then None
      else
        match quantifier c Eps with
        | Some _ =>
            match cur with
            | Some a =>
                match quantifier c a with
                | Some q => compile_aux p' (Seq acc q) None
                | None => None
                end
            | None => None
            end
        | None =>
            compile_aux p' (push acc cur)
              (Some (if Ascii.eqb c "." then Dot else Chr c))
        end
  end.

(** [re.compile(p)] *)
Definition compile (p : string) : option regex := compile_aux p Eps None.

End Re.

(** ** Exceptions, the remote channel and the effect monad *)
Module Py.
Import PyStr.

Inductive exn : Type :=
| AssertionError
| TypeError
| IndexError
| ValueError
| ReError
| RuntimeError (msg : string)
| Exception_ (msg : string).

(** The outcome of a call: a value, an exception, or [Pending] when the
    call is still blocked at the point where the recorded activity of
    the remote side ends. *)
Inductive result (A : Type) : Type :=
| Ok (a : A)
| Raise (e : exn)
| Pending.
Arguments Ok {A} a.
Arguments Raise {A} e.
Arguments Pending {A}.

(** What the code does to the outside, in order. *)
Inductive event : Type :=
| Launch (cmd : string)
| Send (data : string)
| Stdout (data : string)
| Stderr (data : string)
| Sleep (ms : Z).

(** One polling round of a channel: the exit status the remote process
    has reported by then (if any), the data waiting on its output and
    error streams, and the time the round takes besides the sleep. *)
Record tick : Type := mkTick {
  exit_status : option Z;
  out_data : option string;
  err_data : option string;
  elapsed : Z
}.

(** The current channel's coming rounds, the processes later
    [remote_command] calls will start, the clock in milliseconds, and the
    events so far (oldest first). *)
Record world : Type := mkWorld {
  chan : list tick;
  procs : list (list tick);
  now : Z;
  log : list event
}.

Definition M (S A : Type) : Type := S -> S * result A.

Definition ret {S A} (a : A) : M S A := fun s => (s, Ok a).

Definition bind {S A B} (m : M S A) (k : A -> M S B) : M S B :=
  fun s =>
    match m s with
    | (s', Ok a) => k a s'
    | (s', Raise e) => (s', Raise e)
    | (s', Pending) => (s', Pending)
    end.

Definition raise {S A} (e : exn) : M S A := fun s => (s, Raise e).
Definition pending {S A} : M S A := fun s => (s, Pending).

Definition assert_ {S} (c : bool) : M S unit :=
  if c then ret tt else raise AssertionError.

Declare Scope py_scope.
Delimit Scope py_scope with py.
Notation "x <- m ;; k" := (bind m (fun x => k))
  (at level 61, m at next level, right associativity) : py_scope.
Notation "m ;; k" := (bind m (fun _ => k))
  (at level 61, right associativity) : py_scope.
Local Open Scope py_scope.

Definition emit (e : event) : M world unit :=
  fun w => (mkWorld (chan w) (procs w) (now w) (log w ++ [e]), Ok tt).

(** [time.sleep] *)
Definition sleep (ms : Z) : M world unit :=
  fun w => (mkWorld (chan w) (procs w) (now w + ms) (log w ++ [Sleep ms]), Ok tt).

(** [time.time()] *)
Definition time_now : M world Z := fun w => (w, Ok (now w)).

(** [channel.send] *)
Definition send (data : string) : M world unit := emit (Send data).

Definition write_stdout (data : string) : M world unit := emit (Stdout data).
Definition write_stderr (data : string) : M world unit := emit (Stderr data).

(** [channel.exit_status_ready()] *)
Definition exit_status_ready : M world bool :=
  fun w =>
    match chan w with
    | [] => (w, Pending)
    | t :: _ =>
        (w, Ok (match exit_status t with Some _ => true | None => false end))
    end.

Fixpoint await_exit (c : list tick) : option (Z * list tick) :=
  match c with
  | [] => None
  | t :: c' =>
      match exit_status t with
      | Some st => Some (st, c)
      | None => await_exit c'
      end
  end.

(** [channel.recv_exit_status()]: blocks until the process has exited. *)
Definition recv_exit_status : M world Z :=
  fun w =>
    match await_exit (chan w) with
    | Some (st, c) => (mkWorld c (procs w) (now w) (log w), Ok st)
    | None => (mkWorld [] (procs w) (now w) (log w), Pending)
    end.

(** One round of [recv_ready]/[recv] and [recv_stderr_ready]/[recv_stderr]. *)
Definition next_tick : M world tick :=
  fun w =>
    match chan w with
    | [] => (w, Pending)
    | t :: c => (mkWorld c (procs w) (now w + elapsed t) (log w), Ok t)
    end.

(** [remote_command]: the session layer starts the next process and
    hands back its channel. *)
Definition remote_command (cmd : string) : M world unit :=
  fun w =>
    match procs w with
    | [] => (mkWorld (chan w) [] (now w) (log w ++ [Launch cmd]), Pending)
    | p :: ps => (mkWorld p ps (now w) (log w ++ [Launch cmd]), Ok tt)
    end.

(** [a or b] on an optional integer: [None] and [0] are falsy. *)
Definition py_or (a : option Z) (b : Z) : Z :=
  match a with
  | Some v => if v =? 0 then b else v
  | None => b
  end.

End Py.

(** ** helpers.py *)
Module Helpers.
Import PyStr Py.
Local Open Scope py_scope.

Definition LOAD_BITSTREAM_CMD : string := "hardware_test/load_bitstream.sh".
Definition RUN_CONSOLE_CMD : string := "hardware_test/run_console.sh".

(** [re.search(pattern, s)], as a truth value. *)
Definition re_search (pattern s : string) : M world bool :=
  match Re.compile pattern with
  | Some r => ret (Re.search r s)
  | None => raise ReError
  end.

(** [min(n, max_match_length)]: comparing with [None] is a type error. *)
Definition py_min (n : Z) (m : option Z) : M world Z :=
  match m with
  | Some m' => ret (Z.min n m')
  | None => raise TypeError
  end.

(** The closure [continue_running] of [watch_command], on the transcript
    accumulated so far. *)
Definition continue_running (stop_condition : M world bool)
    (stop_pattern : option string) (max_match_length : option Z)
    (output : string) : M world bool :=
  found <- match stop_pattern with
           | Some p =>
               search_len <- py_min (len output) max_match_length ;;
               re_search p (slice_from (- search_len) output)
           | None => ret false
           end ;;
  if found then ret false
  else (stopped <- stop_condition ;; ret (negb stopped)).

(** Append what one stream had ready, forwarding it when asked to. *)
Definition drain (forward : bool) (write : string -> M world unit)
    (data : option string) (output : string) : M world string :=
  match data with
  | Some d => (if forward then write d else ret tt) ;; ret (output ++ d)%string
  | None => ret output
  end.

Definition past (deadline : option Z) (t : Z) : bool :=
  match deadline with
  | Some d => d <? t
  | None => false
  end.

(** The [while continue_running():] loop. *)
Fixpoint watch_loop (fuel : nat) (stop_condition : M world bool)
    (deadline : option Z) (stdout stderr : bool)
    (stop_pattern : option string) (max_match_length : option Z)
    (output : string) : M world string :=
  match fuel with
  | O => pending
  | S fuel' =>
      go <- continue_running stop_condition stop_pattern max_match_length
              output ;;
      if go then
        sleep 10 ;;
        t <- next_tick ;;
        output <- drain stdout write_stdout (out_data t) output ;;
        output <- drain stderr write_stderr (err_data t) output ;;
        t_now <- time_now ;;
        if past deadline t_now then ret output
        else watch_loop fuel' stop_condition deadline stdout stderr
               stop_pattern max_match_length output
      else ret output
  end.

(** [watch_command].  Every round of the loop takes one tick of the
    channel, so one more round than there are ticks always suffices.
    [KeyboardInterrupt], which the [keyboard_int] hook serves, is an
    asynchronous signal and has no place in the recorded activity. *)
Definition watch_command (stop_condition : option (M world bool))
    (timeout : option Z) (stdout stderr : bool)
    (stop_pattern : option string) (max_match_length : option Z)
  : M world string :=
  fun w =>
    let stop_condition :=
      match stop_condition with
      | Some f => f
      | None => exit_status_ready
      end in
    let deadline := option_map (fun t => now w + t) timeout in
    watch_loop (S (List.length (chan w))) stop_condition deadline stdout stderr
      stop_pattern max_match_length "" w.

(** The [commands] argument: one command or a list of them. *)
Inductive commands_arg : Type :=
| Cmd (c : string)
| Cmds (l : list string).

Definition as_list (commands : commands_arg) : list string :=
  match commands with
  | Cmd c => [c]
  | Cmds l => l
  end.

Fixpoint run_each (commands : list string) (timeout : option Z)
    (console_pattern : option string) (console_pattern_len : option Z)
    (output : string) : M world string :=
  match commands with
  | [] => ret output
  | cmd :: rest =>
      send (cmd ++ LF) ;;
      o <- watch_command None timeout true true console_pattern
             console_pattern_len ;;
      run_each rest timeout console_pattern console_pattern_len
        (output ++ o)%string
  end.

(** [run_console_commands] *)
Definition run_console_commands (commands : commands_arg)
    (timeout : option Z) (console_pattern : option string)
  : M world string :=
  let console_pattern_len := option_map len console_pattern in
  run_each (as_list commands) timeout console_pattern console_pattern_len "".

(** *** class RemoteIntelFpga *)

Record RemoteIntelFpga : Type := mkFpga {
  host : string;
  fpga_id : string;
  remote_dir : string
}.

(** [Path(cmd).name] for the two script paths: what follows the last
    slash. *)
Definition path_name (p : string) : string :=
  match last_opt (split "/" p) with
  | Some n => n
  | None => p
  end.

Definition run_jtag_commands (commands : commands_arg) : M world string :=
  run_console_commands commands (Some 1000) (Some (CRLF ++ "% ")).

(** The lines of the console's answer that name this board: the list
    comprehension of [launch_console]. *)
Definition device_lines (self : RemoteIntelFpga) (output : string)
  : list string :=
  filter (fun ln => contains ("@1#" ++ fpga_id self ++ "#Intel ") ln
                    && contains ": " ln)
         (split LF output).

(** The keywords a call of [remote_command] may pass: the parameters of
    [def remote_command(client, command, pty=False, print_command=False)]
    that the two positional arguments of the calls leave open. *)
Definition remote_command_keywords : list string := ["pty"; "print_command"].

(** A call [remote_command(client, command, k1=..., k2=...)] with the
    keywords [keywords]: a keyword that names no parameter makes the
    call a [TypeError], raised before the body of the function runs. *)
Definition call_remote_command (keywords : list string) (cmd : string)
  : M world unit :=
  if forallb (fun k => existsb (String.eqb k) remote_command_keywords) keywords
  then remote_command cmd
  else raise TypeError.

Section Client.

(** [self.ssh_client], evaluated as the first argument of each call of
    [remote_command]: the property connects on first use
    ([get_ssh_client], below) and hands back the client from then on.
    What that does to the world, and whether it returns, is left
    open. *)
Variable ssh_client : M world unit.

(** The [while True:] loop of [launch_console]; it returns [lines]. *)
Fixpoint launch_console_loop (fuel : nat) (self : RemoteIntelFpga)
    (max_retries retries : Z) : M world (list string) :=
  match fuel with
  | O => pending
  | S fuel' =>
      ssh_client ;;
      call_remote_command ["pty"; "dir"; "source_bashrc"]
        ("./" ++ path_name RUN_CONSOLE_CMD ++ " " ++ fpga_id self) ;;
      watch_command None (Some 10000) true true None (Some 1024) ;;
      send ("source path.tcl" ++ LF) ;;
      output <- watch_command None (Some 2000) true true None (Some 1024) ;;
      let lines := device_lines self output in
      if Z.of_nat (List.length lines) =? 1 then ret lines
      else
        send ETX ;;
        let retries := retries + 1 in
        if max_retries <=? retries then
          raise (RuntimeError
                   ("Failed to determine device " ++ str retries ++ " times"))
        else
          sleep 1000 ;;
          launch_console_loop fuel' self max_retries retries
  end.

(** [lines[0].split(':')[0]] *)
Definition device_of (lines : list string) : string :=
  hd "" (split ":" (hd "" lines)).

(** [launch_console].  An attempt that goes on to the next one has
    started a process, so one more round than there are processes to
    start always suffices. *)
Definition launch_console (self : RemoteIntelFpga) (max_retries : Z)
  : M world unit :=
  fun w =>
    (lines <- launch_console_loop (S (List.length (procs w))) self max_retries 0 ;;
     run_jtag_commands (Cmd ("set_jtag " ++ device_of lines)) ;;
     ret tt) w.

(** The [while load_bitstream:] loop of [setup]. *)
Fixpoint load_bitstream_loop (fuel : nat) (self : RemoteIntelFpga)
    (retries : Z) : M world unit :=
  match fuel with
  | O => pending
  | S fuel' =>
      ssh_client ;;
      call_remote_command ["pty"; "dir"; "source_bashrc"]
        ("./" ++ path_name LOAD_BITSTREAM_CMD ++ " " ++ fpga_id self) ;;
      output <- watch_command None None true true None (Some 1024) ;;
      status <- recv_exit_status ;;
      if status =? 0 then ret tt
      else if contains "Synchronization failed" output then
        raise (RuntimeError
                 "Synchronization failed, try power cycling the host")
      else
        let retries := retries + 1 in
        if 5 <=? retries then
          raise (RuntimeError
                   ("Failed to load bitstream " ++ str retries ++ " times"))
        else load_bitstream_loop fuel' self retries
  end.

(** [setup] *)
Definition setup (self : RemoteIntelFpga) (load_bitstream : bool)
  : M world unit :=
  fun w =>
    ((if load_bitstream
      then load_bitstream_loop (S (List.length (procs w))) self 0
      else ret tt) ;;
     launch_console self 5) w.

End Client.

(** *** get_ssh_client *)

(** A value of the ssh configuration of a host: a string, or a list of
    strings (the identity files). *)
Inductive config_value : Type :=
| Text (s : string)
| Texts (l : list string).

(** A value among the arguments of [client.connect]. *)
Inductive connect_value : Type :=
| Plain (v : config_value)
| ProxyCommand (command : config_value)
| RSAKey (file : string).

(** A [dict] with string keys, in insertion order. *)
Definition dict (V : Type) : Type := list (string * V).

(** [d.get(k)], and [k in d] when it is not [None]. *)
Fixpoint dict_get {V} (k : string) (d : dict V) : option V :=
  match d with
  | [] => None
  | (k', v) :: d' => if String.eqb k k' then Some v else dict_get k d'
  end.

(** [d[k] = v] *)
Fixpoint dict_set {V} (k : string) (v : V) (d : dict V) : dict V :=
  match d with
  | [] => [(k, v)]
  | (k', v') :: d' =>
      if String.eqb k k' then (k, v) :: d' else (k', v') :: dict_set k v d'
  end.

(** [v[0]]: the first item of a list, the first character of a string. *)
Definition first_item (v : config_value) : option string :=
  match v with
  | Texts (f :: _) => Some f
  | Texts [] => None
  | Text (String c _) => Some (String c "")
  | Text EmptyString => None
  end.

(** [if k in user_config: cfg[k] = user_config[k]] *)
Definition copy_key (user_config : dict config_value) (cfg : dict connect_value)
    (k : string) : dict connect_value :=
  match dict_get k user_config with
  | Some v => dict_set k (Plain v) cfg
  | None => cfg
  end.

(** What one call of [client.connect] does: it returns, raises
    [KeyboardInterrupt], or raises anything else. *)
Inductive connect_outcome : Type :=
| Connected
| Refused
| Interrupted.

Inductive ssh_event : Type :=
| Connect (cfg : dict connect_value)
| Wait (ms : Z).

Inductive ssh_error : Type :=
| Raised (e : exn)
| KeyboardInterrupt.

(** The client (known by what it connected with), an exception, or
    [Unanswered] when the recorded connection attempts end first. *)
Inductive ssh_result : Type :=
| Client (cfg : dict connect_value)
| Failed (e : ssh_error)
| Unanswered.

(** [raise paramiko.ssh_exception.NoValidConnectionsError]: the
    statement names the class, so raising it calls the class without
    arguments; its constructor requires [errors], and what is raised is
    the [TypeError] of that call. *)
Definition raise_NoValidConnectionsError : ssh_error := Raised TypeError.

(** The [while True:] loop of [get_ssh_client], over the outcomes of the
    coming calls of [connect]. *)
Fixpoint connect_loop (outcomes : list connect_outcome)
    (cfg : dict connect_value) (nb_retries retry_interval trial : Z)
    (events : list ssh_event) : ssh_result * list ssh_event :=
  if nb_retries <? trial then (Failed raise_NoValidConnectionsError, events)
  else
    match outcomes with
    | [] => (Unanswered, events)
    | o :: outcomes' =>
        let trial := trial + 1 in
        let events := (events ++ [Connect cfg])%list in
        match o with
        | Connected => (Client cfg, events)
        | Interrupted => (Failed KeyboardInterrupt, events)
        | Refused =>
            connect_loop outcomes' cfg nb_retries retry_interval trial
              (events ++ [Wait retry_interval])%list
        end
    end.

Section Library.

(** The two constructors of the ssh library that [get_ssh_client] calls
    while it builds the arguments: [paramiko.ProxyCommand(command)]
    starts the proxy process and
    [paramiko.RSAKey.from_private_key_file(file)] reads and parses the
    key file.  Each gives the exception the call raises, [None] when it
    returns. *)
Variable proxy_command_raises : config_value -> option exn.
Variable from_private_key_file_raises : string -> option exn.

(** The arguments [get_ssh_client] connects with, from the host's entry
    [user_config] of the ssh configuration, or the exception raised
    while they are built: that of the proxy command, the [IndexError]
    of [user_config['identityfile'][0]], or that of the key file, in
    this order. *)
Definition connect_config (host : string) (user_config : dict config_value)
  : exn + dict connect_value :=
  let cfg := [("hostname", Plain (Text host))] in
  let cfg :=
    fold_left (copy_key user_config) ["hostname"; "username"; "port"] cfg in
  let cfg :=
    match dict_get "user" user_config with
    | Some v => dict_set "username" (Plain v) cfg
    | None => cfg
    end in
  match
    match dict_get "proxycommand" user_config with
    | Some v =>
        match proxy_command_raises v with
        | Some e => inl e
        | None => inr (dict_set "sock" (ProxyCommand v) cfg)
        end
    | None => inr cfg
    end
  with
  | inl e => inl e
  | inr cfg =>
      match dict_get "identityfile" user_config with
      | Some v =>
          match first_item v with
          | Some f =>
              match from_private_key_file_raises f with
              | Some e => inl e
              | None => inr (dict_set "pkey" (RSAKey f) cfg)
              end
          | None => inl IndexError
          end
      | None => inr cfg
      end
  end.

(** [get_ssh_client] *)
Definition get_ssh_client (host : string) (nb_retries retry_interval : Z)
    (user_config : dict config_value) (outcomes : list connect_outcome)
  : ssh_result * list ssh_event :=
  match connect_config host user_config with
  | inr cfg => connect_loop outcomes cfg nb_retries retry_interval 0 []
  | inl e => (Failed (Raised e), [])
  end.

End Library.

End Helpers.

(** ** pktgen/dpdk.py *)
Module Dpdk.
Import PyStr Py Helpers.
Local Open Scope py_scope.

(** *** IPv4 arithmetic of [ipaddress]

    Addresses are given as dotted-quad text; anything else is answered
    with [ValueError] (IPv6 text is outside the model). *)
Definition octet (s : string) : option Z :=
  if isdigit s && Nat.leb (String.length s) 3
     && (Nat.eqb (String.length s) 1 || negb (startswith "0" s))
     && (int s <=? 255)
  then Some (int s) else None.

Definition ip_address (s : string) : option Z :=
  match map octet (split "." s) with
  | [Some a; Some b; Some c; Some d] =>
      Some (((a * 256 + b) * 256 + c) * 256 + d)
  | _ => None
  end.

(** [IPv4Address(n)] on an integer: the value must fit 32 bits. *)
Definition ip_of_int (n : Z) : option Z :=
  if (0 <=? n) && (n <? 2 ^ 32) then Some n else None.

Definition ip_str (a : Z) : string :=
  str (a / 2 ^ 24) ++ "." ++ str ((a / 2 ^ 16) mod 256) ++ "."
  ++ str ((a / 2 ^ 8) mod 256) ++ "." ++ str (a mod 256).

(** [str(ipaddress.ip_address(init_ip) + n - 1)] *)
Definition ip_range_max (init_ip : string) (n : Z) : option string :=
  match ip_address init_ip with
  | Some a =>
      match ip_of_int (a + n) with
      | Some b => option_map ip_str (ip_of_int (b - 1))
      | None => None
      end
  | None => None
  end.

(** *** class DpdkPktgen *)

Record DpdkPktgen : Type := mkPktgen {
  dpdk_config : string;
  port_map : string;
  rx_port : Z;
  tx_port : Z;
  pcap : option string;
  use_pcap : bool;
  config_file : option string;
  log_file : option string;
  promiscuous : bool;
  numa_support : bool;
  extra_opt : option string;
  pktgen_active : bool;
  ready : bool;
  remote_cmd : string;
  target_pkt_tx : Z
}.

Definition set_pktgen_active (b : bool) (o : DpdkPktgen) : DpdkPktgen :=
  mkPktgen (dpdk_config o) (port_map o) (rx_port o) (tx_port o) (pcap o)
    (use_pcap o) (config_file o) (log_file o) (promiscuous o)
    (numa_support o) (extra_opt o) b (ready o) (remote_cmd o)
    (target_pkt_tx o).

Definition set_ready (b : bool) (o : DpdkPktgen) : DpdkPktgen :=
  mkPktgen (dpdk_config o) (port_map o) (rx_port o) (tx_port o) (pcap o)
    (use_pcap o) (config_file o) (log_file o) (promiscuous o)
    (numa_support o) (extra_opt o) (pktgen_active o) b (remote_cmd o)
    (target_pkt_tx o).

Definition set_remote_cmd (c : string) (o : DpdkPktgen) : DpdkPktgen :=
  mkPktgen (dpdk_config o) (port_map o) (rx_port o) (tx_port o) (pcap o)
    (use_pcap o) (config_file o) (log_file o) (promiscuous o)
    (numa_support o) (extra_opt o) (pktgen_active o) (ready o) c
    (target_pkt_tx o).

Definition set_target_pkt_tx (n : Z) (o : DpdkPktgen) : DpdkPktgen :=
  mkPktgen (dpdk_config o) (port_map o) (rx_port o) (tx_port o) (pcap o)
    (use_pcap o) (config_file o) (log_file o) (promiscuous o)
    (numa_support o) (extra_opt o) (pktgen_active o) (ready o)
    (remote_cmd o) n.

(** The object and the world it acts on. *)
Definition state : Type := (DpdkPktgen * world)%type.

Definition obj (s : state) : DpdkPktgen := fst s.
Definition wld (s : state) : world := snd s.

Definition get_self : M state DpdkPktgen := fun s => (s, Ok (fst s)).

Definition update (f : DpdkPktgen -> DpdkPktgen) : M state unit :=
  fun s => ((f (fst s), snd s), Ok tt).

(** Run a channel operation on the object's world. *)
Definition io {A} (m : M world A) : M state A :=
  fun s => let (w, r) := m (snd s) in ((fst s, w), r).

(** Truthiness of an optional string: [None] and the empty string are
    falsy. *)
Definition truthy (o : option string) : bool :=
  match o with
  | Some (String _ _) => true
  | _ => false
  end.

Definition opt_text (o : option string) : string :=
  match o with
  | Some s => s
  | None => "None"
  end.

(** [launch] *)
Definition launch : M state unit :=
  self <- get_self ;;
  assert_ (negb (pktgen_active self)) ;;
  let pktgen_options := "-m " ++ DQ ++ port_map self ++ DQ in
  pktgen_options <-
    (if use_pcap self then
       assert_ (truthy (pcap self)) ;;
       ret (pktgen_options ++ " -s " ++ str (tx_port self) ++ ":"
              ++ opt_text (pcap self))
     else ret pktgen_options) ;;
  let pktgen_options :=
    match config_file self with
    | Some f => pktgen_options ++ " -f " ++ f
    | None => pktgen_options
    end in
  let pktgen_options :=
    match log_file self with
    | Some f => pktgen_options ++ " -l " ++ f
    | None => pktgen_options
    end in
  let pktgen_options :=
    if promiscuous self then pktgen_options ++ " -P" else pktgen_options in
  let pktgen_options :=
    if numa_support self then pktgen_options ++ " -N" else pktgen_options in
  let pktgen_options :=
    match extra_opt self with
    | Some e => pktgen_options ++ e
    | None => pktgen_options
    end in
  let remote_cmd :=
    "sudo pktgen " ++ dpdk_config self ++ " -- " ++ pktgen_options in
  io (remote_command remote_cmd) ;;
  (if truthy (log_file self)
   then io (write_stdout ("command: " ++ remote_cmd ++ LF))
   else ret tt) ;;
  update (set_pktgen_active true) ;;
  update (set_ready false) ;;
  update (set_remote_cmd remote_cmd) ;;
  update (set_target_pkt_tx 0).

(** [wait_ready] *)
Definition wait_ready (stdout stderr : bool) : M state unit :=
  self <- get_self ;;
  assert_ (pktgen_active self) ;;
  exited <- io exit_status_ready ;;
  failed <- (if exited
             then (st <- io recv_exit_status ;; ret (negb (st =? 0)))
             else ret false) ;;
  if failed then
    update (set_pktgen_active false) ;;
    raise (Exception_ "Cannot run pktgen")
  else
    io (watch_command None None stdout stderr (Some (CRLF ++ "Pktgen:/>"))
          (Some 1024)) ;;
    update (set_ready true).

(** [commands] *)
Definition commands (cmds : commands_arg) (timeout : option Z)
  : M state unit :=
  self <- get_self ;;
  assert_ (pktgen_active self) ;;
  io (run_console_commands cmds timeout (Some (CRLF ++ "Pktgen:/> "))) ;;
  ret tt.

(** The default [timeout=0.5] of [commands]. *)
Definition default_timeout : option Z := Some 500.

Definition _send (data : string) : M state unit := io (send data).

(** [_get_stats] *)
Definition _get_stats (subtype stat_name : string) (port : Z) : M state Z :=
  self <- get_self ;;
  assert_ (pktgen_active self) ;;
  _send (LF ++ "lua 'print(pktgen.portStats(" ++ DQ ++ "all" ++ DQ ++ ", "
           ++ DQ ++ subtype ++ DQ ++ ")[" ++ str port ++ "]." ++ stat_name
           ++ ")'" ++ LF) ;;
  output <- io (watch_command None None true true
                  (Some (CRLF ++ "\d+" ++ CRLF)) (Some 1024)) ;;
  let lines := split CRLF output in
  let lines := filter isdigit lines in
  match last_opt lines with
  | Some ln => ret (int ln)
  | None => raise IndexError
  end.

Definition get_pkts_rx_rate (port : option Z) : M state Z :=
  self <- get_self ;; _get_stats "rate" "pkts_rx" (py_or port (rx_port self)).

Definition get_pkts_tx_rate (port : option Z) : M state Z :=
  self <- get_self ;; _get_stats "rate" "pkts_tx" (py_or port (tx_port self)).

Definition get_mbits_rx (port : option Z) : M state Z :=
  self <- get_self ;; _get_stats "rate" "mbits_rx" (py_or port (rx_port self)).

Definition get_mbits_tx (port : option Z) : M state Z :=
  self <- get_self ;; _get_stats "rate" "mbits_rx" (py_or port (tx_port self)).

Definition get_nb_rx_pkts (port : option Z) : M state Z :=
  self <- get_self ;; _get_stats "port" "ipackets" (py_or port (rx_port self)).

Definition get_nb_rx_bytes (port : option Z) : M state Z :=
  self <- get_self ;; _get_stats "port" "ibytes" (py_or port (rx_port self)).

Definition get_nb_tx_pkts (port : option Z) : M state Z :=
  self <- get_self ;; _get_stats "port" "opackets" (py_or port (tx_port self)).

Definition get_nb_tx_bytes (port : option Z) : M state Z :=
  self <- get_self ;; _get_stats "port" "obytes" (py_or port (tx_port self)).

(** [get_rx_throughput]: its [port] argument is not used. *)
Definition get_rx_throughput (port : option Z) : M state Z :=
  self <- get_self ;;
  v <- get_mbits_rx (Some (rx_port self)) ;;
  ret (v * 1000000).

(** [get_tx_throughput]: its [port] argument is not used. *)
Definition get_tx_throughput (port : option Z) : M state Z :=
  self <- get_self ;;
  v <- get_mbits_tx (Some (tx_port self)) ;;
  ret (v * 1000000).

(** [set_params] *)
Definition set_params (pkt_size nb_src nb_dst : Z) (init_ip : option string)
    (init_port : Z) (tx_port_arg : option Z) : M state unit :=
  let init_ip := if truthy init_ip then opt_text init_ip else "192.168.0.0" in
  match ip_range_max init_ip nb_src with
  | None => raise ValueError
  | Some max_src_ip =>
      match ip_range_max init_ip nb_dst with
      | None => raise ValueError
      | Some max_dst_ip =>
          self <- get_self ;;
          let tx_port :=
            match tx_port_arg with
            | None => tx_port self
            | Some p => p
            end in
          (if negb (ready self) then wait_ready false false else ret tt) ;;
          let p := str tx_port in
          commands
            (Cmds [ "range " ++ p ++ " dst port start " ++ str init_port;
                    "range " ++ p ++ " src ip max " ++ max_src_ip;
                    "range " ++ p ++ " dst ip max " ++ max_dst_ip;
                    "range " ++ p ++ " size start " ++ str pkt_size;
                    "range " ++ p ++ " size min " ++ str pkt_size;
                    "range " ++ p ++ " size max " ++ str pkt_size ])
            default_timeout
      end
  end.

Section Capacity.

(** The text an f-string gives the number passed as [capacity] (an
    [int] or a [float]; the value itself is taken as a rational). *)
Variable str_number : Q -> string.

(** [start] *)
Definition start (capacity : Q) (nb_pkts : Z) (tx_port_arg : option Z)
  : M state unit :=
  self <- get_self ;;
  assert_ (pktgen_active self) ;;
  let tx_port := py_or tx_port_arg (tx_port self) in
  (if negb (ready self) then wait_ready false false else ret tt) ;;
  self <- get_self ;;
  let cmds :=
    if use_pcap self then ["enable " ++ str tx_port ++ " pcap"] else [] in
  sent <- get_nb_tx_pkts None ;;
  update (set_target_pkt_tx (sent + nb_pkts)) ;;
  let cmds :=
    List.app cmds
      [ "set " ++ str tx_port ++ " count " ++ str nb_pkts;
        "set " ++ str tx_port ++ " rate " ++ str_number capacity;
        "start " ++ str tx_port ] in
  commands (Cmds cmds) default_timeout.

(** [capacity > 0 and capacity <= 100] *)
Definition valid_capacity (capacity : Q) : bool :=
  negb (Qle_bool capacity 0) && Qle_bool capacity 100.

(** [set_rate] *)
Definition set_rate (capacity : Q) (tx_port_arg : option Z) : M state unit :=
  assert_ (valid_capacity capacity) ;;
  self <- get_self ;;
  let tx_port := py_or tx_port_arg (tx_port self) in
  commands (Cmd ("set " ++ str tx_port ++ " rate " ++ str_number capacity))
    default_timeout.

End Capacity.

(** The [while pkts_tx < self.target_pkt_tx:] loop of
    [wait_transmission_done]. *)
Fixpoint transmission_loop (fuel : nat) (pkts_tx : Z) : M state unit :=
  self <- get_self ;;
  if pkts_tx <? target_pkt_tx self then
    match fuel with
    | O => pending
    | S fuel' =>
        io (sleep 1000) ;;
        let old_pkt_tx := pkts_tx in
        pkts_tx <- get_nb_tx_pkts None ;;
        if old_pkt_tx =? pkts_tx then
          raise (RuntimeError "Pktgen is not making progress")
        else transmission_loop fuel' pkts_tx
    end
  else ret tt.

(** [wait_transmission_done].  A poll that returns a value has taken at
    least one tick of the channel, so one more round than there are
    ticks always suffices. *)
Definition wait_transmission_done : M state unit :=
  fun s =>
    (self <- get_self ;;
     assert_ (pktgen_active self) ;;
     transmission_loop (S (List.length (chan (snd s)))) 0) s.

(** [stop] *)
Definition stop (tx_port_arg : option Z) : M state unit :=
  self <- get_self ;;
  assert_ (pktgen_active self) ;;
  commands (Cmd ("stop " ++ str (py_or tx_port_arg (tx_port self))))
    default_timeout.

(** [clear] *)
Definition clear : M state unit :=
  self <- get_self ;;
  assert_ (pktgen_active self) ;;
  commands (Cmd ("clr" ++ LF)) default_timeout.

(** [clean_stats] *)
Definition clean_stats : M state unit :=
  self <- get_self ;;
  assert_ (pktgen_active self) ;;
  clear.

(** [close] *)
Definition close : M state unit :=
  self <- get_self ;;
  if pktgen_active self then
    _send ("quit" ++ LF) ;;
    io (sleep 100) ;;
    update (set_pktgen_active false)
  else ret tt.

Definition set_use_pcap (b : bool) (o : DpdkPktgen) : DpdkPktgen :=
  mkPktgen (dpdk_config o) (port_map o) (rx_port o) (tx_port o) (pcap o)
    b (config_file o) (log_file o) (promiscuous o) (numa_support o)
    (extra_opt o) (pktgen_active o) (ready o) (remote_cmd o)
    (target_pkt_tx o).

Definition set_pcap_path (p : option string) (o : DpdkPktgen) : DpdkPktgen :=
  mkPktgen (dpdk_config o) (port_map o) (rx_port o) (tx_port o) p
    (use_pcap o) (config_file o) (log_file o) (promiscuous o)
    (numa_support o) (extra_opt o) (pktgen_active o) (ready o)
    (remote_cmd o) (target_pkt_tx o).

(** [self.pcap != pcap] *)
Definition pcap_differs (old : option string) (new : string) : bool :=
  match old with
  | Some p => negb (String.eqb p new)
  | None => true
  end.

(** [set_pcap] *)
Definition set_pcap (new_pcap : string) : M state unit :=
  self <- get_self ;;
  let changed := negb (use_pcap self) || pcap_differs (pcap self) new_pcap in
  update (set_use_pcap true) ;;
  update (set_pcap_path (Some new_pcap)) ;;
  self <- get_self ;;
  if pktgen_active self && changed then
    close ;;
    launch ;;
    io (sleep 1000) ;;
    wait_ready false false
  else ret tt.

End Dpdk.

(** *** class DpdkConfig (pktgen/dpdk.py) *)
Module DpdkConfig.
Import PyStr.

(** An argument that may be one string or a list of strings. *)
Inductive one_or_list : Type :=
| One (s : string)
| Several (l : list string).

(** [if x is not None and not isinstance(x, list): x = [x]] *)
Definition listed (a : option one_or_list) : option (list string) :=
  match a with
  | None => None
  | Some (One s) => Some [s]
  | Some (Several l) => Some l
  end.

Record t : Type := mk {
  cores : list Z;
  mem_channels : Z;
  drivers : option (list string);
  mem_alloc : option Z;
  mem_ranks : option Z;
  xen_dom0 : bool;
  syslog : bool;
  socket_mem : option (list Z);
  huge_dir : option string;
  proc_type : option string;
  file_prefix : option string;
  pci_block_list : option (list string);
  pci_allow_list : option (list string);
  vdev : option string;
  vmware_tsc_map : bool;
  base_virtaddr : option string;
  vfio_intr : option string;
  create_uio_dev : bool;
  extra_opt : option string
}.

(** [__init__] *)
Definition init (cores : list Z) (mem_channels : Z)
    (drivers : option one_or_list) (mem_alloc mem_ranks : option Z)
    (xen_dom0 syslog : bool) (socket_mem : option (list Z))
    (huge_dir proc_type file_prefix : option string)
    (pci_block_list pci_allow_list : option one_or_list)
    (vdev : option string) (vmware_tsc_map : bool)
    (base_virtaddr vfio_intr : option string) (create_uio_dev : bool)
    (extra_opt : option string) : t :=
  mk cores mem_channels (listed drivers) mem_alloc mem_ranks xen_dom0 syslog
    socket_mem huge_dir proc_type file_prefix (listed pci_block_list)
    (listed pci_allow_list) vdev vmware_tsc_map base_virtaddr vfio_intr
    create_uio_dev extra_opt.

(** [sep.join(items)] *)
Fixpoint join (sep : string) (items : list string) : string :=
  match items with
  | [] => ""
  | [x] => x
  | x :: rest => x ++ sep ++ join sep rest
  end.

(** [for x in items: opts += f" {flag} {x}"], when the list is given. *)
Definition each (flag : string) (items : option (list string)) (opts : string)
  : string :=
  match items with
  | Some l => fold_left (fun o x => o ++ " " ++ flag ++ " " ++ x) l opts
  | None => opts
  end.

(** [if x is not None: opts += f" {flag} {x}"] *)
Definition given (flag : string) (x : option string) (opts : string) : string :=
  match x with
  | Some v => opts ++ " " ++ flag ++ " " ++ v
  | None => opts
  end.

(** [if b: opts += f" {flag}"] *)
Definition switch (flag : string) (b : bool) (opts : string) : string :=
  if b then opts ++ " " ++ flag else opts.

(** [__str__] *)
Definition to_str (self : t) : string :=
  let opts := "-l " ++ join "," (map str (cores self)) in
  let opts := opts ++ " -n " ++ str (mem_channels self) in
  let opts := each "-d" (drivers self) opts in
  let opts := given "-m" (option_map str (mem_alloc self)) opts in
  let opts := given "-r" (option_map str (mem_ranks self)) opts in
  let opts := switch "--xen-dom0" (xen_dom0 self) opts in
  let opts := switch "--syslog" (syslog self) opts in
  let opts :=
    given "--socket-mem"
      (option_map (fun sm => join "," (map str sm)) (socket_mem self)) opts in
  let opts := given "--huge-dir" (huge_dir self) opts in
  let opts := given "--proc-type" (proc_type self) opts in
  let opts := given "--file-prefix" (file_prefix self) opts in
  let opts := each "-b" (pci_block_list self) opts in
  let opts := each "-a" (pci_allow_list self) opts in
  let opts := given "--vdev" (vdev self) opts in
  let opts := switch "--vmware-tsc-map" (vmware_tsc_map self) opts in
  let opts := given "--base-virt-addr" (base_virtaddr self) opts in
  let opts := given "--vfio-intr" (vfio_intr self) opts in
  let opts := switch "--create-uio-dev" (create_uio_dev self) opts in
  match extra_opt self with
  | Some e => opts ++ e
  | None => opts
  end.

End DpdkConfig.

(** * Vocabulary of the properties *)

Import PyStr Py Helpers Dpdk.
Local Open Scope py_scope.

(** Every run of [m] relates the state before to the state after by [R]. *)
Definition respects {S A} (R : S -> S -> Prop) (m : M S A) : Prop :=
  forall s s' r, m s = (s', r) -> R s s'.

(** The strings sent to the channel, among the events. *)
Definition sends (l : list event) : list string :=
  flat_map (fun e => match e with Send d => [d] | _ => [] end) l.

(** The commands of the processes started, among the events. *)
Definition launches (l : list event) : list string :=
  flat_map (fun e => match e with Launch c => [c] | _ => [] end) l.

(** [w'] comes after [w] by listening only: nothing was sent, no process
    started, and the channel is what is left of the one before. *)
Definition listens (w w' : world) : Prop :=
  (exists rest, log w' = (log w ++ rest)%list
                /\ sends rest = [] /\ launches rest = [])
  /\ procs w' = procs w
  /\ exists used, chan w = (used ++ chan w')%list.

(** The text a command is sent as: the command and a newline. *)
Definition as_sent (cmd : string) : string := cmd ++ LF.

(** A generator that is running ([ready] not yet set), with ports 0 (rx)
    and 1 (tx), for the examples. *)
Definition demo_pktgen : DpdkPktgen :=
  mkPktgen "-l 0-3 -n 4" "[1-2].0" 0 1 None false None None false false None
    true false "" 0.

Definition quiet_tick : tick := mkTick None None None 0.

Definition says (text : string) : tick := mkTick None (Some text) None 0.

(** The console's idle prompt. *)
Definition prompt : string := CRLF ++ "Pktgen:/> ".

Definition demo_world (c : list tick) : world := mkWorld c [] 0 [].

(** The text of the statistics query [_get_stats] sends. *)
Definition stats_query (subtype stat_name : string) (port : Z) : string :=
  LF ++ "lua 'print(pktgen.portStats(" ++ DQ ++ "all" ++ DQ ++ ", " ++ DQ
  ++ subtype ++ DQ ++ ")[" ++ str port ++ "]." ++ stat_name ++ ")'" ++ LF.

(** The six commands of [set_params] for a port. *)
Definition range_commands (port : Z) (init_port pkt_size : Z)
    (max_src_ip max_dst_ip : string) : list string :=
  [ "range " ++ str port ++ " dst port start " ++ str init_port;
    "range " ++ str port ++ " src ip max " ++ max_src_ip;
    "range " ++ str port ++ " dst ip max " ++ max_dst_ip;
    "range " ++ str port ++ " size start " ++ str pkt_size;
    "range " ++ str port ++ " size min " ++ str pkt_size;
    "range " ++ str port ++ " size max " ++ str pkt_size ].

(** A pattern character that stands for itself. *)
Definition plain_char (c : ascii) : bool :=
  negb (Ascii.eqb c "\") && negb (Re.is_unsupported_meta c)
  && match Re.quantifier c Re.Eps with None => true | Some _ => false end
  && negb (Ascii.eqb c ".").

Fixpoint plain_text (p : string) : bool :=
  match p with
  | EmptyString => true
  | String c p' => plain_char c && plain_text p'
  end.

Definition opt_data (d : option string) : string :=
  match d with
  | Some s => s
  | None => ""
  end.

(** The text a run of polling rounds delivers: each round's output data,
    then its error data. *)
Fixpoint text_of (used : list tick) : string :=
  match used with
  | [] => ""
  | t :: used' => opt_data (out_data t) ++ opt_data (err_data t) ++ text_of used'
  end.

(** The last [n] characters of [s] (all of [s] when it is shorter). *)
Definition trailing (n : nat) (s : string) : string :=
  drop (String.length s - n) s.

(** The process has reported its exit status by the next round. *)
Definition has_exited (w : world) : Prop :=
  exists t c, chan w = t :: c /\ exit_status t <> None.


(** [pattern] is found in the part of [output] that [continue_running]
    searches. *)
Definition found_in_window (pattern : string) (max_match_length : Z)
    (output : string) : Prop :=
  exists r,
    Re.compile pattern = Some r /\
    Re.search r (slice_from (- Z.min (len output) max_match_length) output)
    = true.

(** What forwarding one stream's data writes locally. *)
Definition forwarded (fwd : bool) (mk : string -> event)
    (d : option string) : list event :=
  match d with
  | Some s => if fwd then [mk s] else []
  | None => []
  end.

(** The world after one round of the loop of [watch_command] has taken
    tick [t]. *)
Definition after_round (so se : bool) (t : tick) (w : world) : world :=
  mkWorld (tl (chan w)) (procs w) (now w + 10 + elapsed t)
    (log w ++ [Sleep 10] ++ forwarded so Stdout (out_data t)
       ++ forwarded se Stderr (err_data t)).

(** The transcript after that round. *)
Definition after_round_output (t : tick) (output : string) : string :=
  (output ++ opt_data (out_data t)) ++ opt_data (err_data t).

(** The pattern [_get_stats] waits for: a line of digits. *)
Definition stats_pattern : string := CRLF ++ "\d+" ++ CRLF.

(** The world once [data] has been sent. *)
Definition after_send (data : string) (w : world) : world :=
  mkWorld (chan w) (procs w) (now w) (log w ++ [Send data]).

(** The wait of [_get_stats] for the console's answer. *)
Definition stats_watch : M world string :=
  watch_command None None true true (Some stats_pattern) (Some 1024).

(** [ln] is the last digit-only line among [lines]. *)
Definition last_digit_line (lines : list string) (ln : string) : Prop :=
  exists pre post,
    lines = (pre ++ ln :: post)%list /\ isdigit ln = true
    /\ Forall (fun l => isdigit l = false) post.

(** One poll of [wait_transmission_done]: a second of sleep, then the
    query of the transmitted-packet counter. *)
Definition poll : M state Z := io (sleep 1000) ;; get_nb_tx_pkts None.

Definition no_progress : exn := RuntimeError "Pktgen is not making progress".

(** [polls s vs s']: from [s], successive polls return the counts [vs]
    and leave the state [s']. *)
Inductive polls : state -> list Z -> state -> Prop :=
| polls_nil s : polls s [] s
| polls_cons s s1 v vs s' :
    poll s = (s1, Ok v) -> polls s1 vs s' -> polls s (v :: vs) s'.

(** [advancing target old vs final]: with [old] remembered, each count
    of [vs] in turn is polled below the target and differs from the one
    remembered before it; [final] is remembered at the end. *)
Inductive advancing (target : Z) : Z -> list Z -> Z -> Prop :=
| advancing_nil old : advancing target old [] old
| advancing_cons old v vs final :
    old < target -> v <> old -> advancing target v vs final ->
    advancing target old (v :: vs) final.

(** A generator with a target of 1000 packets whose console answers the
    first query of the counter with 0. *)
Definition silent_start : state :=
  (set_target_pkt_tx 1000 demo_pktgen,
   demo_world [says (CRLF ++ "0" ++ prompt); quiet_tick]).

(** A generator with a target of 1000 packets whose console answers two
    queries of the counter with 400. *)
Definition stalled_run : state :=
  (set_target_pkt_tx 1000 demo_pktgen,
   demo_world [says (CRLF ++ "400" ++ prompt); says (CRLF ++ "400" ++ prompt);
               quiet_tick]).

(** The same with answers 400 and 1000. *)
Definition finished_run : state :=
  (set_target_pkt_tx 1000 demo_pktgen,
   demo_world [says (CRLF ++ "400" ++ prompt); says (CRLF ++ "1000" ++ prompt);
               quiet_tick]).

(** A process that prints [text] and exits with [status]. *)
Definition exits_with (text : string) (status : Z) : list tick :=
  [says text; mkTick (Some status) None None 0].

Definition demo_fpga : RemoteIntelFpga := mkFpga "fpga-host" "2" "/opt/fpga".

(** A world in which the processes to start behave as listed. *)
Definition starting (ps : list (list tick)) : world := mkWorld [] ps 0 [].

(** The world once [ms] milliseconds have been slept. *)
Definition after_sleep (ms : Z) (w : world) : world :=
  mkWorld (chan w) (procs w) (now w + ms) (log w ++ [Sleep ms]).

(** A console that comes up and, asked for its paths, lists one device
    of board 2. *)
Definition console_with_device : list tick :=
  [mkTick None (Some "System Console") None 10000;
   mkTick None
     (Some ("source path.tcl" ++ LF
            ++ "/devices/10AX115@1#2#Intel Stratix: (link)/phy_0" ++ LF))
     None 2000;
   says (CRLF ++ "% ");
   quiet_tick].


(** A generator just launched, whose console prints its banner and then
    the idle prompt. *)
Definition starting_up : state :=
  (demo_pktgen,
   demo_world [says "Copyright (c) Intel"; says prompt;
               says ("7" ++ CRLF ++ "1523" ++ prompt);
               says prompt; says prompt; says prompt; quiet_tick]).

(** The time a run of polling rounds takes: ten milliseconds of sleep
    and the tick's own time, each. *)
Fixpoint duration (used : list tick) : Z :=
  match used with
  | [] => 0
  | t :: used' => 10 + elapsed t + duration used'
  end.

(** A process that prints, warns on its error stream, and exits. *)
Definition short_process : list tick :=
  [says "boot"; mkTick None None (Some " warn") 5; mkTick (Some 0) None None 0].

(** [s.endswith(p)] *)
Definition ends_with (p s : string) : Prop := exists pre, s = pre ++ p.

(** The events of [k] refused connection attempts: each a call of
    [connect] and the wait that follows it. *)
Fixpoint refusals (cfg : dict connect_value) (retry_interval : Z) (k : nat)
  : list ssh_event :=
  match k with
  | O => []
  | S k' => Connect cfg :: Wait retry_interval :: refusals cfg retry_interval k'
  end.

(** The number of calls of [connect] among the events. *)
Fixpoint connects (events : list ssh_event) : nat :=
  match events with
  | [] => O
  | Connect _ :: rest => S (connects rest)
  | Wait _ :: rest => connects rest
  end.

(** A generator that has been closed. *)
Definition closed_pktgen : state :=
  (set_pktgen_active false demo_pktgen, demo_world [says prompt; quiet_tick]).

(** The commands of [start] for a port. *)
Definition start_commands (with_pcap : bool) (port nb_pkts : Z)
    (rate : string) : list string :=
  List.app
    (if with_pcap then ["enable " ++ str port ++ " pcap"] else [])
    [ "set " ++ str port ++ " count " ++ str nb_pkts;
      "set " ++ str port ++ " rate " ++ rate;
      "start " ++ str port ].


(** A generator that is ready, with a console that answers the counter
    query with 500 and then three prompts. *)
Definition ready_at_500 : state :=
  (set_ready true demo_pktgen,
   demo_world [says (CRLF ++ "500" ++ prompt); says prompt; says prompt;
               says prompt; quiet_tick]).

(** The options [launch] passes to pktgen. *)
Definition pktgen_options (o : DpdkPktgen) : string :=
  let opts := "-m " ++ DQ ++ port_map o ++ DQ in
  let opts :=
    if use_pcap o
    then opts ++ " -s " ++ str (tx_port o) ++ ":" ++ opt_text (pcap o)
    else opts in
  let opts :=
    match config_file o with
    | Some f => opts ++ " -f " ++ f
    | None => opts
    end in
  let opts :=
    match log_file o with
    | Some f => opts ++ " -l " ++ f
    | None => opts
    end in
  let opts := if promiscuous o then opts ++ " -P" else opts in
  let opts := if numa_support o then opts ++ " -N" else opts in
  match extra_opt o with
  | Some e => opts ++ e
  | None => opts
  end.

(** The command line [launch] starts. *)
Definition launch_cmd (o : DpdkPktgen) : string :=
  "sudo pktgen " ++ dpdk_config o ++ " -- " ++ pktgen_options o.

(** The object once [launch] has started the generator. *)
Definition launched (o : DpdkPktgen) : DpdkPktgen :=
  set_target_pkt_tx 0
    (set_remote_cmd (launch_cmd o)
       (set_ready false (set_pktgen_active true o))).

(** The world once [launch] has started process [p]. *)
Definition after_launch (o : DpdkPktgen) (p : list tick)
    (ps : list (list tick)) (w : world) : world :=
  mkWorld p ps (now w)
    (if truthy (log_file o)
     then (log w ++ [Launch (launch_cmd o)])
            ++ [Stdout ("command: " ++ launch_cmd o ++ LF)]
     else log w ++ [Launch (launch_cmd o)]).

(** A generator that is closed, with a pcap configured and a process to
    start. *)
Definition closed_with_pcap : state :=
  (set_pcap_path (Some "/traces/a.pcap")
     (set_use_pcap true (set_pktgen_active false demo_pktgen)),
   mkWorld [] [[says prompt; quiet_tick]] 0 []).

(** A generator that is closed, with pcap replay asked for but no pcap
    given. *)
Definition closed_without_pcap : state :=
  (set_use_pcap true (set_pktgen_active false demo_pktgen),
   mkWorld [] [[says prompt; quiet_tick]] 0 []).

(** The object once [set_pcap] has recorded the path. *)
Definition with_pcap (p : string) (o : DpdkPktgen) : DpdkPktgen :=
  set_pcap_path (Some p) (set_use_pcap true o).

(** A running generator with a second process to start. *)
Definition running_with_spare : state :=
  (demo_pktgen,
   mkWorld [quiet_tick] [[says "Copyright"; says prompt; quiet_tick]] 0 []).

(** A generator whose console process dies without printing a number. *)
Definition crashed_console : state :=
  (demo_pktgen, demo_world (exits_with "Segmentation fault" 139)).

(** The search of [continue_running] cannot fail: there is no pattern,
    or one that compiles, with a length to compare with. *)
Definition searchable (sp : option string) (mml : option Z) : Prop :=
  match sp with
  | None => True
  | Some p => Re.compile p <> None /\ mml <> None
  end.

(** The port a call works on: the one given, unless it is missing or 0. *)
Definition port_or (port : option Z) (default : Z) : Z :=
  match port with
  | Some p => if p =? 0 then default else p
  | None => default
  end.

(** A client that is connected already: [self.ssh_client] hands it back
    and touches nothing. *)
Definition connected : M world unit := ret tt.

(** What a call does when its first argument [self.ssh_client] has been
    evaluated and the call itself is then a [TypeError]. *)
Definition client_then_type_error {A} (ssh_client : M world unit)
  : M world A :=
  ssh_client ;; raise TypeError.

(** The board's loader exits with status 0 and its console lists one
    device: the processes [setup] would start. *)
Definition healthy_board : world :=
  starting [exits_with "Programming done" 0; console_with_device].

(** [in_turn timeout cp cpl cmds w outs w']: from [w], each command of
    [cmds] in turn is sent with its newline and its wait returns, the
    next one being sent from the world that wait left; [outs] are the
    transcripts of the waits and [w'] is the world after the last. *)
Inductive in_turn (timeout : option Z) (cp : option string) (cpl : option Z)
  : list string -> world -> list string -> world -> Prop :=
| in_turn_nil w : in_turn timeout cp cpl [] w [] w
| in_turn_cons c cmds w w1 o outs w' :
    watch_command None timeout true true cp cpl (after_send (as_sent c) w)
    = (w1, Ok o) ->
    in_turn timeout cp cpl cmds w1 outs w' ->
    in_turn timeout cp cpl (c :: cmds) w (o :: outs) w'.

(** [''.join(outs)] *)
Definition joined (outs : list string) : string :=
  fold_right append "" outs.

(** A console that is busy: it prints, but no prompt. *)
Definition busy_console : world := demo_world [says "busy"; quiet_tick].

(** A key file that cannot be read, and a proxy command that cannot be
    started. *)
Definition no_such_file : exn := Exception_ "FileNotFoundError".

Definition always_works {A} (x : A) : option exn := None.

Definition never_works {A} (x : A) : option exn := Some no_such_file.

(** * Properties *)

(** ** Strings *)

Lemma append_nil_r (s : string) : (s ++ "")%string = s.
Proof. induction s; cbn; congruence. Qed.

Lemma append_assoc (a b c : string) :
  ((a ++ b) ++ c)%string = (a ++ (b ++ c))%string.
Proof. induction a; cbn; congruence. Qed.

Lemma append_eq_nil (a b : string) :
  (a ++ b)%string = "" -> a = "" /\ b = "".
Proof. destruct a; cbn; [auto | discriminate]. Qed.

Lemma startswith_spec p s :
  startswith p s = true <-> exists post, s = (p ++ post)%string.
Proof.
  revert s. induction p as [| a p IH]; intros s; cbn.
  - split; [intros _; now exists s | auto].
  - destruct s as [| b s]; cbn.
    + split; [discriminate | intros [post H]; discriminate].
    + rewrite andb_true_iff, Ascii.eqb_eq, IH. split.
      * intros [-> [post ->]]. now exists post.
      * intros [post H]. inversion H; subst. split; [auto | now exists post].
Qed.

Lemma contains_spec p s :
  contains p s = true <-> exists pre post, s = (pre ++ p ++ post)%string.
Proof.
  induction s as [| c s IH]; cbn [contains]; rewrite orb_true_iff, startswith_spec.
  - split.
    + intros [[post H] | H]; [| discriminate]. now exists "", post.
    + intros [pre [post H]]. left. destruct pre; cbn in H; [| discriminate].
      now exists post.
  - rewrite IH. split.
    + intros [[post H] | [pre [post H]]].
      * now exists "", post.
      * exists (String c pre), post. cbn. now rewrite H.
    + intros [pre [post H]]. destruct pre as [| a pre]; cbn in H.
      * left. now exists post.
      * right. inversion H; subst. now exists pre, post.
Qed.

Lemma drop_suffix n s : exists pre, s = (pre ++ drop n s)%string.
Proof.
  revert s. induction n as [| n IH]; intros s.
  - now exists "".
  - destruct s as [| c s]; cbn; [now exists "" |].
    destruct (IH s) as [pre H]. exists (String c pre). cbn. now rewrite <- H.
Qed.

Lemma slice_from_suffix k s : exists pre, s = (pre ++ slice_from k s)%string.
Proof. unfold slice_from. destruct (k <? 0); apply drop_suffix. Qed.

Lemma drop_length n s :
  String.length (drop n s) = (String.length s - n)%nat.
Proof.
  revert s. induction n as [| n IH]; intros s; cbn; [lia |].
  destruct s; cbn; [reflexivity | apply IH].
Qed.

(** [int] reads its digits as a decimal numeral. *)
Lemma int_acc_snoc s c : forall acc,
  int_acc (s ++ String c "") acc
  = 10 * int_acc s acc + (Z.of_nat (nat_of_ascii c) - 48).
Proof. induction s as [| a s IH]; intros acc; cbn; [reflexivity | apply IH]. Qed.

Lemma int_snoc s c :
  int (s ++ String c "") = 10 * int s + (Z.of_nat (nat_of_ascii c) - 48).
Proof. apply int_acc_snoc. Qed.

(** The address range of the specification's example: four sources and
    two destinations from 10.0.0.0. *)
Example address_range_example :
  Dpdk.ip_range_max "10.0.0.0" 4 = Some "10.0.0.3"
  /\ Dpdk.ip_range_max "10.0.0.0" 2 = Some "10.0.0.1".
Proof. split; reflexivity. Qed.

(** ** The regular-expression matcher is the textbook one *)

Import Re.

Lemma nullable_matches r : nullable r = true <-> matches r "".
Proof.
  split.
  - induction r; cbn; intros H; try discriminate.
    + constructor.
    + apply andb_true_iff in H. destruct H.
      change "" with ("" ++ "")%string. constructor; auto.
    + apply orb_true_iff in H.
      destruct H; [apply MAltL | apply MAltR]; auto.
    + constructor.
  - intros H. remember "" as s eqn:E.
    induction H; cbn; try discriminate; auto.
    + apply append_eq_nil in E. destruct E.
      rewrite IHmatches1, IHmatches2; auto.
    + rewrite IHmatches; auto.
    + rewrite IHmatches; auto. apply orb_true_r.
Qed.

Lemma deriv_sound c r : forall s, matches (deriv c r) s -> matches r (String c s).
Proof.
  induction r; cbn; intros s H.
  - inversion H.
  - inversion H.
  - destruct (Ascii.eqb c0 c) eqn:E; inversion H; subst.
    apply Ascii.eqb_eq in E; subst. constructor.
  - destruct (is_ascii_digit c) eqn:E; inversion H; subst. now constructor.
  - destruct (Ascii.eqb c "010") eqn:E; inversion H; subst. now constructor.
  - destruct (nullable r1) eqn:N.
    + inversion H; subst.
      * match goal with
        | [ H' : matches (Seq _ _) _ |- _ ] => inversion H'; subst
        end.
        change (String c (s1 ++ s2)) with (String c s1 ++ s2)%string.
        constructor; auto.
      * change (String c s) with ("" ++ String c s)%string.
        constructor; [now apply nullable_matches | auto].
    + inversion H; subst.
      change (String c (s1 ++ s2)) with (String c s1 ++ s2)%string.
      constructor; auto.
  - inversion H; subst; [apply MAltL | apply MAltR]; auto.
  - inversion H; subst.
    change (String c (s1 ++ s2)) with (String c s1 ++ s2)%string.
    constructor; auto.
Qed.

Lemma deriv_complete c r s0 :
  matches r s0 -> forall t, s0 = String c t -> matches (deriv c r) t.
Proof.
  induction 1; intros t E; cbn; try discriminate.
  - inversion E; subst. rewrite Ascii.eqb_refl. constructor.
  - inversion E; subst. rewrite H. constructor.
  - inversion E; subst. rewrite H. constructor.
  - destruct s1 as [| a s1]; cbn in E.
    + subst s2. assert (N : nullable r1 = true) by now apply nullable_matches.
      rewrite N. apply MAltR. auto.
    + inversion E; subst.
      destruct (nullable r1); [apply MAltL |]; constructor; auto.
  - apply MAltL; auto.
  - apply MAltR; auto.
  - destruct s1 as [| a s1]; cbn in E.
    + subst s2. apply (IHmatches2 t eq_refl).
    + inversion E; subst. constructor; auto.
Qed.

Lemma deriv_matches c r s : matches (deriv c r) s <-> matches r (String c s).
Proof.
  split; [apply deriv_sound | intros H; eapply deriv_complete; eauto].
Qed.

Lemma match_here_spec r s :
  match_here r s = true <->
  exists m post, s = (m ++ post)%string /\ matches r m.
Proof.
  revert r. induction s as [| c s IH]; intros r; cbn [match_here];
    rewrite orb_true_iff, nullable_matches.
  - split.
    + intros [H | H]; [| discriminate]. now exists "", "".
    + intros [m [post [E H]]]. symmetry in E. apply append_eq_nil in E.
      destruct E; subst. auto.
  - rewrite IH. split.
    + intros [H | [m [post [E H]]]].
      * now exists "", (String c s).
      * exists (String c m), post. cbn. rewrite <- E.
        split; [reflexivity | now apply deriv_matches].
    + intros [m [post [E H]]]. destruct m as [| a m]; cbn in E.
      * auto.
      * inversion E; subst. right. exists m, post.
        split; [reflexivity | now apply deriv_matches].
Qed.

(** [Re.search] finds exactly the occurrences of the pattern. *)
Lemma search_occurs r s : search r s = true <-> occurs r s.
Proof.
  unfold occurs. induction s as [| c s IH]; cbn [search];
    rewrite orb_true_iff, match_here_spec.
  - split.
    + intros [[m [post [E H]]] | H]; [| discriminate]. now exists "", m, post.
    + intros [pre [m [post [E H]]]]. left.
      destruct pre; cbn in E; [| discriminate]. now exists m, post.
  - rewrite IH. split.
    + intros [[m [post [E H]]] | [pre [m [post [E H]]]]].
      * now exists "", m, post.
      * exists (String c pre), m, post. cbn. now rewrite <- E.
    + intros [pre [m [post [E H]]]]. destruct pre as [| a pre]; cbn in E.
      * left. now exists m, post.
      * inversion E; subst. right. now exists pre, m, post.
Qed.

(** A pattern of plain characters matches its own text and nothing
    else. *)
Lemma compile_aux_plain p :
  forall acc cur,
    plain_text p = true ->
    exists r,
      compile_aux p acc cur = Some r /\
      forall m,
        matches r m <->
        exists m0, matches (push acc cur) m0 /\ m = (m0 ++ p)%string.
Proof.
  induction p as [| c p IH]; intros acc cur Hp.
  - exists (push acc cur). split; [reflexivity |]. intros m. split.
    + intros H. exists m. now rewrite append_nil_r.
    + intros [m0 [H E]]. rewrite append_nil_r in E. now subst.
  - cbn in Hp. apply andb_true_iff in Hp. destruct Hp as [Hc Hp].
    unfold plain_char in Hc. repeat rewrite andb_true_iff in Hc.
    destruct Hc as [[[H1 H2] H3] H4].
    apply negb_true_iff in H1, H2, H4.
    cbn [compile_aux]. rewrite H1, H2, H4.
    destruct (quantifier c Eps) eqn:Q; [discriminate |].
    destruct (IH (push acc cur) (Some (Chr c)) Hp) as [r [Hr Hm]].
    exists r. split; [exact Hr |]. intros m. rewrite Hm. cbn [push]. split.
    + intros [m0 [H E]]. inversion H; subst.
      match goal with
      | [ H' : matches (Chr _) _ |- _ ] => inversion H'; subst
      end.
      exists s1. split; [assumption |]. now rewrite append_assoc.
    + intros [m0 [H E]]. exists (m0 ++ String c "")%string.
      split; [constructor; [assumption | constructor] |].
      rewrite append_assoc. exact E.
Qed.

Lemma compile_plain p :
  plain_text p = true ->
  exists r, compile p = Some r /\ forall m, matches r m <-> m = p.
Proof.
  intros Hp. destruct (compile_aux_plain p Eps None Hp) as [r [Hr Hm]].
  exists r. split; [exact Hr |]. intros m. rewrite Hm. cbn [push]. split.
  - intros [m0 [H E]]. inversion H; subst. reflexivity.
  - intros ->. exists "". split; [constructor | reflexivity].
Qed.

(** Searching for a plain pattern is looking for its text. *)
Lemma search_plain p r s :
  plain_text p = true -> compile p = Some r ->
  search r s = contains p s.
Proof.
  intros Hp Hr. destruct (compile_plain p Hp) as [r' [Hr' Hm]].
  assert (r' = r) by congruence. subst r'.
  apply eq_true_iff_eq. rewrite search_occurs, contains_spec. unfold occurs.
  split.
  - intros [pre [m [post [E H]]]]. apply Hm in H. subst m. now exists pre, post.
  - intros [pre [post E]]. exists pre, p, post. split; [exact E | now apply Hm].
Qed.

(** ** The window [continue_running] searches *)

Lemma drop_nil n : drop n "" = "".
Proof. destruct n; reflexivity. Qed.

(** For a positive [max_match_length] the slice
    [output[-search_len:]] is the trailing window. *)
Lemma slice_from_trailing (m : Z) (s : string) :
  0 < m ->
  slice_from (- Z.min (len s) m) s = trailing (Z.to_nat m) s.
Proof.
  intros Hm. unfold slice_from, trailing, len.
  destruct s as [| c s].
  - destruct (_ <? 0); now rewrite !drop_nil.
  - set (n := String.length (String c s)).
    assert (Hn : (0 < n)%nat) by (subst n; cbn; lia).
    replace (- Z.min (Z.of_nat n) m <? 0) with true
      by (symmetry; apply Z.ltb_lt; lia).
    f_equal. lia.
Qed.

(** For [max_match_length = 0] the slice is [output[-0:]], all of the
    transcript. *)
Lemma slice_from_zero (s : string) : slice_from (- Z.min (len s) 0) s = s.
Proof.
  unfold slice_from, len.
  replace (Z.min (Z.of_nat (String.length s)) 0) with 0 by lia.
  cbn. replace (Z.to_nat (Z.min 0 (Z.of_nat (String.length s)))) with O by lia.
  reflexivity.
Qed.

Lemma trailing_suffix n s : exists pre, s = (pre ++ trailing n s)%string.
Proof. apply drop_suffix. Qed.

Lemma trailing_length n s :
  String.length (trailing n s) = Nat.min n (String.length s).
Proof. unfold trailing. rewrite drop_length. lia. Qed.

(** ** Reasoning about effects *)

Lemma bind_ok {S A B} (m : M S A) (k : A -> M S B) s s' a :
  m s = (s', Ok a) -> bind m k s = k a s'.
Proof. intros H. unfold bind. now rewrite H. Qed.

Lemma bind_raise {S A B} (m : M S A) (k : A -> M S B) s s' e :
  m s = (s', Raise e) -> bind m k s = (s', Raise e).
Proof. intros H. unfold bind. now rewrite H. Qed.

Lemma bind_pending {S A B} (m : M S A) (k : A -> M S B) s s' :
  m s = (s', Pending) -> bind m k s = (s', Pending).
Proof. intros H. unfold bind. now rewrite H. Qed.

Section Respects.
Context {S : Type} (R : S -> S -> Prop).
Hypothesis R_refl : forall s, R s s.
Hypothesis R_trans : forall a b c, R a b -> R b c -> R a c.

Lemma respects_ret {A} (a : A) : respects R (ret a).
Proof. intros s s' r H. inversion H. apply R_refl. Qed.

Lemma respects_raise {A} e : respects R (@raise S A e).
Proof. intros s s' r H. inversion H. apply R_refl. Qed.

Lemma respects_pending {A} : respects R (@pending S A).
Proof. intros s s' r H. inversion H. apply R_refl. Qed.

Lemma respects_assert c : respects R (@assert_ S c).
Proof. destruct c; [apply respects_ret | apply respects_raise]. Qed.

Lemma respects_bind {A B} (m : M S A) (k : A -> M S B) :
  respects R m -> (forall a, respects R (k a)) -> respects R (bind m k).
Proof.
  intros Hm Hk s s' r. unfold bind.
  destruct (m s) as [s1 [a | e | ]] eqn:E; intros H.
  - apply (R_trans _ s1); [eapply Hm; eauto | eapply Hk; eauto].
  - inversion H; subst. eapply Hm; eauto.
  - inversion H; subst. eapply Hm; eauto.
Qed.

End Respects.

Lemma sends_app l1 l2 : sends (l1 ++ l2) = (sends l1 ++ sends l2)%list.
Proof. unfold sends. now rewrite flat_map_app. Qed.

Lemma launches_app l1 l2 :
  launches (l1 ++ l2) = (launches l1 ++ launches l2)%list.
Proof. unfold launches. now rewrite flat_map_app. Qed.

Lemma listens_refl w : listens w w.
Proof.
  split; [exists []; now rewrite app_nil_r | split; [reflexivity | now exists []]].
Qed.

Lemma listens_trans a b c : listens a b -> listens b c -> listens a c.
Proof.
  intros [[r1 [H1 [S1 L1]]] [P1 [u1 C1]]] [[r2 [H2 [S2 L2]]] [P2 [u2 C2]]].
  split; [| split].
  - exists (r1 ++ r2)%list. rewrite H2, H1, app_assoc, sends_app, launches_app.
    now rewrite S1, S2, L1, L2.
  - congruence.
  - exists (u1 ++ u2)%list. now rewrite C1, C2, app_assoc.
Qed.

Lemma listens_sends w w' : listens w w' -> sends (log w') = sends (log w).
Proof.
  intros [[r [H [S _]]] _]. now rewrite H, sends_app, S, app_nil_r.
Qed.

Lemma listens_launches w w' :
  listens w w' -> launches (log w') = launches (log w).
Proof.
  intros [[r [H [_ L]]] _]. now rewrite H, launches_app, L, app_nil_r.
Qed.

Lemma listens_chan_length w w' :
  listens w w' -> (List.length (chan w') <= List.length (chan w))%nat.
Proof.
  intros [_ [_ [u H]]]. rewrite H, length_app. lia.
Qed.

(** ** What the channel primitives and [watch_command] leave alone *)

Ltac listens_intro :=
  let s := fresh "w" in let s' := fresh "w'" in let r := fresh "r" in
  let H := fresh "H" in
  intros s s' r H; cbv beta delta [sleep time_now write_stdout write_stderr
    emit next_tick exit_status_ready] in H.

Ltac listens_solve rest used :=
  split; [exists rest; cbn; rewrite ?app_nil_r; auto
         | split; [reflexivity | exists used; reflexivity]].

Lemma listens_sleep ms : respects listens (sleep ms).
Proof. listens_intro. inversion H; subst. listens_solve [Sleep ms] (@nil tick). Qed.

Lemma listens_time_now : respects listens time_now.
Proof. listens_intro. inversion H; subst. apply listens_refl. Qed.

Lemma listens_write_stdout d : respects listens (write_stdout d).
Proof. listens_intro. inversion H; subst. listens_solve [Stdout d] (@nil tick). Qed.

Lemma listens_write_stderr d : respects listens (write_stderr d).
Proof. listens_intro. inversion H; subst. listens_solve [Stderr d] (@nil tick). Qed.

Lemma listens_exit_status_ready : respects listens exit_status_ready.
Proof.
  listens_intro. destruct (chan w); inversion H; subst; apply listens_refl.
Qed.

Lemma listens_next_tick : respects listens next_tick.
Proof.
  listens_intro. destruct (chan w) as [| t c] eqn:E; inversion H; subst.
  - apply listens_refl.
  - split; [exists []; cbn; rewrite app_nil_r; auto
           | split; [reflexivity | exists [t]; cbn; now rewrite E]].
Qed.

Lemma await_exit_suffix c st c' :
  await_exit c = Some (st, c') -> exists used, c = (used ++ c')%list.
Proof.
  induction c as [| t c IH]; cbn; [discriminate |].
  destruct (exit_status t).
  - intros H; inversion H; subst. now exists [].
  - intros H. destruct (IH H) as [u Hu]. exists (t :: u). cbn. now rewrite Hu.
Qed.

Lemma listens_recv_exit_status : respects listens recv_exit_status.
Proof.
  intros w w' r H. unfold recv_exit_status in H.
  destruct (await_exit (chan w)) as [[st c] |] eqn:E; inversion H; subst.
  - destruct (await_exit_suffix _ _ _ E) as [u Hu].
    split; [exists []; cbn; rewrite app_nil_r; auto
           | split; [reflexivity | exists u; exact Hu]].
  - split; [exists []; cbn; rewrite app_nil_r; auto
           | split; [reflexivity | exists (chan w); cbn; now rewrite app_nil_r]].
Qed.

Lemma listens_bind {A B} (m : M world A) (k : A -> M world B) :
  respects listens m -> (forall a, respects listens (k a)) ->
  respects listens (bind m k).
Proof. apply respects_bind. exact listens_trans. Qed.

Lemma listens_re_search p s : respects listens (re_search p s).
Proof.
  unfold re_search. destruct (Re.compile p);
    [apply respects_ret | apply respects_raise]; exact listens_refl.
Qed.

Lemma listens_py_min n m : respects listens (py_min n m).
Proof.
  destruct m; [apply respects_ret | apply respects_raise]; exact listens_refl.
Qed.

Lemma listens_continue_running sp mml output :
  respects listens (continue_running exit_status_ready sp mml output).
Proof.
  unfold continue_running. apply listens_bind.
  - destruct sp.
    + apply listens_bind; [apply listens_py_min |].
      intros. apply listens_re_search.
    + apply respects_ret, listens_refl.
  - intros [|]; [apply respects_ret, listens_refl |].
    apply listens_bind; [apply listens_exit_status_ready |].
    intros. apply respects_ret, listens_refl.
Qed.

Lemma listens_drain fwd write data output :
  (forall d, respects listens (write d)) ->
  respects listens (drain fwd write data output).
Proof.
  intros Hw. destruct data; cbn; [| apply respects_ret, listens_refl].
  apply listens_bind; [destruct fwd; [apply Hw | apply respects_ret, listens_refl] |].
  intros. apply respects_ret, listens_refl.
Qed.

Lemma listens_watch_loop fuel deadline so se sp mml :
  forall output,
    respects listens
      (watch_loop fuel exit_status_ready deadline so se sp mml output).
Proof.
  induction fuel as [| fuel IH]; intros output; cbn [watch_loop].
  - apply respects_pending, listens_refl.
  - apply listens_bind; [apply listens_continue_running |].
    intros [|]; [| apply respects_ret, listens_refl].
    apply listens_bind; [apply listens_sleep |]. intros _.
    apply listens_bind; [apply listens_next_tick |]. intros t.
    apply listens_bind;
      [apply listens_drain; apply listens_write_stdout |]. intros o1.
    apply listens_bind;
      [apply listens_drain; apply listens_write_stderr |]. intros o2.
    apply listens_bind; [apply listens_time_now |]. intros tn.
    destruct (past deadline tn); [apply respects_ret, listens_refl | apply IH].
Qed.

Lemma listens_watch_command timeout so se sp mml :
  respects listens (watch_command None timeout so se sp mml).
Proof.
  intros w w' r H. unfold watch_command in H.
  eapply listens_watch_loop; eauto.
Qed.

(** ** [run_console_commands] and the object's methods *)

Lemma io_inv {A} (m : M world A) s s' r :
  io m s = (s', r) -> fst s' = fst s /\ m (snd s) = (snd s', r).
Proof.
  unfold io. destruct (m (snd s)) as [w r'] eqn:E. intros H.
  inversion H; subst. cbn. auto.
Qed.

(** [run_each] sends the commands in order, each with its newline, and
    stops at the first whose wait does not return. *)
Lemma run_each_sends cmds timeout cp cpl :
  forall output w w' r,
    run_each cmds timeout cp cpl output w = (w', r) ->
    launches (log w') = launches (log w) /\
    exists k,
      sends (log w') = (sends (log w) ++ firstn k (map as_sent cmds))%list
      /\ (forall o, r = Ok o -> k = List.length cmds).
Proof.
  induction cmds as [| c cmds IH]; intros output w w' r H; cbn [run_each] in H.
  - inversion H; subst. split; [reflexivity |]. exists O. cbn.
    rewrite app_nil_r. auto.
  - unfold bind at 1 in H. cbn in H.
    set (w1 := mkWorld (chan w) (procs w) (now w) (log w ++ [Send (c ++ LF)]))
      in H.
    unfold bind at 1 in H.
    destruct (watch_command None timeout true true cp cpl w1)
      as [w2 [o | e | ]] eqn:E.
    + apply IH in H. destruct H as [HL [k [Hs Hk]]].
      apply listens_watch_command in E.
      rewrite (listens_launches _ _ E) in HL.
      rewrite (listens_sends _ _ E) in Hs.
      subst w1; cbn in HL, Hs.
      rewrite launches_app in HL; cbn in HL; rewrite app_nil_r in HL.
      rewrite sends_app in Hs; cbn in Hs.
      split; [exact HL |]. exists (S k). cbn [map firstn].
      rewrite Hs, <- app_assoc. split; [reflexivity |].
      intros o' Ho. cbn. f_equal. eauto.
    + inversion H; subst. apply listens_watch_command in E.
      rewrite (listens_launches _ _ E), (listens_sends _ _ E).
      subst w1; cbn. rewrite launches_app, sends_app; cbn.
      rewrite app_nil_r. split; [reflexivity |]. exists 1%nat.
      cbn. split; [reflexivity | discriminate].
    + inversion H; subst. apply listens_watch_command in E.
      rewrite (listens_launches _ _ E), (listens_sends _ _ E).
      subst w1; cbn. rewrite launches_app, sends_app; cbn.
      rewrite app_nil_r. split; [reflexivity |]. exists 1%nat.
      cbn. split; [reflexivity | discriminate].
Qed.

(** [commands], on an active generator, sends its commands and touches
    nothing of the object. *)
Lemma commands_sends cmds timeout s s' r :
  commands cmds timeout s = (s', r) ->
  obj s' = obj s /\
  exists k,
    sends (log (wld s'))
    = (sends (log (wld s)) ++ firstn k (map as_sent (as_list cmds)))%list
    /\ (r = Ok tt -> pktgen_active (obj s) = true
                     /\ k = List.length (as_list cmds)).
Proof.
  unfold commands, get_self. unfold bind at 1. cbn.
  destruct (pktgen_active (fst s)) eqn:Ha; cbn.
  - unfold bind at 1. cbn.
    destruct (io _ s) as [s1 rr] eqn:E. apply io_inv in E.
    destruct E as [Ho E]. unfold run_console_commands in E.
    apply run_each_sends in E. destruct E as [_ [k [Hs Hk]]].
    destruct rr as [o | e |]; cbn; intros H; inversion H; subst;
      (split; [exact Ho |]); exists k; (split; [exact Hs |]).
    + intros _. split; [exact Ha | eauto].
    + discriminate.
    + discriminate.
  - intros H; inversion H; subst. split; [reflexivity |]. exists O.
    cbn. rewrite app_nil_r. split; [reflexivity | discriminate].
Qed.

Lemma py_or_self p : py_or (Some p) p = p.
Proof. unfold py_or. destruct (p =? 0) eqn:E; reflexivity. Qed.

Lemma wait_ready_effect so se s s' r :
  wait_ready so se s = (s', r) ->
  listens (wld s) (wld s') /\
  (r = Ok tt -> obj s' = set_ready true (obj s)) /\
  (r <> Ok tt -> ready (obj s') = ready (obj s)).
Proof.
  unfold wait_ready, get_self. unfold bind at 1. cbn.
  destruct (pktgen_active (fst s)) eqn:Ha; cbn.
  2:{ intros H; inversion H; subst. split; [apply listens_refl |].
      split; [discriminate | reflexivity]. }
  unfold bind at 1.
  destruct (io exit_status_ready s) as [s1 r1] eqn:E1.
  apply io_inv in E1. destruct E1 as [O1 E1].
  pose proof (listens_exit_status_ready _ _ _ E1) as L1.
  destruct r1 as [exited | e |]; cbn.
  2,3: intros H; inversion H; subst; unfold obj; rewrite O1;
       (split; [exact L1 | split; [discriminate | reflexivity]]).
  unfold bind at 1.
  destruct exited.
  - unfold bind at 1.
    destruct (io recv_exit_status s1) as [s2 r2] eqn:E2.
    apply io_inv in E2. destruct E2 as [O2 E2].
    pose proof (listens_recv_exit_status _ _ _ E2) as L2.
    pose proof (listens_trans _ _ _ L1 L2) as L12.
    destruct r2 as [st | e |]; cbn.
    2,3: intros H; inversion H; subst; unfold obj; rewrite O2, O1;
         (split; [exact L12 | split; [discriminate | reflexivity]]).
    destruct (st =? 0); cbn.
    + unfold bind at 1.
      destruct (io _ s2) as [s3 r3] eqn:E3.
      apply io_inv in E3. destruct E3 as [O3 E3].
      pose proof (listens_watch_command _ _ _ _ _ _ _ _ E3) as L3.
      pose proof (listens_trans _ _ _ L12 L3) as L13.
      destruct r3 as [o | e |]; cbn.
      2,3: intros H; inversion H; subst; unfold obj; rewrite O3, O2, O1;
           (split; [exact L13 | split; [discriminate | reflexivity]]).
      intros H; inversion H; subst. cbn. unfold obj.
      rewrite O3, O2, O1. split; [exact L13 |].
      split; [reflexivity | congruence].
    + intros H; inversion H; subst. cbn. unfold obj. rewrite O2, O1.
      split; [exact L12 | split; [discriminate | reflexivity]].
  - cbn. unfold bind at 1.
    destruct (io _ s1) as [s3 r3] eqn:E3.
    apply io_inv in E3. destruct E3 as [O3 E3].
    pose proof (listens_watch_command _ _ _ _ _ _ _ _ E3) as L3.
    pose proof (listens_trans _ _ _ L1 L3) as L13.
    destruct r3 as [o | e |]; cbn.
    2,3: intros H; inversion H; subst; unfold obj; rewrite O3, O1;
         (split; [exact L13 | split; [discriminate | reflexivity]]).
    intros H; inversion H; subst. cbn. unfold obj.
    rewrite O3, O1. split; [exact L13 |].
    split; [reflexivity | congruence].
Qed.

(** ** C7: the throughput getters *)

(** C7 (the code at the failing input).  [get_tx_throughput] multiplies
    by 1,000,000 the value of the statistics field [mbits_rx] of the tx
    port, the received-direction rate: on the example generator (tx port
    1) the query it sends names [mbits_rx], the same field
    [get_rx_throughput] reads for the rx port, and a console that answers
    1523 gives 1523000000. *)
Theorem get_tx_throughput_reads_mbits_rx :
  (forall port s,
     get_tx_throughput port s
     = bind (_get_stats "rate" "mbits_rx" (tx_port (obj s)))
         (fun v => ret (v * 1000000)) s)
  /\ (forall port s,
        get_rx_throughput port s
        = bind (_get_stats "rate" "mbits_rx" (rx_port (obj s)))
            (fun v => ret (v * 1000000)) s)
  /\ (let s0 := (demo_pktgen,
                 demo_world [says ("7" ++ CRLF ++ "1523" ++ prompt);
                             quiet_tick]) in
      let '(s1, r) := get_tx_throughput None s0 in
      sends (log (wld s1)) = [stats_query "rate" "mbits_rx" 1]
      /\ r = Ok 1523000000).
Proof.
  split; [| split].
  - intros port s. unfold get_tx_throughput, get_mbits_tx, obj.
    rewrite (bind_ok get_self _ s s (fst s)) by reflexivity.
    unfold bind at 1.
    rewrite (bind_ok get_self _ s s (fst s)) by reflexivity.
    now rewrite py_or_self.
  - intros port s. unfold get_rx_throughput, get_mbits_rx, obj.
    rewrite (bind_ok get_self _ s s (fst s)) by reflexivity.
    unfold bind at 1.
    rewrite (bind_ok get_self _ s s (fst s)) by reflexivity.
    now rewrite py_or_self.
  - vm_compute. split; reflexivity.
Qed.

(** ** C1: the stop pattern and its window *)

(** With a positive [max_match_length], [continue_running] ends the loop
    exactly when the pattern occurs in the trailing window of the
    transcript; otherwise the stop condition alone decides, whatever
    lies before the window. *)
Lemma continue_running_trailing_window sc P r (m : Z) output w :
  Re.compile P = Some r -> 0 < m ->
  continue_running sc (Some P) (Some m) output w
  = if Re.search r (trailing (Z.to_nat m) output)
    then (w, Ok false)
    else bind sc (fun stopped => ret (negb stopped)) w.
Proof.
  intros Hr Hm. unfold continue_running, py_min, re_search.
  rewrite Hr. unfold bind at 1 2. cbn. rewrite slice_from_trailing by exact Hm.
  destruct (Re.search r (trailing (Z.to_nat m) output)); reflexivity.
Qed.

(** The loop returns the transcript at the first check that finds the
    pattern in the trailing window, without another round. *)
Lemma watch_loop_stops_in_window fuel sc dl so se P r (m : Z) output w :
  Re.compile P = Some r -> 0 < m ->
  Re.occurs r (trailing (Z.to_nat m) output) ->
  watch_loop (S fuel) sc dl so se (Some P) (Some m) output w = (w, Ok output).
Proof.
  intros Hr Hm Ho. apply search_occurs in Ho. cbn [watch_loop].
  unfold bind at 1. rewrite (continue_running_trailing_window _ _ r) by auto.
  now rewrite Ho.
Qed.

(** One round of the loop, when the check lets it run: ten milliseconds
    of sleep, one tick of the channel, its data appended and forwarded. *)
Lemma watch_loop_round fuel dl so se sp mml output w t c :
  continue_running exit_status_ready sp mml output w = (w, Ok true) ->
  chan w = t :: c ->
  watch_loop (S fuel) exit_status_ready dl so se sp mml output w
  = if past dl (now (after_round so se t w))
    then (after_round so se t w, Ok (after_round_output t output))
    else watch_loop fuel exit_status_ready dl so se sp mml
           (after_round_output t output) (after_round so se t w).
Proof.
  intros Hgo Hc. cbn [watch_loop]. unfold bind at 1. rewrite Hgo.
  destruct w as [ch pr nw lg]. cbn in Hc. subst ch.
  unfold after_round, after_round_output.
  destruct t as [es od ed el]. cbn.
  destruct od as [od |], ed as [ed |], so, se; cbn;
    rewrite ?append_nil_r, <- ?app_assoc; cbn;
    destruct (past dl (nw + 10 + el)); reflexivity.
Qed.

(** An occurrence before the window does not stop the loop: with no
    occurrence inside the window and the process still running, a round
    is run. *)
Lemma watch_loop_ignores_before_window fuel dl so se P r (m : Z) output w t c :
  Re.compile P = Some r -> 0 < m ->
  ~ Re.occurs r (trailing (Z.to_nat m) output) ->
  chan w = t :: c -> exit_status t = None ->
  watch_loop (S fuel) exit_status_ready dl so se (Some P) (Some m) output w
  = if past dl (now (after_round so se t w))
    then (after_round so se t w, Ok (after_round_output t output))
    else watch_loop fuel exit_status_ready dl so se (Some P) (Some m)
           (after_round_output t output) (after_round so se t w).
Proof.
  intros Hr Hm Ho Hc Ht.
  assert (Hs : Re.search r (trailing (Z.to_nat m) output) = false).
  { destruct (Re.search r _) eqn:E; [| reflexivity].
    exfalso. apply Ho. now apply search_occurs. }
  apply watch_loop_round with (c := c); [| exact Hc].
  rewrite (continue_running_trailing_window _ _ r) by auto. rewrite Hs.
  unfold bind, exit_status_ready. rewrite Hc, Ht. reflexivity.
Qed.

(** C1 (the code at the failing input).  With [max_match_length = 0] the
    slice [output[-0:]] is the whole transcript: the check behaves as
    with a window as long as the transcript.  On a channel that delivers
    "ab", the pattern "a" stops the watch after the first round although
    the trailing window of 0 characters is empty, while with a window of
    1 character (the "b") the same watch keeps waiting. *)
Theorem watch_command_zero_window_searches_all :
  (forall sc P output w,
     continue_running sc (Some P) (Some 0) output w
     = continue_running sc (Some P) (Some (len output)) output w)
  /\ (let w0 := demo_world [says "ab"; quiet_tick; quiet_tick] in
      trailing 0 "ab" = ""
      /\ watch_command None None true true (Some "a") (Some 0) w0
         = (mkWorld [quiet_tick; quiet_tick] [] 10 [Sleep 10; Stdout "ab"],
            Ok "ab")
      /\ snd (watch_command None None true true (Some "a") (Some 1) w0)
         = Pending).
Proof.
  split.
  - intros sc P output w. unfold continue_running, py_min.
    unfold bind at 1 3. unfold bind at 1 2. cbn.
    rewrite slice_from_zero.
    replace (slice_from (- Z.min (len output) (len output)) output)
      with output; [reflexivity |].
    rewrite Z.min_id. unfold slice_from, len.
    destruct output as [| c o]; [reflexivity |].
    replace (- Z.of_nat (String.length (String c o)) <? 0) with true
      by (symmetry; apply Z.ltb_lt; cbn [String.length]; lia).
    replace (Z.to_nat _) with O by lia. reflexivity.
  - cbv zeta. split; [reflexivity |]. split; vm_compute; reflexivity.
Qed.

(** ** C5: the value of a statistics query *)

Lemma get_stats_run subtype stat_name port s :
  pktgen_active (obj s) = true ->
  _get_stats subtype stat_name port s
  = match stats_watch (after_send (stats_query subtype stat_name port) (wld s))
    with
    | (w2, Ok output) =>
        ((obj s, w2),
         match last_opt (filter isdigit (split CRLF output)) with
         | Some ln => Ok (int ln)
         | None => Raise IndexError
         end)
    | (w2, Raise e) => ((obj s, w2), Raise e)
    | (w2, Pending) => ((obj s, w2), Pending)
    end.
Proof.
  intros Ha. unfold _get_stats.
  rewrite (bind_ok get_self _ s s (fst s)) by reflexivity.
  unfold obj in Ha. rewrite Ha.
  rewrite (bind_ok (assert_ true) _ s s tt) by reflexivity.
  rewrite (bind_ok (_send _) _ s
             (fst s, after_send (stats_query subtype stat_name port) (snd s)) tt)
    by reflexivity.
  unfold bind, io, stats_watch, wld, obj. cbn [fst snd].
  destruct (watch_command _ _ _ _ _ _ _) as [w2 [output | e |]];
    [| reflexivity | reflexivity].
  cbn [fst snd]. destruct (last_opt _); reflexivity.
Qed.

Lemma last_opt_snoc {A} (l : list A) x : last_opt (l ++ [x]) = Some x.
Proof. unfold last_opt. now rewrite rev_app_distr. Qed.

Lemma filter_none {A} (f : A -> bool) l :
  Forall (fun x => f x = false) l -> filter f l = [].
Proof.
  induction 1 as [| x l Hx _ IH]; cbn; [reflexivity |]. now rewrite Hx.
Qed.

(** [lines[-1]] of the filtered lines is the last line that passes the
    filter. *)
Lemma last_opt_filter {A} (f : A -> bool) l x :
  last_opt (filter f l) = Some x <->
  exists pre post,
    l = (pre ++ x :: post)%list /\ f x = true
    /\ Forall (fun y => f y = false) post.
Proof.
  split.
  - induction l as [| a l IH] using rev_ind; [discriminate |].
    rewrite filter_app. cbn [filter]. destruct (f a) eqn:E.
    + rewrite last_opt_snoc. intros H; inversion H; subst.
      exists l, []. auto.
    + rewrite app_nil_r. intros H.
      destruct (IH H) as [pre [post [El [Hx Hp]]]].
      exists pre, (post ++ [a])%list. subst l. rewrite <- app_assoc.
      split; [reflexivity | split; [exact Hx |]].
      apply Forall_app. auto.
  - intros [pre [post [El [Hx Hp]]]]. subst l.
    rewrite filter_app. cbn [filter]. rewrite Hx, (filter_none _ _ Hp).
    apply last_opt_snoc.
Qed.

(** C5.  When the wait of a statistics query returns a transcript, the
    query returns the integer value of the last line of the transcript
    (split on CR LF) that consists of digits only, and every value it
    returns is of that kind; the transcript with the digit-only lines
    "7" and "1523" yields 1523. *)
Theorem get_stats_returns_last_digit_line subtype stat_name port s w2 output :
  pktgen_active (obj s) = true ->
  stats_watch (after_send (stats_query subtype stat_name port) (wld s))
  = (w2, Ok output) ->
  (forall ln,
     last_digit_line (split CRLF output) ln ->
     _get_stats subtype stat_name port s = ((obj s, w2), Ok (int ln)))
  /\ (forall v,
        snd (_get_stats subtype stat_name port s) = Ok v ->
        exists ln, last_digit_line (split CRLF output) ln /\ v = int ln)
  /\ (let s0 := (demo_pktgen,
                 demo_world [says ("7" ++ CRLF ++ "1523" ++ prompt);
                             quiet_tick]) in
      filter isdigit (split CRLF ("7" ++ CRLF ++ "1523" ++ prompt))
      = ["7"; "1523"]
      /\ snd (_get_stats "port" "opackets" 1 s0) = Ok 1523).
Proof.
  intros Ha Hw. rewrite (get_stats_run _ _ _ _ Ha), Hw. split; [| split].
  - intros ln Hl. apply last_opt_filter in Hl. now rewrite Hl.
  - intros v. cbn [snd].
    destruct (last_opt (filter isdigit (split CRLF output))) as [ln |] eqn:E;
      [| discriminate].
    intros H; inversion H; subst. exists ln. split; [| reflexivity].
    now apply last_opt_filter.
  - cbv zeta. split; vm_compute; reflexivity.
Qed.

Lemma get_stats_returns_last_digit_line_witness :
  let s0 := (demo_pktgen,
             demo_world [says ("7" ++ CRLF ++ "1523" ++ prompt); quiet_tick]) in
  let w2 := mkWorld [quiet_tick] [] 10
              [Send (stats_query "port" "opackets" 1); Sleep 10;
               Stdout ("7" ++ CRLF ++ "1523" ++ prompt)] in
  pktgen_active (obj s0) = true
  /\ stats_watch (after_send (stats_query "port" "opackets" 1) (wld s0))
     = (w2, Ok ("7" ++ CRLF ++ "1523" ++ prompt))
  /\ last_digit_line (split CRLF ("7" ++ CRLF ++ "1523" ++ prompt)) "1523"
  /\ _get_stats "port" "opackets" 1 s0 = ((obj s0, w2), Ok (int "1523")).
Proof.
  cbv zeta.
  assert (Ha : pktgen_active
                 (obj (demo_pktgen,
                       demo_world [says ("7" ++ CRLF ++ "1523" ++ prompt);
                                   quiet_tick])) = true) by reflexivity.
  assert (Hw : stats_watch
                 (after_send (stats_query "port" "opackets" 1)
                    (wld (demo_pktgen,
                          demo_world [says ("7" ++ CRLF ++ "1523" ++ prompt);
                                      quiet_tick])))
               = (mkWorld [quiet_tick] [] 10
                    [Send (stats_query "port" "opackets" 1); Sleep 10;
                     Stdout ("7" ++ CRLF ++ "1523" ++ prompt)],
                  Ok ("7" ++ CRLF ++ "1523" ++ prompt)))
    by (vm_compute; reflexivity).
  assert (Hl : last_digit_line
                 (split CRLF ("7" ++ CRLF ++ "1523" ++ prompt)) "1523").
  { exists ["7"], ["Pktgen:/> "]. split; [vm_compute; reflexivity |].
    split; [reflexivity |]. repeat constructor. }
  split; [exact Ha |]. split; [exact Hw |]. split; [exact Hl |].
  exact (proj1 (get_stats_returns_last_digit_line _ _ _ _ _ _ Ha Hw) _ Hl).
Defined.

Lemma bind_assoc {S A B C} (m : M S A) (k : A -> M S B) (k' : B -> M S C) s :
  bind (bind m k) k' s = bind m (fun a => bind (k a) k') s.
Proof. unfold bind. destruct (m s) as [s1 [a | e |]]; reflexivity. Qed.

(** [commands] with one command, on an active generator: the command is
    sent, then the console's prompt awaited. *)
Lemma commands_one_run c timeout s :
  pktgen_active (obj s) = true ->
  commands (Cmd c) timeout s
  = match watch_command None timeout true true (Some prompt)
            (Some (len prompt)) (after_send (as_sent c) (wld s)) with
    | (w2, Ok _) => ((obj s, w2), Ok tt)
    | (w2, Raise e) => ((obj s, w2), Raise e)
    | (w2, Pending) => ((obj s, w2), Pending)
    end.
Proof.
  intros Ha. unfold commands.
  rewrite (bind_ok get_self _ s s (fst s)) by reflexivity.
  unfold obj in Ha. rewrite Ha.
  rewrite (bind_ok (assert_ true) _ s s tt) by reflexivity.
  unfold bind at 1. unfold io, run_console_commands. cbn [as_list run_each].
  rewrite (bind_ok (send _) _ (snd s) (after_send (as_sent c) (snd s)) tt)
    by reflexivity.
  unfold bind at 1. unfold wld, obj, prompt. cbn [option_map].
  destruct (watch_command _ _ _ _ _ _ _) as [w2 [o | e |]]; reflexivity.
Qed.

(** ** C8: [set_rate] checks the capacity first *)

Lemma valid_capacity_iff c :
  valid_capacity c = true <-> (0 < c)%Q /\ (c <= 100)%Q.
Proof.
  unfold valid_capacity. rewrite andb_true_iff, negb_true_iff.
  rewrite Qle_bool_iff. split.
  - intros [H1 H2]. split; [| exact H2]. apply Qnot_le_lt. intros H.
    apply Qle_bool_iff in H. congruence.
  - intros [H1 H2]. split; [| exact H2].
    destruct (Qle_bool c 0) eqn:E; [| reflexivity].
    apply Qle_bool_iff in E. exfalso. apply (Qlt_not_le _ _ H1 E).
Qed.

(** C8.  A capacity at or below 0, or above 100, makes [set_rate] fail
    with the state untouched: nothing has been sent.  A capacity above 0
    and at most 100, on an active generator, makes it send the
    rate-setting command as the next thing it does. *)
Theorem set_rate_checks_capacity str_number capacity tx_port_arg s :
  ((capacity <= 0)%Q \/ (100 < capacity)%Q ->
   set_rate str_number capacity tx_port_arg s = (s, Raise AssertionError))
  /\ ((0 < capacity)%Q -> (capacity <= 100)%Q ->
      pktgen_active (obj s) = true ->
      exists s' r rest,
        set_rate str_number capacity tx_port_arg s = (s', r)
        /\ log (wld s')
           = (log (wld s)
              ++ Send (as_sent ("set " ++ str (py_or tx_port_arg (tx_port (obj s)))
                                ++ " rate " ++ str_number capacity))
              :: rest)%list
        /\ sends rest = []).
Proof.
  split.
  - intros H. assert (Hv : valid_capacity capacity = false).
    { destruct (valid_capacity capacity) eqn:E; [| reflexivity].
      apply valid_capacity_iff in E. destruct E as [E1 E2].
      destruct H as [H | H]; exfalso.
      - apply (Qlt_not_le _ _ E1 H).
      - apply (Qlt_not_le _ _ H E2). }
    unfold set_rate. rewrite Hv. reflexivity.
  - intros H1 H2 Ha.
    assert (Hv : valid_capacity capacity = true)
      by (apply valid_capacity_iff; auto).
    unfold set_rate. rewrite Hv.
    rewrite (bind_ok (assert_ true) _ s s tt) by reflexivity.
    rewrite (bind_ok get_self _ s s (fst s)) by reflexivity.
    rewrite commands_one_run by exact Ha.
    destruct (watch_command _ _ _ _ _ _ _) as [w2 r] eqn:E.
    apply listens_watch_command in E.
    destruct E as [[rest [Hl [Hs _]]] _]. cbn in Hl.
    destruct r as [o | e |]; eexists; eexists; exists rest;
      (split; [reflexivity |]); cbn [wld snd];
      rewrite Hl, <- app_assoc; (split; [reflexivity | exact Hs]).
Qed.

Lemma set_rate_checks_capacity_witness :
  let s0 := (demo_pktgen, demo_world [says prompt; quiet_tick]) in
  let number := fun q : Q => str (Qnum q / Zpos (Qden q)) in
  ((0 <= 0)%Q \/ (100 < 0)%Q)
  /\ set_rate number 0 None s0 = (s0, Raise AssertionError)
  /\ (0 < 10)%Q /\ (10 <= 100)%Q /\ pktgen_active (obj s0) = true
  /\ exists s' r rest,
       set_rate number 10 None s0 = (s', r)
       /\ log (wld s')
          = (log (wld s0) ++ Send (as_sent "set 1 rate 10") :: rest)%list
       /\ sends rest = [].
Proof.
  cbv zeta.
  assert (H0 : (0 <= 0)%Q \/ (100 < 0)%Q) by (left; apply Qle_refl).
  assert (H1 : (0 < 10)%Q) by reflexivity.
  assert (H2 : (10 <= 100)%Q) by (unfold Qle; cbn; lia).
  split; [exact H0 |].
  split;
    [exact (proj1 (set_rate_checks_capacity _ 0%Q None _) H0) |].
  split; [exact H1 |]. split; [exact H2 |]. split; [reflexivity |].
  exact (proj2 (set_rate_checks_capacity
                  (fun q : Q => str (Qnum q / Zpos (Qden q))) 10%Q None
                  (demo_pktgen, demo_world [says prompt; quiet_tick]))
           H1 H2 eq_refl).
Defined.

(** ** C10 and C2: waiting for the transmission *)

Lemma transmission_loop_done fuel pkts_tx s :
  target_pkt_tx (obj s) <= pkts_tx ->
  transmission_loop fuel pkts_tx s = (s, Ok tt).
Proof.
  intros H. destruct fuel; cbn [transmission_loop];
    rewrite (bind_ok get_self _ s s (fst s)) by reflexivity;
    unfold obj in H;
    replace (pkts_tx <? target_pkt_tx (fst s)) with false
      by (symmetry; apply Z.ltb_ge; exact H);
    reflexivity.
Qed.

Lemma transmission_loop_step fuel pkts_tx s :
  pkts_tx < target_pkt_tx (obj s) ->
  transmission_loop (S fuel) pkts_tx s
  = bind poll
      (fun v => if pkts_tx =? v then raise no_progress
                else transmission_loop fuel v) s.
Proof.
  intros H. cbn [transmission_loop].
  rewrite (bind_ok get_self _ s s (fst s)) by reflexivity.
  unfold obj in H.
  replace (pkts_tx <? target_pkt_tx (fst s)) with true
    by (symmetry; apply Z.ltb_lt; exact H).
  unfold poll. now rewrite bind_assoc.
Qed.

Lemma wait_transmission_done_run s :
  pktgen_active (obj s) = true ->
  wait_transmission_done s
  = transmission_loop (S (List.length (chan (wld s)))) 0 s.
Proof.
  intros Ha. unfold wait_transmission_done.
  rewrite (bind_ok get_self _ s s (fst s)) by reflexivity.
  unfold obj in Ha. rewrite Ha.
  rewrite (bind_ok (assert_ true) _ s s tt) by reflexivity. reflexivity.
Qed.

(** C10.  The remembered count starts at 0: with a positive target, a
    first poll that reads 0 makes [wait_transmission_done] raise the
    no-progress error right after that one poll. *)
Theorem first_poll_zero_is_no_progress s s1 :
  pktgen_active (obj s) = true ->
  0 < target_pkt_tx (obj s) ->
  poll s = (s1, Ok 0) ->
  wait_transmission_done s = (s1, Raise no_progress).
Proof.
  intros Ha Ht Hp. rewrite wait_transmission_done_run by exact Ha.
  rewrite transmission_loop_step by exact Ht.
  rewrite (bind_ok poll _ s s1 0 Hp). reflexivity.
Qed.

Lemma first_poll_zero_is_no_progress_witness :
  pktgen_active (obj silent_start) = true
  /\ 0 < target_pkt_tx (obj silent_start)
  /\ poll silent_start = (fst (poll silent_start), Ok 0)
  /\ sends (log (wld (fst (poll silent_start))))
     = [stats_query "port" "opackets" 1]
  /\ wait_transmission_done silent_start
     = (fst (poll silent_start), Raise no_progress).
Proof.
  assert (Hp : poll silent_start = (fst (poll silent_start), Ok 0))
    by (vm_compute; reflexivity).
  split; [reflexivity |]. split; [reflexivity |]. split; [exact Hp |].
  split; [vm_compute; reflexivity |].
  exact (first_poll_zero_is_no_progress silent_start _ eq_refl eq_refl Hp).
Defined.

(** The check of the loop reads the channel's state and changes
    nothing; it lets the loop run only while the process has not
    exited. *)
Lemma continue_running_cases sp mml output w w1 r :
  continue_running exit_status_ready sp mml output w = (w1, r) ->
  w1 = w /\
  match r with
  | Ok true => exists t c, chan w = t :: c /\ exit_status t = None
  | Ok false =>
      (exists p m, sp = Some p /\ mml = Some m /\ found_in_window p m output)
      \/ has_exited w
  | _ => True
  end.
Proof.
  unfold continue_running. intros H.
  assert (Hesr : forall w2 r2,
             bind exit_status_ready (fun stopped => ret (negb stopped)) w
             = (w2, r2) ->
             w2 = w /\
             match r2 with
             | Ok true => exists t c, chan w = t :: c /\ exit_status t = None
             | Ok false => has_exited w
             | _ => True
             end).
  { intros w2 r2. unfold bind, exit_status_ready, has_exited.
    destruct (chan w) as [| t c] eqn:Ec.
    - intros H2; inversion H2; subst. auto.
    - destruct (exit_status t) eqn:Et; cbn; intros H2; inversion H2; subst;
        (split; [reflexivity |]).
      + exists t, c. split; [reflexivity | congruence].
      + exists t, c. auto. }
  destruct sp as [p |].
  - destruct mml as [m |].
    + unfold py_min, re_search in H.
      destruct (Re.compile p) as [rx |] eqn:Ec.
      * unfold bind at 1 2 in H. cbn in H.
        destruct (Re.search rx _) eqn:Es.
        -- inversion H; subst. split; [reflexivity |]. left.
           exists p, m. split; [reflexivity |]. split; [reflexivity |].
           exists rx. auto.
        -- apply Hesr in H. destruct H as [-> H]. split; [reflexivity |].
           destruct r as [[|] | |]; auto.
      * inversion H; subst. auto.
    + inversion H; subst. auto.
  - unfold bind at 1 in H. cbn in H. apply Hesr in H. destruct H as [-> H].
    split; [reflexivity |]. destruct r as [[|] | |]; auto.
Qed.

(** A watch that returns has either taken a tick of the channel or
    returns the transcript it started from. *)
Lemma watch_loop_takes_tick fuel dl so se sp mml output w w' out' :
  watch_loop fuel exit_status_ready dl so se sp mml output w = (w', Ok out') ->
  (w' = w /\ out' = output)
  \/ (List.length (chan w') < List.length (chan w))%nat.
Proof.
  destruct fuel as [| fuel]; [discriminate |]. intros H.
  destruct (continue_running exit_status_ready sp mml output w) as [w1 r]
    eqn:Ec.
  pose proof (continue_running_cases _ _ _ _ _ _ Ec) as [-> Hr].
  destruct r as [[|] | e |].
  - destruct Hr as [t [c [Hc _]]].
    rewrite (watch_loop_round _ _ _ _ _ _ _ _ _ _ Ec Hc) in H.
    right. rewrite Hc. cbn [List.length].
    destruct (past dl _).
    + inversion H; subst. cbn. rewrite Hc. cbn. lia.
    + apply listens_watch_loop, listens_chan_length in H.
      cbn in H. rewrite Hc in H. cbn in H. lia.
  - cbn [watch_loop] in H. unfold bind at 1 in H. rewrite Ec in H.
    inversion H; subst. auto.
  - cbn [watch_loop] in H. unfold bind at 1 in H. rewrite Ec in H.
    discriminate.
  - cbn [watch_loop] in H. unfold bind at 1 in H. rewrite Ec in H.
    discriminate.
Qed.

Lemma get_stats_obj subtype stat_name port s s' r :
  _get_stats subtype stat_name port s = (s', r) -> obj s' = obj s.
Proof.
  destruct (pktgen_active (obj s)) eqn:Ha.
  - rewrite get_stats_run by exact Ha.
    destruct (stats_watch _) as [w2 [o | e |]]; intros H; inversion H;
      reflexivity.
  - unfold _get_stats.
    rewrite (bind_ok get_self _ s s (fst s)) by reflexivity.
    unfold obj in Ha. rewrite Ha. intros H; inversion H; reflexivity.
Qed.

(** A statistics query that returns a value has taken a tick of the
    channel. *)
Lemma get_stats_takes_tick subtype stat_name port s s' v :
  _get_stats subtype stat_name port s = (s', Ok v) ->
  (List.length (chan (wld s')) < List.length (chan (wld s)))%nat.
Proof.
  destruct (pktgen_active (obj s)) eqn:Ha.
  - rewrite get_stats_run by exact Ha.
    destruct (stats_watch _) as [w2 [o | e |]] eqn:E; [| discriminate ..].
    unfold stats_watch, watch_command in E.
    apply watch_loop_takes_tick in E. destruct E as [[_ ->] | E].
    + discriminate.
    + intros H; inversion H; subst. exact E.
  - unfold _get_stats.
    rewrite (bind_ok get_self _ s s (fst s)) by reflexivity.
    unfold obj in Ha. rewrite Ha. discriminate.
Qed.

Lemma poll_run s :
  poll s
  = _get_stats "port" "opackets" (tx_port (obj s))
      (obj s, mkWorld (chan (wld s)) (procs (wld s)) (now (wld s) + 1000)
                (log (wld s) ++ [Sleep 1000])).
Proof.
  unfold poll, get_nb_tx_pkts. unfold bind at 1. cbn. reflexivity.
Qed.

Lemma poll_obj s s' r : poll s = (s', r) -> obj s' = obj s.
Proof. rewrite poll_run. intros H. now apply get_stats_obj in H. Qed.

Lemma poll_takes_tick s s' v :
  poll s = (s', Ok v) ->
  (List.length (chan (wld s')) < List.length (chan (wld s)))%nat.
Proof. rewrite poll_run. intros H. now apply get_stats_takes_tick in H. Qed.

(** The loop, run over polls that advance and then a last one. *)
Lemma transmission_loop_polls pre :
  forall s s' c old p fuel,
    polls s (pre ++ [c]) s' ->
    advancing (target_pkt_tx (obj s)) old pre p ->
    p < target_pkt_tx (obj s) ->
    (List.length (chan (wld s)) < fuel)%nat ->
    (c = p -> transmission_loop fuel old s = (s', Raise no_progress))
    /\ (c <> p -> target_pkt_tx (obj s) <= c ->
        transmission_loop fuel old s = (s', Ok tt)).
Proof.
  induction pre as [| v pre IH]; intros s s' c old p fuel Hp Ha Hlt Hf.
  - inversion Ha; subst. cbn in Hp. inversion Hp; subst.
    match goal with [ H : polls _ [] _ |- _ ] => inversion H; subst end.
    destruct fuel as [| fuel]; [lia |].
    rewrite transmission_loop_step by exact Hlt.
    match goal with [ H : poll _ = _ |- _ ] =>
      rewrite (bind_ok poll _ _ _ _ H); pose proof (poll_obj _ _ _ H) as Ho
    end.
    split.
    + intros ->. now rewrite Z.eqb_refl.
    + intros Hne Hge. replace (p =? c) with false
        by (symmetry; apply Z.eqb_neq; congruence).
      apply transmission_loop_done. now rewrite Ho.
  - inversion Ha; subst. cbn in Hp. inversion Hp; subst.
    destruct fuel as [| fuel]; [lia |].
    rewrite transmission_loop_step by assumption.
    match goal with [ H : poll _ = _ |- _ ] =>
      rewrite (bind_ok poll _ _ _ _ H); pose proof (poll_obj _ _ _ H) as Ho;
      pose proof (poll_takes_tick _ _ _ H) as Hk
    end.
    replace (old =? v) with false
      by (symmetry; apply Z.eqb_neq; congruence).
    rewrite <- Ho in *. apply IH with (p := p); auto. lia.
Qed.

(** C2 (amended).  [wait_transmission_done], on an active generator,
    returns at once when the target is not positive; otherwise it polls
    the counter, each poll a second of sleep and then the query of the
    tx port's [opackets].  While each polled count is below the target
    and differs from the count remembered before it (0 before the first
    poll) it keeps polling; the first poll that equals the remembered
    count raises the no-progress error, and the first that reaches the
    target makes it return. *)
Theorem wait_transmission_done_polls s :
  pktgen_active (obj s) = true ->
  (target_pkt_tx (obj s) <= 0 -> wait_transmission_done s = (s, Ok tt))
  /\ (forall pre c s' p,
        polls s (pre ++ [c]) s' ->
        advancing (target_pkt_tx (obj s)) 0 pre p ->
        p < target_pkt_tx (obj s) ->
        (c = p -> wait_transmission_done s = (s', Raise no_progress))
        /\ (c <> p -> target_pkt_tx (obj s) <= c ->
            wait_transmission_done s = (s', Ok tt)))
  /\ (forall s1 r,
        poll s = (s1, r) ->
        exists rest,
          log (wld s1)
          = (log (wld s)
             ++ Sleep 1000
             :: Send (stats_query "port" "opackets" (tx_port (obj s)))
             :: rest)%list
          /\ sends rest = []).
Proof.
  intros Ha. split; [| split].
  - intros Ht. rewrite wait_transmission_done_run by exact Ha.
    now apply transmission_loop_done.
  - intros pre c s' p Hp Hadv Hlt.
    rewrite wait_transmission_done_run by exact Ha.
    apply transmission_loop_polls with (pre := pre); auto.
  - intros s1 r. rewrite poll_run, get_stats_run by exact Ha.
    destruct (stats_watch _) as [w2 rw] eqn:E.
    unfold stats_watch in E. apply listens_watch_command in E.
    destruct E as [[rest [Hl [Hs _]]] _]. cbn in Hl.
    intros H. exists rest. split; [| exact Hs].
    destruct rw as [o | e |]; inversion H; subst; cbn [wld snd];
      rewrite Hl, <- !app_assoc; reflexivity.
Qed.

Lemma wait_transmission_done_polls_witness :
  let s1 := fst (poll stalled_run) in
  let s2 := fst (poll s1) in
  let t2 := fst (poll (fst (poll finished_run))) in
  pktgen_active (obj stalled_run) = true
  /\ polls stalled_run ([400] ++ [400]) s2
  /\ advancing (target_pkt_tx (obj stalled_run)) 0 [400] 400
  /\ 400 < target_pkt_tx (obj stalled_run)
  /\ wait_transmission_done stalled_run = (s2, Raise no_progress)
  /\ polls finished_run ([400] ++ [1000]) t2
  /\ wait_transmission_done finished_run = (t2, Ok tt).
Proof.
  cbv zeta.
  assert (Ha : pktgen_active (obj stalled_run) = true) by reflexivity.
  assert (Hb : pktgen_active (obj finished_run) = true) by reflexivity.
  assert (Hp : polls stalled_run ([400] ++ [400])
                 (fst (poll (fst (poll stalled_run))))).
  { apply polls_cons with (s1 := fst (poll stalled_run));
      [vm_compute; reflexivity |].
    apply polls_cons with (s1 := fst (poll (fst (poll stalled_run))));
      [vm_compute; reflexivity | constructor]. }
  assert (Hq : polls finished_run ([400] ++ [1000])
                 (fst (poll (fst (poll finished_run))))).
  { apply polls_cons with (s1 := fst (poll finished_run));
      [vm_compute; reflexivity |].
    apply polls_cons with (s1 := fst (poll (fst (poll finished_run))));
      [vm_compute; reflexivity | constructor]. }
  assert (Hadv : advancing 1000 0 [400] 400)
    by (constructor; [lia | lia | constructor]).
  assert (Hlt : 400 < 1000) by lia.
  split; [exact Ha |]. split; [exact Hp |]. split; [exact Hadv |].
  split; [exact Hlt |].
  split;
    [exact (proj1 (proj1 (proj2 (wait_transmission_done_polls _ Ha))
                     [400] 400 _ 400 Hp Hadv Hlt) eq_refl) |].
  split; [exact Hq |].
  refine (proj2 (proj1 (proj2 (wait_transmission_done_polls _ Hb))
                   [400] 1000 _ 400 Hq Hadv Hlt) _ _); cbn; lia.
Defined.

(** C2 as stated fails: a no-progress error does not need two polls
    that agree.  From [silent_start] the first poll reads 0 and the
    error is raised, with no second poll. *)
Lemma no_progress_without_two_equal_polls :
  ~ (forall s s',
       pktgen_active (obj s) = true ->
       wait_transmission_done s = (s', Raise no_progress) ->
       exists pre c s2, polls s (pre ++ [c; c]) s2).
Proof.
  intros H.
  destruct (H silent_start (fst (poll silent_start)) eq_refl)
    as [pre [c [s2 Hp]]]; [vm_compute; reflexivity |].
  assert (Hsecond : forall v vs s3,
             ~ polls (fst (poll silent_start)) (v :: vs) s3).
  { intros v vs s3 Hq. inversion Hq; subst.
    assert (Hpend : snd (poll (fst (poll silent_start))) = Pending)
      by (vm_compute; reflexivity).
    match goal with [ E : poll _ = _ |- _ ] => rewrite E in Hpend end.
    discriminate. }
  destruct pre as [| v pre]; cbn in Hp; inversion Hp; subst;
    match goal with
    | [ E : poll silent_start = (?s1, _) |- _ ] =>
        assert (s1 = fst (poll silent_start)) by (now rewrite E); subst s1
    end.
  - eapply Hsecond; eauto.
  - destruct pre; cbn in *; eapply Hsecond; eauto.
Qed.

(** ** C3 and C4: the calls of [remote_command] in [setup] and
       [launch_console] *)

(** The keywords [launch] of the generator passes are parameters of
    [remote_command]; [dir] and [source_bashrc] are not. *)
Lemma call_remote_command_accepted cmd :
  call_remote_command ["pty"; "print_command"] cmd = remote_command cmd.
Proof. reflexivity. Qed.

Lemma call_remote_command_rejected cmd w :
  call_remote_command ["pty"; "dir"; "source_bashrc"] cmd w
  = (w, Raise TypeError).
Proof. reflexivity. Qed.

Lemma client_then_type_error_run (ssh_client : M world unit) w :
  snd (@client_then_type_error unit ssh_client w) <> Ok tt
  /\ fst (@client_then_type_error unit ssh_client w) = fst (ssh_client w)
  /\ (forall w1,
        ssh_client w = (w1, Ok tt) ->
        @client_then_type_error unit ssh_client w = (w1, Raise TypeError)).
Proof.
  unfold client_then_type_error, bind.
  destruct (ssh_client w) as [w1 [[] | e |]]; cbn;
    (split; [discriminate |]); (split; [reflexivity |]);
    intros w2 H; inversion H; subst; reflexivity.
Qed.

Lemma load_bitstream_loop_raises ssh_client fuel self retries w :
  load_bitstream_loop ssh_client (S fuel) self retries w
  = client_then_type_error ssh_client w.
Proof.
  cbn [load_bitstream_loop]. unfold client_then_type_error, bind.
  destruct (ssh_client w) as [w1 [[] | e |]]; reflexivity.
Qed.

Lemma launch_console_loop_raises ssh_client fuel self max_retries retries w :
  launch_console_loop ssh_client (S fuel) self max_retries retries w
  = client_then_type_error ssh_client w.
Proof.
  cbn [launch_console_loop]. unfold client_then_type_error, bind.
  destruct (ssh_client w) as [w1 [[] | e |]]; reflexivity.
Qed.

Lemma launch_console_raises ssh_client self max_retries w :
  launch_console ssh_client self max_retries w
  = client_then_type_error ssh_client w.
Proof.
  unfold launch_console. unfold bind at 1.
  rewrite launch_console_loop_raises.
  unfold client_then_type_error, bind.
  destruct (ssh_client w) as [w1 [[] | e |]]; reflexivity.
Qed.

(** C3 (the code differs).  [setup] never reaches an attempt of the
    bitstream load: its first call of [remote_command] passes the
    keywords [dir] and [source_bashrc], which the function does not
    take, so once the client has been obtained the call is a
    [TypeError].  Whatever [load_bitstream] is, [setup] does not return
    and leaves the world as obtaining the client left it; on a board
    whose loader would exit with status 0 and whose console would list
    one device, with the client connected, it raises [TypeError] and
    has started nothing. *)
Theorem setup_call_is_a_type_error ssh_client self load_bitstream w :
  setup ssh_client self load_bitstream w = client_then_type_error ssh_client w
  /\ snd (setup ssh_client self load_bitstream w) <> Ok tt
  /\ fst (setup ssh_client self load_bitstream w) = fst (ssh_client w)
  /\ (forall w1,
        ssh_client w = (w1, Ok tt) ->
        setup ssh_client self load_bitstream w = (w1, Raise TypeError))
  /\ setup connected demo_fpga true healthy_board
     = (healthy_board, Raise TypeError)
  /\ launches (log healthy_board) = [].
Proof.
  assert (E : setup ssh_client self load_bitstream w
              = client_then_type_error ssh_client w).
  { unfold setup. unfold bind at 1. destruct load_bitstream.
    - rewrite load_bitstream_loop_raises.
      unfold client_then_type_error, bind.
      destruct (ssh_client w) as [w1 [[] | e |]]; reflexivity.
    - cbn [ret]. apply launch_console_raises. }
  destruct (client_then_type_error_run ssh_client w) as (Hn & Hw & Hr).
  rewrite E. split; [reflexivity |]. split; [exact Hn |].
  split; [exact Hw |]. split; [exact Hr |].
  split; reflexivity.
Qed.

(** C4 (the code differs).  [launch_console] never reaches the
    detection of the device: its call of [remote_command] passes the
    keywords [dir] and [source_bashrc], which the function does not
    take, so once the client has been obtained the call is a
    [TypeError], whatever [max_retries] is.  On a console that would
    list exactly one device, with the client connected, it raises
    [TypeError]; no console is started and nothing is sent, neither
    [set_jtag] nor the interrupt byte. *)
Theorem launch_console_call_is_a_type_error ssh_client self max_retries w :
  launch_console ssh_client self max_retries w
  = client_then_type_error ssh_client w
  /\ snd (launch_console ssh_client self max_retries w) <> Ok tt
  /\ fst (launch_console ssh_client self max_retries w) = fst (ssh_client w)
  /\ (forall w1,
        ssh_client w = (w1, Ok tt) ->
        launch_console ssh_client self max_retries w = (w1, Raise TypeError))
  /\ (let w0 := starting [console_with_device] in
      launch_console connected demo_fpga 5 w0 = (w0, Raise TypeError)
      /\ List.length (device_lines demo_fpga
                        (opt_data (out_data (nth 1 console_with_device
                                               quiet_tick)))) = 1%nat
      /\ launches (log w0) = [] /\ sends (log w0) = []).
Proof.
  destruct (client_then_type_error_run ssh_client w) as (Hn & Hw & Hr).
  rewrite launch_console_raises.
  split; [reflexivity |]. split; [exact Hn |].
  split; [exact Hw |]. split; [exact Hr |].
  cbv zeta. split; [reflexivity |].
  split; [vm_compute; reflexivity |]. split; reflexivity.
Qed.

(** ** C6: readiness *)







(** A statistics query sends its text as the first thing it does, and
    leaves the object as it is. *)
Lemma get_stats_sends_at_once subtype stat_name port s s' r :
  pktgen_active (obj s) = true ->
  _get_stats subtype stat_name port s = (s', r) ->
  obj s' = obj s
  /\ exists rest,
       log (wld s')
       = (log (wld s) ++ Send (stats_query subtype stat_name port) :: rest)%list
       /\ sends rest = [].
Proof.
  intros Ha H. split; [now apply get_stats_obj in H |].
  rewrite get_stats_run in H by exact Ha.
  destruct (stats_watch _) as [w2 rw] eqn:E.
  unfold stats_watch in E. apply listens_watch_command in E.
  destruct E as [[rest [Hl [Hs _]]] _]. cbn in Hl.
  exists rest. split; [| exact Hs].
  destruct rw as [o | e |]; inversion H; subst; cbn [wld snd];
    rewrite Hl, <- app_assoc; reflexivity.
Qed.




(** ** The target of a transmission run *)

(** [start] with 1000 packets, when the counter reads 500, sets the
    target to 1500. *)
Example start_sets_target :
  let s0 := (set_ready true demo_pktgen,
             demo_world [says (CRLF ++ "500" ++ prompt); says prompt;
                         says prompt; says prompt; quiet_tick]) in
  let '(s1, r) := start (fun _ => "10") 10 1000 None s0 in
  r = Ok tt /\ target_pkt_tx (obj s1) = 1500
  /\ sends (log (wld s1))
     = [stats_query "port" "opackets" 1; as_sent "set 1 count 1000";
        as_sent "set 1 rate 10"; as_sent "start 1"].
Proof. vm_compute. repeat split. Qed.

(** ** C9: an explicit [tx_port=0] *)

Lemma stop_sends port s s' :
  stop port s = (s', Ok tt) ->
  sends (log (wld s'))
  = (sends (log (wld s))
     ++ [as_sent ("stop " ++ str (py_or port (tx_port (obj s))))])%list.
Proof.
  intros H. unfold stop in H.
  rewrite (bind_ok get_self _ s s (fst s)) in H by reflexivity.
  destruct (pktgen_active (fst s)); [| discriminate].
  rewrite (bind_ok (assert_ true) _ s s tt) in H by reflexivity.
  apply commands_sends in H. destruct H as [_ [k [Hs Hk]]].
  destruct (Hk eq_refl) as [_ ->]. rewrite Hs. reflexivity.
Qed.

Lemma set_rate_sends str_number capacity port s s' :
  set_rate str_number capacity port s = (s', Ok tt) ->
  sends (log (wld s'))
  = (sends (log (wld s))
     ++ [as_sent ("set " ++ str (py_or port (tx_port (obj s))) ++ " rate "
                  ++ str_number capacity)])%list.
Proof.
  intros H. unfold set_rate in H.
  destruct (valid_capacity capacity); [| discriminate].
  rewrite (bind_ok (assert_ true) _ s s tt) in H by reflexivity.
  rewrite (bind_ok get_self _ s s (fst s)) in H by reflexivity.
  apply commands_sends in H. destruct H as [_ [k [Hs Hk]]].
  destruct (Hk eq_refl) as [_ ->]. rewrite Hs. reflexivity.
Qed.

(** What [start] has sent when it returns: the query of the counter of
    the object's own tx port, then its commands for the port chosen. *)
Lemma start_sends str_number capacity nb_pkts port s s' :
  start str_number capacity nb_pkts port s = (s', Ok tt) ->
  sends (log (wld s'))
  = (sends (log (wld s))
     ++ stats_query "port" "opackets" (tx_port (obj s))
     :: map as_sent
          (start_commands (use_pcap (obj s))
             (py_or port (tx_port (obj s))) nb_pkts
             (str_number capacity)))%list.
Proof.
  intros H. unfold start in H.
  rewrite (bind_ok get_self _ s s (fst s)) in H by reflexivity.
  destruct (pktgen_active (fst s)) eqn:Ha; [| discriminate].
  rewrite (bind_ok (assert_ true) _ s s tt) in H by reflexivity.
  unfold bind at 1 in H.
  destruct ((if negb (ready (fst s)) then wait_ready false false else ret tt) s)
    as [s0 [[] | e |]] eqn:E0; [| discriminate | discriminate].
  assert (H0 : sends (log (wld s0)) = sends (log (wld s))
               /\ pktgen_active (obj s0) = true
               /\ tx_port (obj s0) = tx_port (obj s)
               /\ use_pcap (obj s0) = use_pcap (obj s)).
  { destruct (negb (ready (fst s))).
    - apply wait_ready_effect in E0. destruct E0 as [L [Hok _]].
      rewrite (Hok eq_refl). split; [now apply listens_sends |].
      repeat split; [exact Ha].
    - inversion E0; subst. repeat split; exact Ha. }
  destruct H0 as (Hs0 & Ha0 & Ht0 & Hu0).
  rewrite (bind_ok get_self _ s0 s0 (fst s0)) in H by reflexivity.
  unfold bind at 1 in H.
  destruct (get_nb_tx_pkts None s0) as [s1 [sent | e |]] eqn:Eg;
    [| discriminate ..].
  assert (Eg' : _get_stats "port" "opackets" (tx_port (obj s0)) s0
                = (s1, Ok sent)).
  { unfold get_nb_tx_pkts in Eg.
    rewrite (bind_ok get_self _ s0 s0 (fst s0)) in Eg by reflexivity.
    exact Eg. }
  destruct (get_stats_sends_at_once _ _ _ _ _ _ Ha0 Eg')
    as [Ho [rest [Hl Hs]]].
  rewrite (bind_ok (update _) _ s1
             (set_target_pkt_tx (sent + nb_pkts) (fst s1), snd s1) tt) in H
    by reflexivity.
  apply commands_sends in H. destruct H as [_ [k [Hk Hall]]].
  destruct (Hall eq_refl) as [_ Hlen].
  assert (Hs1 : sends (log (snd s1))
                = (sends (log (wld s))
                   ++ [stats_query "port" "opackets" (tx_port (obj s))])%list).
  { unfold wld in Hl. rewrite Hl, sends_app.
    change (sends (Send (stats_query "port" "opackets" (tx_port (obj s0)))
                   :: rest))
      with (stats_query "port" "opackets" (tx_port (obj s0)) :: sends rest).
    rewrite Hs, Ht0. unfold wld in Hs0. now rewrite Hs0. }
  rewrite Hk. cbn [wld snd]. rewrite Hs1, Hlen.
  rewrite firstn_all2 by (rewrite length_map; lia).
  rewrite <- app_assoc. unfold obj in Hu0. rewrite Hu0.
  reflexivity.
Qed.

(** C9.  [start], [set_rate] and [stop] called with [tx_port=0] do what
    they do with the argument left out, and what that is: the port 0 is
    replaced by the object's own [tx_port], which is the port the
    commands they send name ([start] after the query of the counter).
    [set_params] called with [tx_port=0] addresses port 0: when it
    returns, what it has sent is the six range commands for port 0, and
    with the argument left out the six for the object's [tx_port]. *)
Theorem tx_port_zero_is_default str_number capacity nb_pkts s :
  start str_number capacity nb_pkts (Some 0) s
  = start str_number capacity nb_pkts None s
  /\ set_rate str_number capacity (Some 0) s
     = set_rate str_number capacity None s
  /\ stop (Some 0) s = stop None s
  /\ (forall s',
        start str_number capacity nb_pkts (Some 0) s = (s', Ok tt) ->
        sends (log (wld s'))
        = (sends (log (wld s))
           ++ stats_query "port" "opackets" (tx_port (obj s))
           :: map as_sent
                (start_commands (use_pcap (obj s)) (tx_port (obj s)) nb_pkts
                   (str_number capacity)))%list)
  /\ (forall s',
        set_rate str_number capacity (Some 0) s = (s', Ok tt) ->
        sends (log (wld s'))
        = (sends (log (wld s))
           ++ [as_sent ("set " ++ str (tx_port (obj s)) ++ " rate "
                        ++ str_number capacity)])%list)
  /\ (forall s',
        stop (Some 0) s = (s', Ok tt) ->
        sends (log (wld s'))
        = (sends (log (wld s))
           ++ [as_sent ("stop " ++ str (tx_port (obj s)))])%list)
  /\ (forall pkt_size nb_src nb_dst init_ip init_port arg s',
        set_params pkt_size nb_src nb_dst init_ip init_port arg s
        = (s', Ok tt) ->
        exists max_src_ip max_dst_ip,
          sends (log (wld s'))
          = (sends (log (wld s))
             ++ map as_sent
                  (range_commands
                     (match arg with Some p => p | None => tx_port (obj s) end)
                     init_port pkt_size max_src_ip max_dst_ip))%list).
Proof.
  split; [reflexivity |]. split; [reflexivity |]. split; [reflexivity |].
  split; [intros s' H; exact (start_sends _ _ _ _ _ _ H) |].
  split; [intros s' H; exact (set_rate_sends _ _ _ _ _ H) |].
  split; [intros s' H; exact (stop_sends _ _ _ H) |].
  intros pkt_size nb_src nb_dst init_ip init_port arg s' H.
  unfold set_params in H.
  destruct (ip_range_max _ nb_src) as [max_src |]; [| discriminate].
  destruct (ip_range_max _ nb_dst) as [max_dst |]; [| discriminate].
  exists max_src, max_dst.
  rewrite (bind_ok get_self _ s s (fst s)) in H by reflexivity.
  unfold bind at 1 in H.
  destruct ((if negb (ready (fst s)) then wait_ready false false else ret tt) s)
    as [s1 [[] | e |]] eqn:E1; [| discriminate | discriminate].
  assert (Hs1 : sends (log (wld s1)) = sends (log (wld s))).
  { destruct (negb (ready (fst s))).
    - apply wait_ready_effect in E1. destruct E1 as [L _].
      now apply listens_sends.
    - inversion E1; subst. reflexivity. }
  apply commands_sends in H. destruct H as [_ [k [Hs Hk]]].
  destruct (Hk eq_refl) as [_ ->]. rewrite Hs, Hs1.
  cbn [as_list]. rewrite firstn_all2 by (cbn; lia). reflexivity.
Qed.

Lemma tx_port_zero_is_default_witness :
  let number := fun q : Q => str (Qnum q / Zpos (Qden q)) in
  let s0 := (set_ready true demo_pktgen,
             demo_world [says prompt; says prompt; says prompt; says prompt;
                         says prompt; says prompt; quiet_tick]) in
  tx_port (obj s0) = 1
  /\ sends (log (wld (fst (stop (Some 0) s0)))) = [as_sent "stop 1"]
  /\ sends (log (wld (fst (set_rate number 10 (Some 0) s0))))
     = [as_sent "set 1 rate 10"]
  /\ sends (log (wld (fst (start number 10 1000 (Some 0) ready_at_500))))
     = stats_query "port" "opackets" 1
       :: map as_sent (start_commands false 1 1000 "10")
  /\ exists max_src_ip max_dst_ip,
       sends (log (wld (fst (set_params 64 4 2 (Some "10.0.0.0") 0 (Some 0)
                               s0))))
       = map as_sent (range_commands 0 0 64 max_src_ip max_dst_ip).
Proof.
  cbv zeta.
  set (number := fun q : Q => str (Qnum q / Zpos (Qden q))).
  set (s0 := (set_ready true demo_pktgen,
              demo_world [says prompt; says prompt; says prompt; says prompt;
                          says prompt; says prompt; quiet_tick])).
  assert (Hstop : stop (Some 0) s0 = (fst (stop (Some 0) s0), Ok tt))
    by (vm_compute; reflexivity).
  assert (Hrate : set_rate number 10 (Some 0) s0
                  = (fst (set_rate number 10 (Some 0) s0), Ok tt))
    by (vm_compute; reflexivity).
  assert (Hstart : start number 10 1000 (Some 0) ready_at_500
                   = (fst (start number 10 1000 (Some 0) ready_at_500), Ok tt))
    by (vm_compute; reflexivity).
  assert (Hset : set_params 64 4 2 (Some "10.0.0.0") 0 (Some 0) s0
                 = (fst (set_params 64 4 2 (Some "10.0.0.0") 0 (Some 0) s0),
                    Ok tt))
    by (vm_compute; reflexivity).
  split; [reflexivity |].
  split;
    [exact (proj1 (proj2 (proj2 (proj2 (proj2 (proj2
              (tx_port_zero_is_default number 10 0 s0)))))) _ Hstop) |].
  split;
    [exact (proj1 (proj2 (proj2 (proj2 (proj2
              (tx_port_zero_is_default number 10 0 s0))))) _ Hrate) |].
  split;
    [exact (proj1 (proj2 (proj2 (proj2
              (tx_port_zero_is_default number 10 1000 ready_at_500))))
              _ Hstart) |].
  exact (proj2 (proj2 (proj2 (proj2 (proj2 (proj2
           (tx_port_zero_is_default number 10 0 s0))))))
           64 4 2 (Some "10.0.0.0") 0 (Some 0) _ Hset).
Defined.

(** * Further properties *)

(** ** [watch_command] *)

(** A watch that returns a transcript has taken some ticks of the
    channel: the transcript is what it started from and the text of
    those ticks, the clock has advanced by their duration, and the
    return has one of three reasons. *)
Lemma watch_loop_returns fuel dl so se sp mml :
  forall output w w' out',
    watch_loop fuel exit_status_ready dl so se sp mml output w = (w', Ok out') ->
    exists used,
      chan w = (used ++ chan w')%list
      /\ out' = (output ++ text_of used)%string
      /\ now w' = now w + duration used
      /\ ((exists p m, sp = Some p /\ mml = Some m /\ found_in_window p m out')
          \/ has_exited w'
          \/ past dl (now w') = true).
Proof.
  induction fuel as [| fuel IH]; intros output w w' out' H; [discriminate |].
  destruct (continue_running exit_status_ready sp mml output w) as [w0 r]
    eqn:Ec.
  pose proof (continue_running_cases _ _ _ _ _ _ Ec) as [-> Hr].
  destruct r as [[|] | e |].
  - destruct Hr as [t [c [Hc Ht]]].
    rewrite (watch_loop_round _ _ _ _ _ _ _ _ _ _ Ec Hc) in H.
    destruct (past dl (now (after_round so se t w))) eqn:Ep.
    + inversion H; subst. exists [t].
      split; [unfold after_round; cbn [chan]; rewrite Hc; reflexivity |].
      split.
      * unfold after_round_output. cbn [text_of].
        now rewrite append_nil_r, append_assoc.
      * split; [unfold after_round; cbn [now duration]; lia |].
        right. right. exact Ep.
    + apply IH in H. destruct H as [used [Hu [Ho [Hn Hwhy]]]].
      exists (t :: used). unfold after_round in Hu, Hn.
      cbn [chan now] in Hu, Hn. rewrite Hc in Hu. cbn [tl] in Hu.
      split; [rewrite Hc, Hu; reflexivity |].
      split; [rewrite Ho; unfold after_round_output; cbn [text_of];
              now rewrite !append_assoc |].
      split; [cbn [duration]; lia | exact Hwhy].
  - cbn [watch_loop] in H. unfold bind at 1 in H. rewrite Ec in H.
    inversion H; subst. exists []. cbn. rewrite append_nil_r.
    split; [reflexivity |]. split; [reflexivity |]. split; [lia |].
    destruct Hr as [Hf | Hx]; [left; exact Hf | right; left; exact Hx].
  - cbn [watch_loop] in H. unfold bind at 1 in H. rewrite Ec in H.
    discriminate.
  - cbn [watch_loop] in H. unfold bind at 1 in H. rewrite Ec in H.
    discriminate.
Qed.

(** X1.  With a positive [max_match_length], the check of the loop of
    [watch_command] ends the loop exactly on an occurrence of the
    pattern in the trailing window of the transcript: with one, the
    transcript is returned as it is, whatever the stop condition; with
    none in the window (wherever else the pattern occurs) and the
    process running, one more round is run. *)
Theorem watch_window_decides fuel dl so se P r m output w :
  Re.compile P = Some r ->
  0 < m ->
  (Re.occurs r (trailing (Z.to_nat m) output) ->
   forall sc,
     watch_loop (S fuel) sc dl so se (Some P) (Some m) output w
     = (w, Ok output))
  /\ (~ Re.occurs r (trailing (Z.to_nat m) output) ->
      forall t c,
        chan w = t :: c ->
        exit_status t = None ->
        watch_loop (S fuel) exit_status_ready dl so se (Some P) (Some m)
          output w
        = if past dl (now (after_round so se t w))
          then (after_round so se t w, Ok (after_round_output t output))
          else watch_loop fuel exit_status_ready dl so se (Some P) (Some m)
                 (after_round_output t output) (after_round so se t w)).
Proof.
  intros Hr Hm. split.
  - intros Ho sc. now apply watch_loop_stops_in_window with (r := r).
  - intros Ho t c Hc Ht.
    now apply watch_loop_ignores_before_window with (r := r) (c := c).
Qed.

Lemma watch_window_decides_witness :
  let w := demo_world [says "more"; quiet_tick] in
  let r := Re.Seq (Re.Seq Re.Eps (Re.Chr "%")) (Re.Chr " ") in
  Re.compile "% " = Some r
  /\ 0 < 2
  /\ Re.occurs r (trailing (Z.to_nat 2) "ready% ")
  /\ watch_loop 1 exit_status_ready None true true (Some "% ") (Some 2)
       "ready% " w
     = (w, Ok "ready% ")
  /\ ~ Re.occurs r (trailing (Z.to_nat 2) "% ready")
  /\ watch_loop 1 exit_status_ready None true true (Some "% ") (Some 2)
       "% ready" w
     = (mkWorld [quiet_tick] [] 10 [Sleep 10; Stdout "more"], Pending).
Proof.
  cbv zeta.
  assert (Hc : Re.compile "% "
               = Some (Re.Seq (Re.Seq Re.Eps (Re.Chr "%")) (Re.Chr " ")))
    by reflexivity.
  assert (Hm : 0 < 2) by lia.
  assert (Ho : Re.occurs (Re.Seq (Re.Seq Re.Eps (Re.Chr "%")) (Re.Chr " "))
                 (trailing (Z.to_nat 2) "ready% "))
    by (apply search_occurs; vm_compute; reflexivity).
  assert (Hn : ~ Re.occurs (Re.Seq (Re.Seq Re.Eps (Re.Chr "%")) (Re.Chr " "))
                   (trailing (Z.to_nat 2) "% ready")).
  { intros H. apply search_occurs in H.
    assert (Hf : Re.search (Re.Seq (Re.Seq Re.Eps (Re.Chr "%")) (Re.Chr " "))
                   (trailing (Z.to_nat 2) "% ready") = false)
      by (vm_compute; reflexivity).
    congruence. }
  split; [exact Hc |]. split; [exact Hm |]. split; [exact Ho |].
  split;
    [exact (proj1 (watch_window_decides 0 None true true "% " _ 2 "ready% "
                     (demo_world [says "more"; quiet_tick]) Hc Hm)
              Ho exit_status_ready) |].
  split; [exact Hn |].
  exact (proj2 (watch_window_decides 0 None true true "% " _ 2 "% ready"
                  (demo_world [says "more"; quiet_tick]) Hc Hm)
           Hn (says "more") [quiet_tick] eq_refl eq_refl).
Defined.

(** X2.  The transcript [watch_command] returns is the text the channel
    delivered during the watch, round by round (output data, then error
    data), and the channel is left at what follows; the clock has moved
    by the time of those rounds; nothing has been sent and no process
    started. *)
Theorem watch_command_transcript timeout so se sp mml w w' out :
  watch_command None timeout so se sp mml w = (w', Ok out) ->
  exists used,
    chan w = (used ++ chan w')%list
    /\ out = text_of used
    /\ now w' = now w + duration used
    /\ procs w' = procs w
    /\ sends (log w') = sends (log w)
    /\ launches (log w') = launches (log w).
Proof.
  intros H. pose proof (listens_watch_command _ _ _ _ _ _ _ _ H) as L.
  unfold watch_command in H. apply watch_loop_returns in H.
  destruct H as [used [Hu [Ho [Hn _]]]]. exists used.
  split; [exact Hu |]. split; [exact Ho |]. split; [exact Hn |].
  split; [apply L |].
  split; [now apply listens_sends | now apply listens_launches].
Qed.

(** X3.  [watch_command] returns for one of three reasons only: the
    stop pattern is found in the searched part of the transcript, the
    process has reported its exit status, or the clock is past the
    deadline; with no pattern and no timeout, the process has exited. *)
Theorem watch_command_return_reason timeout so se sp mml w w' out :
  watch_command None timeout so se sp mml w = (w', Ok out) ->
  ((exists p m, sp = Some p /\ mml = Some m /\ found_in_window p m out)
   \/ has_exited w'
   \/ (exists t, timeout = Some t /\ now w + t < now w'))
  /\ (sp = None -> timeout = None -> has_exited w').
Proof.
  intros H. unfold watch_command in H. apply watch_loop_returns in H.
  destruct H as [used [_ [_ [_ Hwhy]]]].
  assert (Hpast : past (option_map (fun t => now w + t) timeout) (now w')
                  = true ->
                  exists t, timeout = Some t /\ now w + t < now w').
  { destruct timeout as [t |]; cbn; [| discriminate].
    intros Hp. exists t. split; [reflexivity | now apply Z.ltb_lt]. }
  split.
  - destruct Hwhy as [Hf | [Hx | Hp]]; auto.
  - intros -> ->. destruct Hwhy as [[p [m [Hp _]]] | [Hx | Hp]];
      [discriminate | exact Hx | discriminate].
Qed.

Lemma watch_command_transcript_witness :
  let w := demo_world short_process in
  let w' := fst (watch_command None None true false None (Some 1024) w) in
  watch_command None None true false None (Some 1024) w = (w', Ok "boot warn")
  /\ exists used,
       chan w = (used ++ chan w')%list
       /\ "boot warn" = text_of used
       /\ now w' = now w + duration used
       /\ procs w' = procs w
       /\ sends (log w') = sends (log w)
       /\ launches (log w') = launches (log w).
Proof.
  cbv zeta.
  assert (H : watch_command None None true false None (Some 1024)
                (demo_world short_process)
              = (fst (watch_command None None true false None (Some 1024)
                        (demo_world short_process)), Ok "boot warn"))
    by (vm_compute; reflexivity).
  split; [exact H |].
  exact (watch_command_transcript _ _ _ _ _ _ _ _ H).
Defined.

Lemma watch_command_return_reason_witness :
  let w := demo_world short_process in
  let w' := fst (watch_command None None true false None (Some 1024) w) in
  watch_command None None true false None (Some 1024) w = (w', Ok "boot warn")
  /\ ((exists p m,
         @None string = Some p /\ Some 1024 = Some m
         /\ found_in_window p m "boot warn")
      \/ has_exited w'
      \/ (exists t, @None Z = Some t /\ now w + t < now w'))
  /\ (@None string = None -> @None Z = None -> has_exited w').
Proof.
  cbv zeta.
  assert (H : watch_command None None true false None (Some 1024)
                (demo_world short_process)
              = (fst (watch_command None None true false None (Some 1024)
                        (demo_world short_process)), Ok "boot warn"))
    by (vm_compute; reflexivity).
  split; [exact H |].
  exact (watch_command_return_reason _ _ _ _ _ _ _ _ H).
Defined.

Lemma continue_running_no_pattern sc mml output w :
  continue_running sc None mml output w
  = bind sc (fun stopped => ret (negb stopped)) w.
Proof. reflexivity. Qed.

Lemma watch_loop_deadline_returns so se mml c :
  forall fuel d output w,
    chan w = c ->
    Forall (fun k => 0 <= elapsed k) c ->
    now w <= d ->
    d < now w + duration c ->
    (List.length c < fuel)%nat ->
    exists w' out,
      watch_loop fuel exit_status_ready (Some d) so se None mml output w
      = (w', Ok out)
      /\ (has_exited w' \/ d < now w').
Proof.
  induction c as [| t c IH]; intros fuel d output w Hc Hpos Hnow Hd Hf.
  - cbn in Hd. lia.
  - destruct fuel as [| fuel]; [cbn in Hf; lia |].
    destruct (exit_status t) as [st |] eqn:Et.
    + exists w, output. split.
      * cbn [watch_loop]. unfold bind at 1.
        rewrite continue_running_no_pattern.
        unfold bind, exit_status_ready. rewrite Hc, Et. reflexivity.
      * left. exists t, c. split; [exact Hc | congruence].
    + assert (Hgo : continue_running exit_status_ready None mml output w
                    = (w, Ok true)).
      { rewrite continue_running_no_pattern.
        unfold bind, exit_status_ready. rewrite Hc, Et. reflexivity. }
      rewrite (watch_loop_round _ _ _ _ _ _ _ _ _ _ Hgo Hc).
      inversion Hpos; subst.
      destruct (past (Some d) (now (after_round so se t w))) eqn:Ep.
      * eexists; eexists. split; [reflexivity |]. right.
        cbn [past] in Ep. now apply Z.ltb_lt in Ep.
      * cbn [past] in Ep. apply Z.ltb_ge in Ep.
        apply IH; auto.
        -- unfold after_round. cbn [chan]. now rewrite Hc.
        -- unfold after_round in *. cbn [now] in *. cbn [duration] in Hd. lia.
        -- cbn in Hf. lia.
Qed.

(** X4.  A timeout bounds the wait: without a stop pattern, on a channel
    whose recorded rounds take longer than the timeout, [watch_command]
    returns, and then the process has exited or the clock is past the
    deadline. *)
Theorem watch_command_timeout_returns t so se mml w :
  0 <= t ->
  Forall (fun k => 0 <= elapsed k) (chan w) ->
  t < duration (chan w) ->
  exists w' out,
    watch_command None (Some t) so se None mml w = (w', Ok out)
    /\ (has_exited w' \/ now w + t < now w').
Proof.
  intros Ht Hpos Hd. unfold watch_command. cbn [option_map].
  apply watch_loop_deadline_returns with (c := chan w); auto; lia.
Qed.

Lemma watch_command_timeout_returns_witness :
  let w := demo_world [mkTick None (Some "a") None 300;
                       mkTick None (Some "b") None 300;
                       mkTick None (Some "c") None 300] in
  0 <= 500
  /\ Forall (fun k => 0 <= elapsed k) (chan w)
  /\ 500 < duration (chan w)
  /\ exists w' out,
       watch_command None (Some 500) true true None (Some 1024) w
       = (w', Ok out)
       /\ (has_exited w' \/ now w + 500 < now w').
Proof.
  cbv zeta.
  assert (H0 : 0 <= 500) by lia.
  assert (Hp : Forall (fun k => 0 <= elapsed k)
                 (chan (demo_world [mkTick None (Some "a") None 300;
                                    mkTick None (Some "b") None 300;
                                    mkTick None (Some "c") None 300])))
    by (repeat constructor; cbn; lia).
  assert (Hd : 500 < duration
                 (chan (demo_world [mkTick None (Some "a") None 300;
                                    mkTick None (Some "b") None 300;
                                    mkTick None (Some "c") None 300])))
    by (cbn; lia).
  split; [exact H0 |]. split; [exact Hp |]. split; [exact Hd |].
  exact (watch_command_timeout_returns 500 true true (Some 1024) _ H0 Hp Hd).
Defined.

(** ** [run_console_commands] *)

Lemma text_of_app u1 u2 :
  text_of (u1 ++ u2) = (text_of u1 ++ text_of u2)%string.
Proof.
  induction u1 as [| t u1 IH]; [reflexivity |].
  cbn [List.app text_of]. now rewrite IH, !append_assoc.
Qed.

Lemma run_each_text cmds timeout cp cpl :
  forall output w w' r,
    run_each cmds timeout cp cpl output w = (w', r) ->
    procs w' = procs w
    /\ exists used,
         chan w = (used ++ chan w')%list
         /\ (forall out, r = Ok out -> out = (output ++ text_of used)%string).
Proof.
  induction cmds as [| c cmds IH]; intros output w w' r H; cbn [run_each] in H.
  - inversion H; subst. split; [reflexivity |]. exists [].
    split; [reflexivity |]. intros out Ho. inversion Ho; subst.
    cbn. now rewrite append_nil_r.
  - rewrite (bind_ok (send _) _ w (after_send (c ++ LF) w) tt) in H
      by reflexivity.
    unfold bind at 1 in H.
    destruct (watch_command None timeout true true cp cpl
                (after_send (c ++ LF) w)) as [w2 [o | e |]] eqn:E.
    + pose proof (listens_watch_command _ _ _ _ _ _ _ _ E) as [_ [Hp1 _]].
      unfold watch_command in E. apply watch_loop_returns in E.
      destruct E as [u1 [Hu1 [Ho1 _]]]. cbn in Hu1, Hp1, Ho1.
      apply IH in H. destruct H as [Hp [u2 [Hu2 Ho2]]].
      split; [congruence |]. exists (u1 ++ u2)%list.
      split; [rewrite Hu1, Hu2; now rewrite app_assoc |].
      intros out Hr. rewrite (Ho2 _ Hr), Ho1, text_of_app.
      now rewrite append_assoc.
    + inversion H; subst. apply listens_watch_command in E.
      destruct E as [_ [Hp [u Hu]]]. cbn in Hp, Hu.
      split; [exact Hp |]. exists u. split; [exact Hu | discriminate].
    + inversion H; subst. apply listens_watch_command in E.
      destruct E as [_ [Hp [u Hu]]]. cbn in Hp, Hu.
      split; [exact Hp |]. exists u. split; [exact Hu | discriminate].
Qed.

Lemma in_turn_sends timeout cp cpl done w outs wk :
  in_turn timeout cp cpl done w outs wk ->
  sends (log wk) = (sends (log w) ++ map as_sent done)%list.
Proof.
  induction 1 as [w | c cmds w w1 o outs w' E _ IH].
  - cbn. now rewrite app_nil_r.
  - apply listens_watch_command, listens_sends in E.
    cbn [after_send log] in E. rewrite sends_app in E. cbn in E.
    rewrite IH, E. cbn [map]. rewrite <- app_assoc. reflexivity.
Qed.

(** The commands whose waits have returned, in turn, and the one whose
    wait did not, if any. *)
Lemma run_each_in_turn cmds timeout cp cpl :
  forall output w w' r,
    run_each cmds timeout cp cpl output w = (w', r) ->
    exists done outs wk,
      in_turn timeout cp cpl done w outs wk
      /\ (forall out,
            r = Ok out ->
            done = cmds /\ wk = w' /\ out = (output ++ joined outs)%string)
      /\ ((forall out, r <> Ok out) ->
          exists c rest,
            cmds = (done ++ c :: rest)%list
            /\ watch_command None timeout true true cp cpl
                 (after_send (as_sent c) wk) = (w', r)).
Proof.
  induction cmds as [| c cmds IH]; intros output w w' r H; cbn [run_each] in H.
  - inversion H; subst. exists [], [], w'. split; [constructor |].
    split.
    + intros out [= <-]. cbn. now rewrite append_nil_r.
    + intros Hn. now contradiction (Hn output).
  - rewrite (bind_ok (send _) _ w (after_send (as_sent c) w) tt) in H
      by reflexivity.
    unfold bind at 1 in H.
    destruct (watch_command None timeout true true cp cpl
                (after_send (as_sent c) w)) as [w2 [o | e |]] eqn:E.
    + apply IH in H. destruct H as (done & outs & wk & Hin & Hok & Hno).
      exists (c :: done), (o :: outs), wk.
      split; [econstructor; eassumption |]. split.
      * intros out Hr. destruct (Hok out Hr) as (-> & -> & ->).
        split; [reflexivity |]. split; [reflexivity |].
        cbn [joined fold_right]. now rewrite append_assoc.
      * intros Hn. destruct (Hno Hn) as (c' & rest & -> & Hw).
        exists c', rest. split; [reflexivity | exact Hw].
    + inversion H; subst. exists [], [], w. split; [constructor |].
      split; [discriminate |]. intros _. exists c, cmds.
      split; [reflexivity | exact E].
    + inversion H; subst. exists [], [], w. split; [constructor |].
      split; [discriminate |]. intros _. exists c, cmds.
      split; [reflexivity | exact E].
Qed.

(** X5.  [run_console_commands] sends its commands in order, each with
    a newline, and one only after the wait for the one before has
    returned: the commands whose waits have returned were each sent
    from the world the wait before had left.  When the call returns,
    these are all the commands, what was sent is exactly them, and the
    transcript returned is the transcripts of the waits joined, which is
    the text the channel delivered during the call.  When it does not,
    exactly one more command was sent, the one whose wait did not
    return, and none after it.  No process is started. *)
Theorem run_console_commands_in_order cmds timeout pattern w w' r :
  run_console_commands cmds timeout pattern w = (w', r) ->
  launches (log w') = launches (log w)
  /\ procs w' = procs w
  /\ exists done outs wk used,
       in_turn timeout pattern (option_map len pattern) done w outs wk
       /\ chan w = (used ++ chan w')%list
       /\ (forall out,
             r = Ok out ->
             done = as_list cmds /\ wk = w'
             /\ out = joined outs /\ out = text_of used
             /\ sends (log w')
                = (sends (log w) ++ map as_sent (as_list cmds))%list)
       /\ ((forall out, r <> Ok out) ->
           exists c rest,
             as_list cmds = (done ++ c :: rest)%list
             /\ watch_command None timeout true true pattern
                  (option_map len pattern) (after_send (as_sent c) wk)
                = (w', r)
             /\ sends (log w')
                = (sends (log w) ++ map as_sent (done ++ [c]))%list).
Proof.
  intros H. unfold run_console_commands in H.
  destruct (run_each_sends _ _ _ _ _ _ _ _ H) as [HL _].
  destruct (run_each_text _ _ _ _ _ _ _ _ H) as [Hp [used [Hu Ho]]].
  destruct (run_each_in_turn _ _ _ _ _ _ _ _ H)
    as (done & outs & wk & Hin & Hok & Hno).
  pose proof (in_turn_sends _ _ _ _ _ _ _ Hin) as Hs.
  split; [exact HL |]. split; [exact Hp |]. exists done, outs, wk, used.
  split; [exact Hin |]. split; [exact Hu |]. split.
  - intros out Hr. destruct (Hok out Hr) as (Hd & Hw & Hj).
    split; [exact Hd |]. split; [exact Hw |]. split; [exact Hj |].
    split; [now rewrite (Ho _ Hr) |]. now rewrite <- Hw, <- Hd.
  - intros Hn. destruct (Hno Hn) as (c & rest & Hc & Hw).
    exists c, rest. split; [exact Hc |]. split; [exact Hw |].
    apply listens_watch_command, listens_sends in Hw.
    cbn [after_send log] in Hw. rewrite sends_app in Hw. cbn in Hw.
    rewrite Hw, Hs, map_app, <- app_assoc. reflexivity.
Qed.

Lemma run_console_commands_in_order_witness :
  let cmds := Cmds ["set 0 count 10"; "set 0 rate 20"] in
  let w' := fst (run_console_commands cmds None (Some prompt) busy_console) in
  run_console_commands cmds None (Some prompt) busy_console = (w', Pending)
  /\ sends (log w') = [as_sent "set 0 count 10"]
  /\ exists done outs wk used,
       in_turn None (Some prompt) (option_map len (Some prompt)) done
         busy_console outs wk
       /\ chan busy_console = (used ++ chan w')%list
       /\ (forall out,
             Pending = Ok out ->
             done = as_list cmds /\ wk = w'
             /\ out = joined outs /\ out = text_of used
             /\ sends (log w')
                = (sends (log busy_console)
                   ++ map as_sent (as_list cmds))%list)
       /\ ((forall out, @Pending string <> Ok out) ->
           exists c rest,
             as_list cmds = (done ++ c :: rest)%list
             /\ watch_command None None true true (Some prompt)
                  (option_map len (Some prompt)) (after_send (as_sent c) wk)
                = (w', Pending)
             /\ sends (log w')
                = (sends (log busy_console) ++ map as_sent (done ++ [c]))%list).
Proof.
  cbv zeta.
  assert (H : run_console_commands
                (Cmds ["set 0 count 10"; "set 0 rate 20"]) None (Some prompt)
                busy_console
              = (fst (run_console_commands
                        (Cmds ["set 0 count 10"; "set 0 rate 20"]) None
                        (Some prompt) busy_console), Pending))
    by (vm_compute; reflexivity).
  split; [exact H |]. split; [vm_compute; reflexivity |].
  exact (proj2 (proj2 (run_console_commands_in_order _ _ _ _ _ _ H))).
Defined.

Lemma append_length (a b : string) :
  String.length (a ++ b) = (String.length a + String.length b)%nat.
Proof. induction a; cbn; congruence. Qed.

Lemma drop_app a b : drop (String.length a) (a ++ b) = b.
Proof. induction a as [| c a IH]; [destruct b; reflexivity | exact IH]. Qed.

Lemma length_zero_empty (s : string) : String.length s = O -> s = "".
Proof. destruct s; [reflexivity | discriminate]. Qed.

(** In a window as long as the pattern, a plain pattern is found exactly
    when the transcript ends with it. *)
Lemma contains_in_own_window p output :
  contains p (trailing (String.length p) output) = true <-> ends_with p output.
Proof.
  split.
  - intros H. apply contains_spec in H. destruct H as [pre [post H]].
    pose proof (trailing_length (String.length p) output) as Hl.
    rewrite H, !append_length in Hl.
    assert (pre = "") by (apply length_zero_empty; lia).
    assert (post = "") by (apply length_zero_empty; lia).
    subst pre post. cbn in H. rewrite append_nil_r in H.
    destruct (trailing_suffix (String.length p) output) as [pre' Hp].
    exists pre'. now rewrite <- H.
  - intros [pre ->]. unfold trailing. rewrite append_length.
    replace (String.length pre + String.length p - String.length p)%nat
      with (String.length pre) by lia.
    rewrite drop_app. apply contains_spec. exists "", "". cbn.
    now rewrite append_nil_r.
Qed.

(** X6.  The wait of [run_console_commands] searches a window as long
    as the console pattern.  For a non-empty pattern of plain characters
    its check therefore ends the loop exactly when the transcript ends
    with the pattern: a prompt followed by anything else in the same
    round is not recognised, and the stop condition alone decides. *)
Theorem prompt_must_end_transcript sc p output w :
  plain_text p = true ->
  p <> "" ->
  (forall c timeout,
     run_console_commands (Cmd c) timeout (Some p) w
     = bind (send (as_sent c))
         (fun _ =>
            bind (watch_command None timeout true true (Some p)
                    (Some (len p)))
              (fun o => ret ("" ++ o)%string)) w)
  /\ (ends_with p output ->
      continue_running sc (Some p) (Some (len p)) output w = (w, Ok false))
  /\ (~ ends_with p output ->
      continue_running sc (Some p) (Some (len p)) output w
      = bind sc (fun stopped => ret (negb stopped)) w).
Proof.
  intros Hp Hne.
  destruct (compile_plain p Hp) as [r [Hr _]].
  assert (Hlen : 0 < len p).
  { unfold len. destruct p; [congruence | cbn; lia]. }
  assert (Hcr : continue_running sc (Some p) (Some (len p)) output w
                = if contains p (trailing (String.length p) output)
                  then (w, Ok false)
                  else bind sc (fun stopped => ret (negb stopped)) w).
  { rewrite (continue_running_trailing_window _ _ r) by auto.
    rewrite (search_plain p r _ Hp Hr). unfold len.
    now rewrite Nat2Z.id. }
  split; [reflexivity |]. split.
  - intros He. apply contains_in_own_window in He. now rewrite Hcr, He.
  - intros He. rewrite Hcr.
    destruct (contains p (trailing (String.length p) output)) eqn:E;
      [| reflexivity].
    exfalso. apply He. now apply contains_in_own_window.
Qed.

Lemma prompt_must_end_transcript_witness :
  let w := demo_world [quiet_tick] in
  plain_text prompt = true
  /\ prompt <> ""
  /\ ends_with prompt ("done" ++ prompt)
  /\ continue_running exit_status_ready (Some prompt) (Some (len prompt))
       ("done" ++ prompt) w = (w, Ok false)
  /\ ~ ends_with prompt (prompt ++ "late")
  /\ continue_running exit_status_ready (Some prompt) (Some (len prompt))
       (prompt ++ "late") w
     = (w, Ok true).
Proof.
  cbv zeta.
  assert (Hp : plain_text prompt = true) by reflexivity.
  assert (Hne : prompt <> "") by discriminate.
  assert (He : ends_with prompt ("done" ++ prompt)) by (now exists "done").
  assert (Hn : ~ ends_with prompt (prompt ++ "late")).
  { intros H. apply contains_in_own_window in H.
    assert (Hf : contains prompt
                   (trailing (String.length prompt) (prompt ++ "late"))
                 = false) by (vm_compute; reflexivity).
    congruence. }
  split; [exact Hp |]. split; [exact Hne |]. split; [exact He |].
  split;
    [exact (proj1 (proj2 (prompt_must_end_transcript exit_status_ready prompt
                            ("done" ++ prompt) (demo_world [quiet_tick])
                            Hp Hne)) He) |].
  split; [exact Hn |].
  exact (proj2 (proj2 (prompt_must_end_transcript exit_status_ready prompt
                         (prompt ++ "late") (demo_world [quiet_tick])
                         Hp Hne)) Hn).
Defined.

(** ** [get_ssh_client] *)

Lemma connect_loop_refused cfg n ri k :
  forall rest trial events,
    trial + Z.of_nat k <= n + 1 ->
    connect_loop (repeat Refused k ++ rest) cfg n ri trial events
    = connect_loop rest cfg n ri (trial + Z.of_nat k)
        (events ++ refusals cfg ri k)%list.
Proof.
  induction k as [| k IH]; intros rest trial events Hk.
  - cbn. now rewrite app_nil_r, Z.add_0_r.
  - cbn [repeat List.app connect_loop].
    replace (n <? trial) with false by (symmetry; apply Z.ltb_ge; lia).
    rewrite IH by lia. cbn [refusals]. f_equal; [lia |].
    now rewrite <- !app_assoc.
Qed.

Lemma connects_app e1 e2 : connects (e1 ++ e2) = (connects e1 + connects e2)%nat.
Proof.
  induction e1 as [| [c | ms] e1 IH]; cbn; [reflexivity | now rewrite IH | exact IH].
Qed.

Lemma connect_loop_bound cfg n ri outcomes :
  forall trial events,
    0 <= trial ->
    (connects (snd (connect_loop outcomes cfg n ri trial events))
     <= connects events + Z.to_nat (n + 1 - trial))%nat.
Proof.
  induction outcomes as [| o outcomes IH]; intros trial events Ht;
    cbn [connect_loop]; destruct (n <? trial) eqn:E; cbn [snd]; try lia.
  apply Z.ltb_ge in E.
  destruct o; cbn [snd]; rewrite ?connects_app; cbn [connects].
  - lia.
  - specialize (IH (trial + 1) ((events ++ [Connect cfg]) ++ [Wait ri])%list).
    rewrite !connects_app in IH. cbn [connects] in IH. lia.
  - lia.
Qed.

(** X7.  When its arguments have been built, [get_ssh_client] calls
    [connect] at most [nb_retries + 1] times, and waits
    [retry_interval] after every refused call, the last one included.
    A call that succeeds after [k <= nb_retries] refused ones returns
    the client.  With a negative [nb_retries] it fails without
    connecting, and after [nb_retries + 1] refused calls it fails too:
    in both cases with the [TypeError] of raising the class
    [NoValidConnectionsError] without its argument. *)
Theorem get_ssh_client_attempts proxy key host nb_retries retry_interval
    user_config cfg :
  connect_config proxy key host user_config = inr cfg ->
  (nb_retries < 0 ->
   forall outcomes,
     get_ssh_client proxy key host nb_retries retry_interval user_config
       outcomes
     = (Failed (Raised TypeError), []))
  /\ (forall k rest,
        Z.of_nat k <= nb_retries ->
        get_ssh_client proxy key host nb_retries retry_interval user_config
          (repeat Refused k ++ Connected :: rest)
        = (Client cfg,
           (refusals cfg retry_interval k ++ [Connect cfg])%list))
  /\ (forall rest,
        0 <= nb_retries ->
        get_ssh_client proxy key host nb_retries retry_interval user_config
          (repeat Refused (Z.to_nat (nb_retries + 1)) ++ rest)
        = (Failed (Raised TypeError),
           refusals cfg retry_interval (Z.to_nat (nb_retries + 1))))
  /\ (forall outcomes,
        (connects
           (snd (get_ssh_client proxy key host nb_retries retry_interval
                   user_config outcomes))
         <= Z.to_nat (nb_retries + 1))%nat).
Proof.
  intros Hc. unfold get_ssh_client. rewrite Hc. repeat split.
  - intros Hn outcomes. destruct outcomes; cbn [connect_loop];
      replace (nb_retries <? 0) with true by (symmetry; apply Z.ltb_lt; lia);
      reflexivity.
  - intros k rest Hk. rewrite connect_loop_refused by lia.
    cbn [connect_loop].
    replace (nb_retries <? 0 + Z.of_nat k) with false
      by (symmetry; apply Z.ltb_ge; lia).
    reflexivity.
  - intros rest Hn. rewrite connect_loop_refused by lia.
    cbn [List.app].
    destruct rest; cbn [connect_loop];
      replace (nb_retries <? 0 + Z.of_nat (Z.to_nat (nb_retries + 1)))
        with true by (symmetry; apply Z.ltb_lt; lia);
      reflexivity.
  - intros outcomes.
    pose proof (connect_loop_bound cfg nb_retries retry_interval outcomes 0 []).
    cbn [connects] in H. replace (nb_retries + 1 - 0) with (nb_retries + 1) in H
      by lia.
    apply H. lia.
Qed.

Lemma get_ssh_client_attempts_witness :
  let cfg := [("hostname", Plain (Text "tofino"))] in
  let get := get_ssh_client always_works always_works in
  connect_config always_works always_works "tofino" [] = inr cfg
  /\ Z.of_nat 2 <= 3
  /\ get "tofino" 3 1000 [] [Refused; Refused; Connected; Refused]
     = (Client cfg,
        [Connect cfg; Wait 1000; Connect cfg; Wait 1000; Connect cfg])
  /\ 0 <= 1
  /\ get "tofino" 1 1000 [] [Refused; Refused; Connected]
     = (Failed (Raised TypeError),
        [Connect cfg; Wait 1000; Connect cfg; Wait 1000])
  /\ -1 < 0
  /\ get "tofino" (-1) 1000 [] [Connected] = (Failed (Raised TypeError), []).
Proof.
  cbv zeta.
  assert (Hc : connect_config always_works always_works "tofino" []
               = inr [("hostname", Plain (Text "tofino"))]) by reflexivity.
  assert (H2 : Z.of_nat 2 <= 3) by (cbn; lia).
  assert (H1 : 0 <= 1) by lia.
  assert (Hm : -1 < 0) by lia.
  split; [exact Hc |]. split; [exact H2 |].
  split;
    [exact (proj1 (proj2 (get_ssh_client_attempts always_works always_works
                            "tofino" 3 1000 [] _ Hc))
              2%nat [Refused] H2) |].
  split; [exact H1 |].
  split;
    [exact (proj1 (proj2 (proj2
              (get_ssh_client_attempts always_works always_works
                 "tofino" 1 1000 [] _ Hc)))
              [Connected] H1) |].
  split; [exact Hm |].
  exact (proj1 (get_ssh_client_attempts always_works always_works
                  "tofino" (-1) 1000 [] _ Hc)
           Hm [Connected]).
Defined.

(** X8.  The arguments [get_ssh_client] connects with, when it gets as
    far: the host name of the configuration when it has one, the given
    host otherwise; as user name the configuration's [user] when
    present, its [username] otherwise; the port, the proxy command and
    the key of the first identity file when present.  Building them
    fails in three cases, tried in this order, and [connect] is then
    never called: the proxy command cannot be created (its exception),
    the [identityfile] entry has no first item ([IndexError]), or the
    key file cannot be loaded (its exception). *)
Theorem connect_config_entries proxy key host user_config :
  (forall cfg,
     connect_config proxy key host user_config = inr cfg ->
     dict_get "hostname" cfg
     = Some (Plain (match dict_get "hostname" user_config with
                    | Some h => h
                    | None => Text host
                    end))
     /\ dict_get "username" cfg
        = option_map Plain
            (match dict_get "user" user_config with
             | Some u => Some u
             | None => dict_get "username" user_config
             end)
     /\ dict_get "port" cfg = option_map Plain (dict_get "port" user_config)
     /\ dict_get "sock" cfg
        = option_map ProxyCommand (dict_get "proxycommand" user_config)
     /\ dict_get "pkey" cfg
        = match dict_get "identityfile" user_config with
          | Some v => option_map RSAKey (first_item v)
          | None => None
          end)
  /\ (forall e,
        connect_config proxy key host user_config = inl e <->
        (exists v,
           dict_get "proxycommand" user_config = Some v
           /\ proxy v = Some e)
        \/ ((forall v, dict_get "proxycommand" user_config = Some v ->
                       proxy v = None)
            /\ exists v,
                 dict_get "identityfile" user_config = Some v
                 /\ ((first_item v = None /\ e = IndexError)
                     \/ exists f, first_item v = Some f
                                  /\ key f = Some e)))
  /\ (forall e nb_retries retry_interval outcomes,
        connect_config proxy key host user_config = inl e ->
        get_ssh_client proxy key host nb_retries retry_interval user_config
          outcomes
        = (Failed (Raised e), [])).
Proof.
  split; [| split].
  - unfold connect_config, copy_key. cbn [fold_left].
    destruct (dict_get "hostname" user_config) as [h |];
      destruct (dict_get "username" user_config) as [un |];
      destruct (dict_get "port" user_config) as [po |];
      destruct (dict_get "user" user_config) as [us |];
      destruct (dict_get "proxycommand" user_config) as [px |];
      try destruct (proxy px) as [ep |];
      destruct (dict_get "identityfile" user_config) as [idf |];
      try destruct (first_item idf) as [f |];
      try destruct (key f) as [ek |];
      cbn; intros cfg H; inversion H; subst; cbn; repeat split.
  - intros e. unfold connect_config.
    destruct (dict_get "proxycommand" user_config) as [px |].
    + destruct (proxy px) as [ep |] eqn:Ep.
      * split.
        -- intros [= <-]. left. exists px. auto.
        -- intros [(v & [= <-] & Hv) | (Hall & _)].
           ++ congruence.
           ++ specialize (Hall px eq_refl). congruence.
      * assert (Hall : forall v, Some px = Some v -> proxy v = None)
          by (intros v [= <-]; exact Ep).
        destruct (dict_get "identityfile" user_config) as [idf |].
        -- destruct (first_item idf) as [f |] eqn:Ef.
           ++ destruct (key f) as [ek |] eqn:Ek.
              ** split.
                 --- intros [= <-]. right. split; [exact Hall |].
                     exists idf. split; [reflexivity |]. right.
                     exists f. auto.
                 --- intros [(v & [= <-] & Hv) | (_ & v & [= <-] & Hc)];
                       [congruence |].
                     destruct Hc as [[Hf _] | (f' & Hf & Hk)];
                       [congruence |].
                     assert (f' = f) by congruence. subst f'. congruence.
              ** split; [discriminate |].
                 intros [(v & [= <-] & Hv) | (_ & v & [= <-] & Hc)];
                   [congruence |].
                 destruct Hc as [[Hf _] | (f' & Hf & Hk)];
                   [congruence |].
                 assert (f' = f) by congruence. subst f'. congruence.
           ++ split.
              ** intros [= <-]. right. split; [exact Hall |].
                 exists idf. split; [reflexivity |]. left. auto.
              ** intros [(v & [= <-] & Hv) | (_ & v & [= <-] & Hc)];
                   [congruence |].
                 destruct Hc as [[_ ->] | (f' & Hf & _)];
                   [reflexivity | congruence].
        -- split; [discriminate |].
           intros [(v & [= <-] & Hv) | (_ & v & Hv & _)];
             [congruence | discriminate].
    + assert (Hall : forall v, @None config_value = Some v -> proxy v = None)
        by discriminate.
      destruct (dict_get "identityfile" user_config) as [idf |].
      * destruct (first_item idf) as [f |] eqn:Ef.
        -- destruct (key f) as [ek |] eqn:Ek.
           ++ split.
              ** intros [= <-]. right. split; [exact Hall |].
                 exists idf. split; [reflexivity |]. right.
                 exists f. auto.
              ** intros [(v & Hv & _) | (_ & v & [= <-] & Hc)];
                   [discriminate |].
                 destruct Hc as [[Hf _] | (f' & Hf & Hk)];
                   [congruence |].
                 assert (f' = f) by congruence. subst f'. congruence.
           ++ split; [discriminate |].
              intros [(v & Hv & _) | (_ & v & [= <-] & Hc)];
                [discriminate |].
              destruct Hc as [[Hf _] | (f' & Hf & Hk)];
                [congruence |].
              assert (f' = f) by congruence. subst f'. congruence.
        -- split.
           ++ intros [= <-]. right. split; [exact Hall |].
              exists idf. split; [reflexivity |]. left. auto.
           ++ intros [(v & Hv & _) | (_ & v & [= <-] & Hc)];
                [discriminate |].
              destruct Hc as [[_ ->] | (f' & Hf & _)];
                [reflexivity | congruence].
      * split; [discriminate |].
        intros [(v & Hv & _) | (_ & v & Hv & _)]; discriminate.
  - intros e nb_retries retry_interval outcomes H.
    unfold get_ssh_client. now rewrite H.
Qed.

Lemma connect_config_entries_witness :
  let user_config :=
    [("hostname", Text "10.0.0.7"); ("username", Text "admin");
     ("user", Text "netexp"); ("identityfile", Texts ["/keys/id_rsa"; "/k2"])] in
  let cfg := [("hostname", Plain (Text "10.0.0.7"));
              ("username", Plain (Text "netexp"));
              ("pkey", RSAKey "/keys/id_rsa")] in
  connect_config always_works always_works "tofino" user_config = inr cfg
  /\ dict_get "hostname" cfg = Some (Plain (Text "10.0.0.7"))
  /\ dict_get "username" cfg = Some (Plain (Text "netexp"))
  /\ dict_get "port" cfg = None
  /\ dict_get "sock" cfg = None
  /\ dict_get "pkey" cfg = Some (RSAKey "/keys/id_rsa")
  /\ connect_config always_works always_works "tofino"
       [("identityfile", Texts [])] = inl IndexError
  /\ get_ssh_client always_works never_works "tofino" 3 1000 user_config
       [Connected]
     = (Failed (Raised no_such_file), []).
Proof.
  cbv zeta.
  assert (H : connect_config always_works always_works "tofino"
                [("hostname", Text "10.0.0.7"); ("username", Text "admin");
                 ("user", Text "netexp");
                 ("identityfile", Texts ["/keys/id_rsa"; "/k2"])]
              = inr [("hostname", Plain (Text "10.0.0.7"));
                     ("username", Plain (Text "netexp"));
                     ("pkey", RSAKey "/keys/id_rsa")]) by reflexivity.
  split; [exact H |].
  pose proof (proj1 (connect_config_entries always_works always_works
                       "tofino" _) _ H)
    as [H1 [H2 [H3 [H4 H5]]]].
  split; [exact H1 |]. split; [exact H2 |]. split; [exact H3 |].
  split; [exact H4 |]. split; [exact H5 |].
  split.
  - apply (proj1 (proj2 (connect_config_entries always_works always_works
                           "tofino" [("identityfile", Texts [])]))).
    right. split; [discriminate |].
    exists (Texts []). split; [reflexivity |]. left. split; reflexivity.
  - apply (proj2 (proj2 (connect_config_entries always_works never_works
                           "tofino" _))).
    reflexivity.
Defined.

(** ** [DpdkConfig] *)

Lemma each_appends flag items opts :
  exists rest, DpdkConfig.each flag items opts = (opts ++ rest)%string.
Proof.
  unfold DpdkConfig.each. destruct items as [l |];
    [| exists ""; now rewrite append_nil_r].
  revert opts. induction l as [| x l IH]; intros opts; cbn [fold_left].
  - exists "". now rewrite append_nil_r.
  - destruct (IH (opts ++ " " ++ flag ++ " " ++ x)%string) as [rest Hr].
    exists ((" " ++ flag ++ " " ++ x) ++ rest)%string.
    now rewrite Hr, !append_assoc.
Qed.

Lemma given_appends flag x opts :
  exists rest, DpdkConfig.given flag x opts = (opts ++ rest)%string.
Proof.
  destruct x as [v |]; cbn; [eexists; reflexivity |].
  exists "". now rewrite append_nil_r.
Qed.

Lemma switch_appends flag b opts :
  exists rest, DpdkConfig.switch flag b opts = (opts ++ rest)%string.
Proof.
  destruct b; cbn; [eexists; reflexivity |].
  exists "". now rewrite append_nil_r.
Qed.

(** X9.  The text of a [DpdkConfig] always begins with the core list and
    the number of memory channels, [-l <cores> -n <channels>], and is
    exactly that when no option is set; a driver or PCI address given as
    one string counts as a list of one; the example of the class's
    documentation gives [-l 0,2 -n 4 -a 05:00.0]. *)
Theorem dpdk_config_text :
  (forall c,
     exists rest,
       DpdkConfig.to_str c
       = ("-l " ++ DpdkConfig.join "," (map str (DpdkConfig.cores c))
          ++ " -n " ++ str (DpdkConfig.mem_channels c) ++ rest)%string)
  /\ (forall cores channels,
        DpdkConfig.to_str
          (DpdkConfig.init cores channels None None None false false None
             None None None None None None false None None false None)
        = ("-l " ++ DpdkConfig.join "," (map str cores)
           ++ " -n " ++ str channels)%string)
  /\ (forall cores channels d b a,
        DpdkConfig.init cores channels (Some (DpdkConfig.One d)) None None
          false false None None None None (Some (DpdkConfig.One b))
          (Some (DpdkConfig.One a)) None false None None false None
        = DpdkConfig.init cores channels (Some (DpdkConfig.Several [d])) None
            None false false None None None None
            (Some (DpdkConfig.Several [b])) (Some (DpdkConfig.Several [a]))
            None false None None false None)
  /\ DpdkConfig.to_str
       (DpdkConfig.init [0; 2] 4 None None None false false None None None
          None None (Some (DpdkConfig.One "05:00.0")) None false None None
          false None)
     = "-l 0,2 -n 4 -a 05:00.0".
Proof.
  split; [| split; [| split]]; try reflexivity.
  intros c. unfold DpdkConfig.to_str.
  set (p := ("-l " ++ DpdkConfig.join "," (map str (DpdkConfig.cores c)))%string).
  set (o0 := (p ++ " -n " ++ str (DpdkConfig.mem_channels c))%string).
  destruct (each_appends "-d" (DpdkConfig.drivers c) o0) as [r1 H1].
  rewrite H1.
  destruct (given_appends "-m" (option_map str (DpdkConfig.mem_alloc c))
              (o0 ++ r1)) as [r2 H2]. rewrite H2.
  destruct (given_appends "-r" (option_map str (DpdkConfig.mem_ranks c))
              ((o0 ++ r1) ++ r2)) as [r3 H3]. rewrite H3.
  destruct (switch_appends "--xen-dom0" (DpdkConfig.xen_dom0 c)
              (((o0 ++ r1) ++ r2) ++ r3)) as [r4 H4]. rewrite H4.
  destruct (switch_appends "--syslog" (DpdkConfig.syslog c)
              ((((o0 ++ r1) ++ r2) ++ r3) ++ r4)) as [r5 H5]. rewrite H5.
  match goal with
  | [ |- context [ DpdkConfig.given "--socket-mem" ?x ?o ] ] =>
      destruct (given_appends "--socket-mem" x o) as [r6 H6]; rewrite H6
  end.
  match goal with
  | [ |- context [ DpdkConfig.given "--huge-dir" ?x ?o ] ] =>
      destruct (given_appends "--huge-dir" x o) as [r7 H7]; rewrite H7
  end.
  match goal with
  | [ |- context [ DpdkConfig.given "--proc-type" ?x ?o ] ] =>
      destruct (given_appends "--proc-type" x o) as [r8 H8]; rewrite H8
  end.
  match goal with
  | [ |- context [ DpdkConfig.given "--file-prefix" ?x ?o ] ] =>
      destruct (given_appends "--file-prefix" x o) as [r9 H9]; rewrite H9
  end.
  match goal with
  | [ |- context [ DpdkConfig.each "-b" ?x ?o ] ] =>
      destruct (each_appends "-b" x o) as [r10 H10]; rewrite H10
  end.
  match goal with
  | [ |- context [ DpdkConfig.each "-a" ?x ?o ] ] =>
      destruct (each_appends "-a" x o) as [r11 H11]; rewrite H11
  end.
  match goal with
  | [ |- context [ DpdkConfig.given "--vdev" ?x ?o ] ] =>
      destruct (given_appends "--vdev" x o) as [r12 H12]; rewrite H12
  end.
  match goal with
  | [ |- context [ DpdkConfig.switch "--vmware-tsc-map" ?x ?o ] ] =>
      destruct (switch_appends "--vmware-tsc-map" x o) as [r13 H13];
      rewrite H13
  end.
  match goal with
  | [ |- context [ DpdkConfig.given "--base-virt-addr" ?x ?o ] ] =>
      destruct (given_appends "--base-virt-addr" x o) as [r14 H14];
      rewrite H14
  end.
  match goal with
  | [ |- context [ DpdkConfig.given "--vfio-intr" ?x ?o ] ] =>
      destruct (given_appends "--vfio-intr" x o) as [r15 H15]; rewrite H15
  end.
  match goal with
  | [ |- context [ DpdkConfig.switch "--create-uio-dev" ?x ?o ] ] =>
      destruct (switch_appends "--create-uio-dev" x o) as [r16 H16];
      rewrite H16
  end.
  subst o0 p.
  destruct (DpdkConfig.extra_opt c) as [e |]; eexists;
    rewrite !append_assoc; reflexivity.
Qed.

(** ** [DpdkPktgen]: the activity guard *)

Lemma commands_inactive cmds timeout s :
  pktgen_active (obj s) = false ->
  commands cmds timeout s = (s, Raise AssertionError).
Proof.
  intros Ha. unfold commands.
  rewrite (bind_ok get_self _ s s (fst s)) by reflexivity.
  unfold obj in Ha. now rewrite Ha.
Qed.

Lemma wait_ready_inactive so se s :
  pktgen_active (obj s) = false ->
  wait_ready so se s = (s, Raise AssertionError).
Proof.
  intros Ha. unfold wait_ready.
  rewrite (bind_ok get_self _ s s (fst s)) by reflexivity.
  unfold obj in Ha. now rewrite Ha.
Qed.

(** X10.  A generator that is not active is left alone: [start],
    [set_rate], [stop], [clear], [clean_stats], [commands], the
    statistics queries, [wait_ready] and [wait_transmission_done] fail
    on their assertion, [set_params] fails too, and [close] returns;
    in each case the state is as before (nothing is sent). *)
Theorem inactive_generator_is_left_alone s :
  pktgen_active (obj s) = false ->
  (forall str_number capacity nb_pkts port,
     start str_number capacity nb_pkts port s = (s, Raise AssertionError))
  /\ (forall str_number capacity port,
        set_rate str_number capacity port s = (s, Raise AssertionError))
  /\ (forall port, stop port s = (s, Raise AssertionError))
  /\ clear s = (s, Raise AssertionError)
  /\ clean_stats s = (s, Raise AssertionError)
  /\ (forall cmds timeout, commands cmds timeout s = (s, Raise AssertionError))
  /\ (forall subtype stat_name port,
        _get_stats subtype stat_name port s = (s, Raise AssertionError))
  /\ (forall port, get_nb_tx_pkts port s = (s, Raise AssertionError))
  /\ (forall so se, wait_ready so se s = (s, Raise AssertionError))
  /\ wait_transmission_done s = (s, Raise AssertionError)
  /\ (forall pkt_size nb_src nb_dst init_ip init_port port,
        exists e,
          set_params pkt_size nb_src nb_dst init_ip init_port port s
          = (s, Raise e))
  /\ close s = (s, Ok tt).
Proof.
  intros Ha. pose proof Ha as Ha'. unfold obj in Ha'.
  assert (Hget : forall subtype stat_name port,
             _get_stats subtype stat_name port s = (s, Raise AssertionError)).
  { intros. unfold _get_stats.
    rewrite (bind_ok get_self _ s s (fst s)) by reflexivity.
    now rewrite Ha'. }
  repeat split.
  - intros. unfold start.
    rewrite (bind_ok get_self _ s s (fst s)) by reflexivity. now rewrite Ha'.
  - intros. unfold set_rate. destruct (valid_capacity capacity);
      [| reflexivity].
    rewrite (bind_ok (assert_ true) _ s s tt) by reflexivity.
    rewrite (bind_ok get_self _ s s (fst s)) by reflexivity.
    now apply commands_inactive.
  - intros. unfold stop.
    rewrite (bind_ok get_self _ s s (fst s)) by reflexivity. now rewrite Ha'.
  - unfold clear.
    rewrite (bind_ok get_self _ s s (fst s)) by reflexivity. now rewrite Ha'.
  - unfold clean_stats.
    rewrite (bind_ok get_self _ s s (fst s)) by reflexivity. now rewrite Ha'.
  - intros. now apply commands_inactive.
  - exact Hget.
  - intros. unfold get_nb_tx_pkts.
    rewrite (bind_ok get_self _ s s (fst s)) by reflexivity. apply Hget.
  - intros. now apply wait_ready_inactive.
  - unfold wait_transmission_done.
    rewrite (bind_ok get_self _ s s (fst s)) by reflexivity. now rewrite Ha'.
  - intros. unfold set_params.
    destruct (ip_range_max _ nb_src); [| now exists ValueError].
    destruct (ip_range_max _ nb_dst); [| now exists ValueError].
    rewrite (bind_ok get_self _ s s (fst s)) by reflexivity.
    exists AssertionError. destruct (ready (fst s)); cbn [negb].
    + rewrite (bind_ok (ret tt) _ s s tt) by reflexivity.
      now apply commands_inactive.
    + unfold bind. now rewrite wait_ready_inactive.
  - unfold close.
    rewrite (bind_ok get_self _ s s (fst s)) by reflexivity. now rewrite Ha'.
Qed.

Lemma inactive_generator_is_left_alone_witness :
  pktgen_active (obj closed_pktgen) = false
  /\ start (fun _ => "10") 10 1000 None closed_pktgen
     = (closed_pktgen, Raise AssertionError)
  /\ stop None closed_pktgen = (closed_pktgen, Raise AssertionError)
  /\ get_nb_tx_pkts None closed_pktgen = (closed_pktgen, Raise AssertionError)
  /\ wait_transmission_done closed_pktgen
     = (closed_pktgen, Raise AssertionError)
  /\ close closed_pktgen = (closed_pktgen, Ok tt).
Proof.
  assert (Ha : pktgen_active (obj closed_pktgen) = false) by reflexivity.
  pose proof (inactive_generator_is_left_alone closed_pktgen Ha)
    as [H1 [_ [H3 [_ [_ [_ [_ [H8 [_ [H10 [_ H12]]]]]]]]]]].
  split; [exact Ha |]. split; [apply H1 |]. split; [apply H3 |].
  split; [apply H8 |]. split; [exact H10 | exact H12].
Defined.

(** X11.  [close] returns, leaves the generator inactive, and has sent
    [quit] once if the generator was active and nothing otherwise;
    closing again changes nothing. *)
Theorem close_is_idempotent s :
  exists s1,
    close s = (s1, Ok tt)
    /\ pktgen_active (obj s1) = false
    /\ sends (log (wld s1))
       = (sends (log (wld s))
          ++ (if pktgen_active (obj s) then [as_sent "quit"] else []))%list
    /\ close s1 = (s1, Ok tt).
Proof.
  unfold close. rewrite (bind_ok get_self _ s s (fst s)) by reflexivity.
  destruct (pktgen_active (fst s)) eqn:Ha.
  - eexists. split; [reflexivity |]. cbn.
    split; [reflexivity |]. split; [| reflexivity].
    unfold obj. rewrite Ha. rewrite !sends_app. cbn.
    now rewrite app_nil_r.
  - exists s. split; [reflexivity |]. unfold obj. rewrite Ha.
    split; [reflexivity |]. split; [now rewrite app_nil_r |].
    rewrite (bind_ok get_self _ s s (fst s)) by reflexivity. now rewrite Ha.
Qed.

(** ** [wait_ready] on a process that has exited *)

Lemma world_eta w : mkWorld (chan w) (procs w) (now w) (log w) = w.
Proof. now destruct w. Qed.

(** X12.  When the generator process has already reported its exit
    status, [wait_ready] reads nothing: a non-zero status raises "Cannot
    run pktgen" and marks the generator inactive; a status of 0 makes
    it return with [ready] set, although no prompt was seen. *)
Theorem wait_ready_on_exited_process so se s t c st :
  pktgen_active (obj s) = true ->
  chan (wld s) = t :: c ->
  exit_status t = Some st ->
  (st <> 0 ->
   wait_ready so se s
   = ((set_pktgen_active false (obj s), wld s),
      Raise (Exception_ "Cannot run pktgen")))
  /\ (st = 0 ->
      wait_ready so se s = ((set_ready true (obj s), wld s), Ok tt)).
Proof.
  intros Ha Hc Ht. destruct s as [o w]. cbn [obj wld fst snd] in *.
  assert (Hesr : io exit_status_ready (o, w) = ((o, w), Ok true)).
  { unfold io, exit_status_ready. cbn [fst snd]. now rewrite Hc, Ht. }
  assert (Hrecv : io recv_exit_status (o, w) = ((o, w), Ok st)).
  { unfold io, recv_exit_status. cbn [fst snd]. rewrite Hc.
    cbn [await_exit]. rewrite Ht. rewrite <- Hc. now rewrite world_eta. }
  unfold wait_ready.
  rewrite (bind_ok get_self _ (o, w) (o, w) o) by reflexivity.
  rewrite Ha. rewrite (bind_ok (assert_ true) _ (o, w) (o, w) tt)
    by reflexivity.
  rewrite (bind_ok _ _ _ _ _ Hesr).
  split.
  - intros Hst. unfold bind at 1. unfold bind at 1. rewrite Hrecv.
    cbn [ret]. replace (st =? 0) with false
      by (symmetry; apply Z.eqb_neq; exact Hst).
    reflexivity.
  - intros ->. unfold bind at 1. unfold bind at 1. rewrite Hrecv.
    cbn [ret negb Z.eqb].
    assert (Hw : watch_command None None so se (Some (CRLF ++ "Pktgen:/>"))
                   (Some 1024) w = (w, Ok "")).
    { unfold watch_command. cbn [watch_loop]. unfold bind at 1.
      unfold continue_running. unfold bind at 1. unfold bind at 1.
      cbn [py_min ret]. unfold re_search.
      replace (Re.compile (CRLF ++ "Pktgen:/>"))
        with (Some (Re.Seq (Re.Seq (Re.Seq (Re.Seq (Re.Seq (Re.Seq (Re.Seq
               (Re.Seq (Re.Seq (Re.Seq (Re.Seq Re.Eps (Re.Chr "013"))
               (Re.Chr "010")) (Re.Chr "P")) (Re.Chr "k")) (Re.Chr "t"))
               (Re.Chr "g")) (Re.Chr "e")) (Re.Chr "n")) (Re.Chr ":"))
               (Re.Chr "/")) (Re.Chr ">"))) by reflexivity.
      cbn [ret]. unfold bind at 1. cbn.
      unfold bind, exit_status_ready. rewrite Hc, Ht. reflexivity. }
    unfold bind at 1. unfold io at 1. cbn [fst snd]. rewrite Hw.
    reflexivity.
Qed.

Lemma wait_ready_on_exited_process_witness :
  let dead := (demo_pktgen,
               demo_world [mkTick (Some 1) (Some "EAL: no hugepages") None 0]) in
  let gone := (demo_pktgen, demo_world [mkTick (Some 0) None None 0]) in
  pktgen_active (obj dead) = true
  /\ chan (wld dead) = [mkTick (Some 1) (Some "EAL: no hugepages") None 0]
  /\ 1 <> 0
  /\ wait_ready false false dead
     = ((set_pktgen_active false (obj dead), wld dead),
        Raise (Exception_ "Cannot run pktgen"))
  /\ wait_ready false false gone
     = ((set_ready true (obj gone), wld gone), Ok tt).
Proof.
  cbv zeta.
  assert (H1 : 1 <> 0) by discriminate.
  split; [reflexivity |]. split; [reflexivity |]. split; [exact H1 |].
  split.
  - exact (proj1 (wait_ready_on_exited_process false false
                    (demo_pktgen,
                     demo_world [mkTick (Some 1) (Some "EAL: no hugepages")
                                   None 0])
                    _ [] 1 eq_refl eq_refl eq_refl) H1).
  - exact (proj2 (wait_ready_on_exited_process false false
                    (demo_pktgen, demo_world [mkTick (Some 0) None None 0])
                    _ [] 0 eq_refl eq_refl eq_refl) eq_refl).
Defined.

(** ** [start] and [set_params] *)

(** X13.  [start] on a ready generator reads the transmitted-packet
    counter of the object's own tx port (whatever port is given), sets
    the target to that count plus [nb_pkts], and sends, to the port
    given, the pcap switch when a pcap is in use and then the count,
    rate and start commands. *)
Theorem start_measures_and_sends str_number capacity nb_pkts port s s' :
  ready (obj s) = true ->
  start str_number capacity nb_pkts port s = (s', Ok tt) ->
  exists s1 sent,
    get_nb_tx_pkts None s = (s1, Ok sent)
    /\ target_pkt_tx (obj s') = sent + nb_pkts
    /\ sends (log (wld s'))
       = (sends (log (wld s))
          ++ stats_query "port" "opackets" (tx_port (obj s))
          :: map as_sent
               (start_commands (use_pcap (obj s))
                  (py_or port (tx_port (obj s))) nb_pkts
                  (str_number capacity)))%list.
Proof.
  intros Hr H. unfold start in H.
  rewrite (bind_ok get_self _ s s (fst s)) in H by reflexivity.
  destruct (pktgen_active (fst s)) eqn:Ha; [| discriminate].
  rewrite (bind_ok (assert_ true) _ s s tt) in H by reflexivity.
  unfold obj in Hr. rewrite Hr in H. cbn [negb] in H.
  rewrite (bind_ok (ret tt) _ s s tt) in H by reflexivity.
  rewrite (bind_ok get_self _ s s (fst s)) in H by reflexivity.
  unfold bind at 1 in H.
  destruct (get_nb_tx_pkts None s) as [s1 [sent | e |]] eqn:Eg;
    [| discriminate ..].
  exists s1, sent. split; [reflexivity |].
  assert (Eg' : _get_stats "port" "opackets" (tx_port (obj s)) s
                = (s1, Ok sent)).
  { unfold get_nb_tx_pkts in Eg.
    rewrite (bind_ok get_self _ s s (fst s)) in Eg by reflexivity.
    exact Eg. }
  destruct (get_stats_sends_at_once _ _ _ _ _ _ Ha Eg')
    as [Ho [rest [Hl Hs]]].
  rewrite (bind_ok (update _) _ s1
             (set_target_pkt_tx (sent + nb_pkts) (fst s1), snd s1) tt) in H
    by reflexivity.
  apply commands_sends in H. destruct H as [Ho' [k [Hk Hall]]].
  destruct (Hall eq_refl) as [_ Hlen].
  split; [rewrite Ho'; reflexivity |].
  assert (Hs1 : sends (log (snd s1))
                = (sends (log (wld s))
                   ++ [stats_query "port" "opackets" (tx_port (obj s))])%list).
  { unfold wld in Hl. rewrite Hl, sends_app.
    change (sends (Send (stats_query "port" "opackets" (tx_port (obj s)))
                   :: rest))
      with (stats_query "port" "opackets" (tx_port (obj s)) :: sends rest).
    now rewrite Hs. }
  rewrite Hk. cbn [wld snd]. rewrite Hs1, Hlen.
  rewrite firstn_all2 by (rewrite length_map; lia).
  rewrite <- app_assoc. reflexivity.
Qed.

Lemma start_measures_and_sends_witness :
  let number := fun q : Q => str (Qnum q / Zpos (Qden q)) in
  let s' := fst (start number 10 1000 (Some 3) ready_at_500) in
  ready (obj ready_at_500) = true
  /\ start number 10 1000 (Some 3) ready_at_500 = (s', Ok tt)
  /\ exists s1 sent,
       get_nb_tx_pkts None ready_at_500 = (s1, Ok sent)
       /\ target_pkt_tx (obj s') = sent + 1000
       /\ sends (log (wld s'))
          = (sends (log (wld ready_at_500))
             ++ stats_query "port" "opackets" 1
             :: map as_sent (start_commands false 3 1000 "10"))%list.
Proof.
  cbv zeta.
  assert (Hr : ready (obj ready_at_500) = true) by reflexivity.
  assert (H : start (fun q : Q => str (Qnum q / Zpos (Qden q))) 10 1000
                (Some 3) ready_at_500
              = (fst (start (fun q : Q => str (Qnum q / Zpos (Qden q))) 10
                        1000 (Some 3) ready_at_500), Ok tt))
    by (vm_compute; reflexivity).
  split; [exact Hr |]. split; [exact H |].
  exact (start_measures_and_sends _ _ _ _ _ _ Hr H).
Defined.




(** ** [launch] and [set_pcap] *)

Lemma launch_run s p ps :
  pktgen_active (obj s) = false ->
  (use_pcap (obj s) = true -> truthy (pcap (obj s)) = true) ->
  procs (wld s) = p :: ps ->
  launch s = ((launched (obj s), after_launch (obj s) p ps (wld s)), Ok tt).
Proof.
  destruct s as [o w]. cbn [obj wld fst snd]. intros Ha Hp Hprocs.
  unfold launch. rewrite (bind_ok get_self _ (o, w) (o, w) o) by reflexivity.
  rewrite Ha. rewrite (bind_ok (assert_ (negb false)) _ (o, w) (o, w) tt)
    by reflexivity.
  unfold launched, after_launch, launch_cmd, pktgen_options.
  destruct (use_pcap o) eqn:Eu.
  - rewrite (Hp eq_refl).
    unfold bind, io, update, assert_, ret, remote_command, write_stdout, emit.
    cbn [fst snd]. rewrite Hprocs.
    destruct (log_file o) as [[|c f]|]; reflexivity.
  - unfold bind, io, update, assert_, ret, remote_command, write_stdout, emit.
    cbn [fst snd]. rewrite Hprocs.
    destruct (log_file o) as [[|c f]|]; reflexivity.
Qed.

Lemma pktgen_options_prefix o :
  exists rest,
    pktgen_options o = ("-m " ++ DQ ++ port_map o ++ DQ ++ rest)%string.
Proof.
  unfold pktgen_options.
  destruct (use_pcap o), (config_file o), (log_file o), (promiscuous o),
    (numa_support o), (extra_opt o);
    eexists; rewrite ?append_assoc;
    try reflexivity;
    try (rewrite <- (append_nil_r DQ) at 2; reflexivity).
Qed.

Lemma pktgen_options_pcap o :
  use_pcap o = true ->
  exists pre rest,
    pktgen_options o
    = (pre ++ (" -s " ++ str (tx_port o) ++ ":" ++ opt_text (pcap o)) ++ rest)%string.
Proof.
  intros Hu. unfold pktgen_options. rewrite Hu.
  exists ("-m " ++ DQ ++ port_map o ++ DQ)%string.
  destruct (config_file o), (log_file o), (promiscuous o), (numa_support o),
    (extra_opt o);
    eexists; rewrite ?append_assoc; cbn; rewrite ?append_assoc;
    try reflexivity;
    try (rewrite <- (append_nil_r (opt_text (pcap o))) at 1; reflexivity).
Qed.

Lemma launch_refused s :
  pktgen_active (obj s) = true
  \/ (use_pcap (obj s) = true /\ truthy (pcap (obj s)) = false) ->
  launch s = (s, Raise AssertionError).
Proof.
  destruct s as [o w]. cbn [obj fst]. intros H.
  unfold launch. rewrite (bind_ok get_self _ (o, w) (o, w) o) by reflexivity.
  destruct (pktgen_active o) eqn:Ha; [reflexivity |].
  destruct H as [H | [Hu Hp]]; [discriminate |].
  rewrite (bind_ok (assert_ (negb false)) _ (o, w) (o, w) tt) by reflexivity.
  rewrite Hu, Hp. reflexivity.
Qed.

Lemma launch_no_process s :
  pktgen_active (obj s) = false ->
  (use_pcap (obj s) = true -> truthy (pcap (obj s)) = true) ->
  procs (wld s) = [] ->
  snd (launch s) = Pending.
Proof.
  destruct s as [o w]. cbn [obj wld fst snd]. intros Ha Hp Hprocs.
  unfold launch. rewrite (bind_ok get_self _ (o, w) (o, w) o) by reflexivity.
  rewrite Ha. rewrite (bind_ok (assert_ (negb false)) _ (o, w) (o, w) tt)
    by reflexivity.
  destruct (use_pcap o) eqn:Eu.
  - rewrite (Hp eq_refl).
    unfold bind, io, update, assert_, ret, remote_command.
    cbn [fst snd]. rewrite Hprocs. reflexivity.
  - unfold bind, io, update, assert_, ret, remote_command.
    cbn [fst snd]. rewrite Hprocs. reflexivity.
Qed.

Lemma launch_ok_inv s s' :
  launch s = (s', Ok tt) ->
  exists p ps,
    procs (wld s) = p :: ps
    /\ pktgen_active (obj s) = false
    /\ s' = (launched (obj s), after_launch (obj s) p ps (wld s)).
Proof.
  intros H.
  destruct (pktgen_active (obj s)) eqn:Ha.
  { rewrite launch_refused in H by (now left). discriminate. }
  destruct (use_pcap (obj s)) eqn:Hu.
  - destruct (truthy (pcap (obj s))) eqn:Hp.
    + destruct (procs (wld s)) as [| p ps] eqn:Hprocs.
      * pose proof (launch_no_process s Ha (fun _ => Hp) Hprocs) as Hn.
        rewrite H in Hn. discriminate.
      * rewrite (launch_run s p ps Ha (fun _ => Hp) Hprocs) in H.
        inversion H. exists p, ps. repeat split; congruence.
    + rewrite launch_refused in H by (right; split; [exact Hu | exact Hp]).
      discriminate.
  - assert (Hp : use_pcap (obj s) = true -> truthy (pcap (obj s)) = true)
      by (rewrite Hu; discriminate).
    destruct (procs (wld s)) as [| p ps] eqn:Hprocs.
    + pose proof (launch_no_process s Ha Hp Hprocs) as Hn.
      rewrite H in Hn. discriminate.
    + rewrite (launch_run s p ps Ha Hp Hprocs) in H.
      inversion H. exists p, ps. repeat split; congruence.
Qed.

Lemma after_launch_log o p ps w :
  launches (log (after_launch o p ps w))
  = (launches (log w) ++ [launch_cmd o])%list
  /\ sends (log (after_launch o p ps w)) = sends (log w).
Proof.
  unfold after_launch. cbn [log].
  destruct (truthy (log_file o));
    rewrite ?launches_app, ?sends_app; cbn; rewrite ?app_nil_r;
    split; reflexivity.
Qed.

(** X15.  When [launch] returns, it has started exactly one process and
    sent nothing; the generator is active, not ready, with a target of 0
    packets; the process's command is recorded, starts with
    [sudo pktgen <dpdk_config> -- -m "<port_map>"] and, when a pcap is
    in use, holds [ -s <tx_port>:<pcap>]; what the object listens to from
    then on is the process started. *)
Theorem launch_starts_one_process s s' :
  launch s = (s', Ok tt) ->
  pktgen_active (obj s') = true
  /\ ready (obj s') = false
  /\ target_pkt_tx (obj s') = 0
  /\ launches (log (wld s'))
     = (launches (log (wld s)) ++ [remote_cmd (obj s')])%list
  /\ sends (log (wld s')) = sends (log (wld s))
  /\ (exists rest,
        remote_cmd (obj s')
        = ("sudo pktgen " ++ dpdk_config (obj s) ++ " -- -m " ++ DQ
           ++ port_map (obj s) ++ DQ ++ rest)%string)
  /\ (use_pcap (obj s) = true ->
      exists p, pcap (obj s) = Some p /\ p <> ""%string
        /\ contains (" -s " ++ str (tx_port (obj s)) ++ ":" ++ p)
             (remote_cmd (obj s')) = true)
  /\ (exists ps, procs (wld s) = chan (wld s') :: ps
                 /\ procs (wld s') = ps).
Proof.
  intros H.
  assert (Hpc : use_pcap (obj s) = true -> truthy (pcap (obj s)) = true).
  { intros Hu. destruct (truthy (pcap (obj s))) eqn:Hp; [reflexivity |].
    rewrite launch_refused in H by (right; split; [exact Hu | exact Hp]).
    discriminate. }
  destruct (launch_ok_inv s s' H) as (p & ps & Hprocs & Ha & ->).
  unfold obj, wld in *. cbn [fst snd].
  destruct (after_launch_log (fst s) p ps (snd s)) as [Hl Hs].
  split; [reflexivity |]. split; [reflexivity |]. split; [reflexivity |].
  split; [exact Hl |]. split; [exact Hs |].
  split.
  { change (remote_cmd (launched (fst s)))
      with ("sudo pktgen " ++ dpdk_config (fst s) ++ " -- "
            ++ pktgen_options (fst s))%string.
    destruct (pktgen_options_prefix (fst s)) as [rest ->].
    exists rest. reflexivity. }
  split.
  { intros Hu. specialize (Hpc Hu).
    destruct (pcap (fst s)) as [[| c path] |] eqn:Ep;
      try discriminate.
    exists (String c path). split; [reflexivity |]. split; [discriminate |].
    change (remote_cmd (launched (fst s)))
      with ("sudo pktgen " ++ dpdk_config (fst s) ++ " -- "
            ++ pktgen_options (fst s))%string.
    destruct (pktgen_options_pcap (fst s) Hu) as (pre & rest & ->).
    rewrite Ep. cbn [opt_text].
    apply contains_spec.
    exists ("sudo pktgen " ++ dpdk_config (fst s) ++ " -- " ++ pre)%string,
      rest.
    rewrite !append_assoc. reflexivity. }
  exists ps. split; [exact Hprocs | reflexivity].
Qed.

Lemma launch_starts_one_process_witness :
  pktgen_active (obj (fst (launch closed_with_pcap))) = true
  /\ launches (log (wld (fst (launch closed_with_pcap))))
     = ["sudo pktgen -l 0-3 -n 4 -- -m " ++ DQ ++ "[1-2].0" ++ DQ
        ++ " -s 1:/traces/a.pcap"]%string.
Proof.
  assert (H : launch closed_with_pcap
              = (fst (launch closed_with_pcap), Ok tt))
    by (vm_compute; reflexivity).
  pose proof (launch_starts_one_process _ _ H) as (Ha & _ & _ & _ & _).
  split; [exact Ha |]. vm_compute. reflexivity.
Defined.

(** X16.  [launch] on a generator that is already active, or that is to
    replay a pcap while none (or an empty path) is set, raises
    [AssertionError]: no process is started and the object is as
    before. *)
Theorem launch_refuses s :
  pktgen_active (obj s) = true
  \/ (use_pcap (obj s) = true
      /\ (pcap (obj s) = None \/ pcap (obj s) = Some ""%string)) ->
  launch s = (s, Raise AssertionError).
Proof.
  intros [H | [Hu Hp]]; apply launch_refused; [now left | right].
  split; [exact Hu |]. destruct Hp as [-> | ->]; reflexivity.
Qed.

Lemma launch_refuses_witness :
  launch starting_up = (starting_up, Raise AssertionError)
  /\ launch closed_without_pcap = (closed_without_pcap, Raise AssertionError).
Proof.
  split.
  - apply launch_refuses. left. reflexivity.
  - apply launch_refuses. right. split; [reflexivity | left; reflexivity].
Defined.

Lemma set_pcap_unfold p s :
  set_pcap p s
  = if pktgen_active (obj s)
       && (negb (use_pcap (obj s)) || pcap_differs (pcap (obj s)) p)
    then (close ;; launch ;; io (sleep 1000) ;; wait_ready false false)%py
           (with_pcap p (obj s), wld s)
    else ((with_pcap p (obj s), wld s), Ok tt).
Proof.
  destruct s as [o w]. unfold set_pcap, obj, wld. cbn [fst snd].
  rewrite (bind_ok get_self _ (o, w) (o, w) o) by reflexivity.
  rewrite (bind_ok (update (set_use_pcap true)) _ (o, w)
             (set_use_pcap true o, w) tt) by reflexivity.
  rewrite (bind_ok (update (set_pcap_path (Some p))) _
             (set_use_pcap true o, w) (with_pcap p o, w) tt) by reflexivity.
  rewrite (bind_ok get_self _ (with_pcap p o, w) (with_pcap p o, w)
             (with_pcap p o)) by reflexivity.
  change (pktgen_active (with_pcap p o)) with (pktgen_active o).
  destruct (pktgen_active o
            && (negb (use_pcap o) || pcap_differs (pcap o) p)); reflexivity.
Qed.

Lemma pcap_differs_false old p :
  pcap_differs old p = false <-> old = Some p.
Proof.
  unfold pcap_differs. destruct old as [q |].
  - rewrite Bool.negb_false_iff, String.eqb_eq.
    split; [now intros -> | now intros [= ->]].
  - split; discriminate.
Qed.

Lemma close_active s :
  pktgen_active (obj s) = true ->
  close s
  = ((set_pktgen_active false (obj s),
      after_sleep 100 (after_send (as_sent "quit") (wld s))), Ok tt).
Proof.
  intros Ha. unfold close.
  rewrite (bind_ok get_self _ s s (fst s)) by reflexivity.
  unfold obj in Ha. rewrite Ha. reflexivity.
Qed.

(** X17.  [set_pcap] on a generator that is not running, or that already
    replays this very pcap, only records the choice: it returns, nothing
    is sent or started, and the object replays the pcap from then on. *)
Theorem set_pcap_only_records p s :
  pktgen_active (obj s) = false
  \/ (use_pcap (obj s) = true /\ pcap (obj s) = Some p) ->
  exists o',
    set_pcap p s = ((o', wld s), Ok tt)
    /\ use_pcap o' = true
    /\ pcap o' = Some p
    /\ pktgen_active o' = pktgen_active (obj s)
    /\ ready o' = ready (obj s)
    /\ remote_cmd o' = remote_cmd (obj s).
Proof.
  intros H. exists (with_pcap p (obj s)).
  split; [| repeat split; reflexivity].
  rewrite set_pcap_unfold.
  destruct H as [-> | [-> Hp]]; [reflexivity |].
  apply pcap_differs_false in Hp. rewrite Hp.
  now rewrite Bool.andb_false_r.
Qed.

Lemma set_pcap_only_records_witness :
  exists o',
    set_pcap "/traces/a.pcap" closed_pktgen = ((o', wld closed_pktgen), Ok tt)
    /\ use_pcap o' = true
    /\ pcap o' = Some "/traces/a.pcap"%string
    /\ pktgen_active o' = false
    /\ ready o' = false
    /\ remote_cmd o' = ""%string.
Proof.
  apply (set_pcap_only_records "/traces/a.pcap" closed_pktgen).
  left. reflexivity.
Defined.

(** X18.  [set_pcap] with another pcap on a running generator restarts
    it: when the call returns, [quit] is the one thing that was sent and
    one process was started, whose command holds
    [ -s <tx_port>:<the new pcap>]; the object is active and ready. *)
Theorem set_pcap_restarts p s s' :
  pktgen_active (obj s) = true ->
  use_pcap (obj s) = false \/ pcap (obj s) <> Some p ->
  set_pcap p s = (s', Ok tt) ->
  sends (log (wld s')) = (sends (log (wld s)) ++ [as_sent "quit"])%list
  /\ launches (log (wld s'))
     = (launches (log (wld s)) ++ [remote_cmd (obj s')])%list
  /\ contains (" -s " ++ str (tx_port (obj s)) ++ ":" ++ p)
       (remote_cmd (obj s')) = true
  /\ use_pcap (obj s') = true
  /\ pcap (obj s') = Some p
  /\ pktgen_active (obj s') = true
  /\ ready (obj s') = true.
Proof.
  intros Ha Hch H. rewrite set_pcap_unfold in H. rewrite Ha in H.
  assert (Hc : negb (use_pcap (obj s)) || pcap_differs (pcap (obj s)) p = true).
  { destruct Hch as [-> | Hn]; [reflexivity |].
    destruct (pcap_differs (pcap (obj s)) p) eqn:E.
    - apply Bool.orb_true_r.
    - apply pcap_differs_false in E. contradiction. }
  rewrite Hc in H. cbn [andb] in H.
  set (o1 := with_pcap p (obj s)) in *.
  rewrite (bind_ok close _ (o1, wld s) _ tt (close_active (o1, wld s) Ha)) in H.
  cbn [obj wld fst snd] in H.
  set (s2 := (set_pktgen_active false o1,
              after_sleep 100 (after_send (as_sent "quit") (wld s)))) in *.
  unfold bind at 1 in H.
  destruct (launch s2) as [s3 [[] | e |]] eqn:El; try discriminate.
  destruct (launch_ok_inv s2 s3 El) as (q & qs & Hprocs & _ & ->).
  rewrite (bind_ok (io (sleep 1000)) _ _
             (launched (obj s2),
              after_sleep 1000 (after_launch (obj s2) q qs (wld s2))) tt)
    in H by reflexivity.
  destruct (wait_ready_effect _ _ _ _ _ H) as (L & Ho & _).
  specialize (Ho eq_refl).
  destruct (after_launch_log (fst s2) q qs (snd s2)) as [Hl Hs].
  unfold obj, wld in *. cbn [fst snd] in L, Ho. rewrite Ho.
  split.
  { rewrite (listens_sends _ _ L). unfold after_sleep. cbn [log].
    rewrite sends_app, Hs. subst s2. cbn [snd after_sleep after_send log].
    rewrite !sends_app. cbn. now rewrite !app_nil_r. }
  split.
  { rewrite (listens_launches _ _ L). unfold after_sleep. cbn [log].
    rewrite launches_app, Hl. subst s2. cbn [snd after_sleep after_send log].
    rewrite !launches_app. cbn. now rewrite !app_nil_r. }
  split.
  { change (remote_cmd (set_ready true (launched (fst s2))))
      with ("sudo pktgen " ++ dpdk_config (fst s2) ++ " -- "
            ++ pktgen_options (fst s2))%string.
    destruct (pktgen_options_pcap (fst s2) eq_refl) as (pre & rest & ->).
    apply contains_spec.
    exists ("sudo pktgen " ++ dpdk_config (fst s2) ++ " -- " ++ pre)%string,
      rest.
    rewrite !append_assoc. reflexivity. }
  repeat split; reflexivity.
Qed.

Lemma set_pcap_restarts_witness :
  launches (log (wld (fst (set_pcap "/traces/b.pcap" running_with_spare))))
  = (launches (log (wld running_with_spare))
     ++ [remote_cmd
           (obj (fst (set_pcap "/traces/b.pcap" running_with_spare)))])%list
  /\ ready (obj (fst (set_pcap "/traces/b.pcap" running_with_spare))) = true.
Proof.
  assert (H : set_pcap "/traces/b.pcap" running_with_spare
              = (fst (set_pcap "/traces/b.pcap" running_with_spare), Ok tt))
    by (vm_compute; reflexivity).
  assert (Hn : pcap (obj running_with_spare) <> Some "/traces/b.pcap"%string)
    by discriminate.
  pose proof (set_pcap_restarts "/traces/b.pcap" running_with_spare _
                eq_refl (or_intror Hn) H)
    as (_ & Hl & _ & _ & _ & _ & Hr).
  split; [exact Hl | exact Hr].
Defined.

(** X19.  [set_pcap] with the empty path on a running generator shuts it
    down and fails: [quit] is sent, no process is started, the call
    raises [AssertionError], and the generator is left inactive with the
    empty path recorded. *)
Theorem set_pcap_empty_path_stops s :
  pktgen_active (obj s) = true ->
  use_pcap (obj s) = false \/ pcap (obj s) <> Some ""%string ->
  exists s',
    set_pcap "" s = (s', Raise AssertionError)
    /\ pktgen_active (obj s') = false
    /\ pcap (obj s') = Some ""%string
    /\ sends (log (wld s')) = (sends (log (wld s)) ++ [as_sent "quit"])%list
    /\ launches (log (wld s')) = launches (log (wld s))
    /\ procs (wld s') = procs (wld s).
Proof.
  intros Ha Hch. rewrite set_pcap_unfold. rewrite Ha.
  assert (Hc : negb (use_pcap (obj s)) || pcap_differs (pcap (obj s)) "" = true).
  { destruct Hch as [-> | Hn]; [reflexivity |].
    destruct (pcap_differs (pcap (obj s)) "") eqn:E.
    - apply Bool.orb_true_r.
    - apply pcap_differs_false in E. contradiction. }
  rewrite Hc. cbn [andb].
  set (o1 := with_pcap "" (obj s)).
  rewrite (bind_ok close _ (o1, wld s) _ tt (close_active (o1, wld s) Ha)).
  cbn [obj wld fst snd].
  eexists. split.
  { apply bind_raise. apply launch_refused. right. split; reflexivity. }
  cbn [obj wld fst snd after_sleep after_send log procs].
  split; [reflexivity |]. split; [reflexivity |].
  rewrite !sends_app, !launches_app. cbn. rewrite !app_nil_r.
  repeat split; reflexivity.
Qed.

Lemma set_pcap_empty_path_stops_witness :
  exists s',
    set_pcap "" running_with_spare = (s', Raise AssertionError)
    /\ pktgen_active (obj s') = false
    /\ pcap (obj s') = Some ""%string
    /\ sends (log (wld s')) = [as_sent "quit"]
    /\ launches (log (wld s')) = []
    /\ procs (wld s') = procs (wld running_with_spare).
Proof.
  apply (set_pcap_empty_path_stops running_with_spare).
  - reflexivity.
  - left. reflexivity.
Defined.

(** ** The value of a statistics query *)

Lemma rev_acc_rev_acc d : forall cur acc,
  rev_acc (rev_acc d cur) acc = rev_acc cur (d ++ acc)%string.
Proof.
  induction d as [| c d IH]; intros cur acc; [reflexivity |].
  cbn [rev_acc]. rewrite IH. reflexivity.
Qed.

Lemma digit_not_cr c : is_ascii_digit c = true -> Ascii.eqb "013" c = false.
Proof.
  intros H. destruct (Ascii.eqb_spec "013"%char c) as [<- |]; [| reflexivity].
  discriminate.
Qed.

(** Scanning a field of digits up to the separator that ends it. *)
Lemma split_aux_digits d : forall b cur,
  all_digits d = true ->
  split_aux CRLF (d ++ CRLF ++ b) cur 0
  = rev_acc (rev_acc d cur) "" :: split_aux CRLF b "" 0.
Proof.
  induction d as [| c d IH]; intros b cur H.
  - reflexivity.
  - cbn [all_digits] in H. apply andb_true_iff in H. destruct H as [Hc Hd].
    change ((String c d ++ CRLF ++ b)%string)
      with (String c (d ++ CRLF ++ b)).
    cbn [split_aux]. unfold CRLF at 1. cbn [CR append startswith].
    rewrite (digit_not_cr c Hc). cbn [andb].
    rewrite IH by exact Hd. reflexivity.
Qed.

Lemma split_aux_step c s cur :
  split_aux CRLF (String c s) cur 0
  = if startswith CRLF (String c s)
    then rev_acc cur "" :: split_aux CRLF s "" 1
    else split_aux CRLF s (String c cur) 0.
Proof. reflexivity. Qed.

Lemma split_aux_skip c s cur :
  split_aux CRLF (String c s) cur 1 = split_aux CRLF s cur 0.
Proof. reflexivity. Qed.

(** A field of digits between two separators is one of the fields. *)
Lemma split_aux_finds_digits d b :
  all_digits d = true ->
  forall a cur skip,
    skip = O \/ (skip = 1%nat /\ exists a', a = String "010" a') ->
    In d (split_aux CRLF (a ++ CRLF ++ d ++ CRLF ++ b) cur skip).
Proof.
  intros Hd. induction a as [| c a IH]; intros cur skip Hs.
  - destruct Hs as [-> | [_ [a' Ha]]]; [| discriminate].
    change (("" ++ CRLF ++ d ++ CRLF ++ b)%string)
      with (String "013" (String "010" (d ++ CRLF ++ b))).
    rewrite split_aux_step.
    change (startswith CRLF (String "013" (String "010" (d ++ CRLF ++ b))))
      with true.
    cbv iota. right. rewrite split_aux_skip.
    rewrite split_aux_digits by exact Hd.
    left. rewrite rev_acc_rev_acc. cbn [rev_acc]. apply append_nil_r.
  - change ((String c a ++ CRLF ++ d ++ CRLF ++ b)%string)
      with (String c (a ++ CRLF ++ d ++ CRLF ++ b)).
    destruct Hs as [-> | [-> _]].
    + rewrite split_aux_step.
      destruct (startswith CRLF (String c (a ++ CRLF ++ d ++ CRLF ++ b)))
        eqn:Es.
      * right. apply IH. right. split; [reflexivity |].
        apply startswith_spec in Es. destruct Es as [post Es].
        change ((CRLF ++ post)%string)
          with (String "013" (String "010" post)) in Es.
        injection Es as _ Es.
        destruct a as [| c' a].
        -- change (("" ++ CRLF ++ d ++ CRLF ++ b)%string)
             with (String "013" (String "010" (d ++ CRLF ++ b))) in Es.
           discriminate Es.
        -- change ((String c' a ++ CRLF ++ d ++ CRLF ++ b)%string)
             with (String c' (a ++ CRLF ++ d ++ CRLF ++ b)) in Es.
           injection Es as -> _. exists a. reflexivity.
      * apply IH. left. reflexivity.
    + rewrite split_aux_skip. apply IH. left. reflexivity.
Qed.

Lemma star_digit_all_digits r s :
  Re.matches r s -> r = Re.Star Re.Digit -> all_digits s = true.
Proof.
  induction 1; try discriminate; intros E.
  - reflexivity.
  - inversion E; subst. inversion H as [| | c Hc | | | | | |]; subst.
    cbn [append all_digits].
    rewrite Hc. cbn [andb]. apply IHmatches2. reflexivity.
Qed.

Lemma stats_pattern_compiled :
  Re.compile stats_pattern
  = Some (Re.Seq
            (Re.Seq
               (Re.Seq (Re.Seq (Re.Seq Re.Eps (Re.Chr "013")) (Re.Chr "010"))
                  (Re.Seq Re.Digit (Re.Star Re.Digit)))
               (Re.Chr "013"))
            (Re.Chr "010")).
Proof. vm_compute. reflexivity. Qed.

(** What the statistics pattern matches: a run of digits between two
    CR LF. *)
Lemma stats_pattern_matches r m :
  Re.compile stats_pattern = Some r ->
  Re.matches r m ->
  exists d, m = (CRLF ++ d ++ CRLF)%string /\ isdigit d = true.
Proof.
  rewrite stats_pattern_compiled. intros [= <-] H.
  inversion H as [| | | | ? ? m1 lf H1 Hlf | | | |]; subst. clear H.
  inversion Hlf; subst. clear Hlf.
  inversion H1 as [| | | | ? ? m2 cr H2 Hcr | | | |]; subst. clear H1.
  inversion Hcr; subst. clear Hcr.
  inversion H2 as [| | | | ? ? m3 ds H3 Hds | | | |]; subst. clear H2.
  inversion H3 as [| | | | ? ? m4 lf2 H4 Hlf2 | | | |]; subst. clear H3.
  inversion Hlf2; subst. clear Hlf2.
  inversion H4 as [| | | | ? ? m5 cr2 H5 Hcr2 | | | |]; subst. clear H4.
  inversion Hcr2; subst. clear Hcr2.
  inversion H5; subst. clear H5.
  inversion Hds as [| | | | ? ? d1 d2 Hd1 Hd2 | | | |]; subst. clear Hds.
  inversion Hd1 as [| | c Hc | | | | | |]; subst. clear Hd1.
  pose proof (star_digit_all_digits _ _ Hd2 eq_refl) as Hall.
  exists (String c d2). split.
  - cbn. rewrite !append_assoc. reflexivity.
  - cbn [isdigit all_digits]. rewrite Hc, Hall. reflexivity.
Qed.

Lemma isdigit_all_digits d : isdigit d = true -> all_digits d = true.
Proof. destruct d; [discriminate | auto]. Qed.

(** A transcript in which the statistics pattern is found has a
    digit-only line. *)
Lemma found_stats_has_digit_line m output :
  found_in_window stats_pattern m output ->
  exists ln, last_opt (filter isdigit (split CRLF output)) = Some ln.
Proof.
  intros [r [Hc Hs]].
  apply search_occurs in Hs. destruct Hs as (pre & mt & post & Hw & Hm).
  destruct (stats_pattern_matches r mt Hc Hm) as (d & -> & Hd).
  destruct (slice_from_suffix (- Z.min (len output) m) output) as [pre0 Ho].
  rewrite Hw in Ho.
  assert (Hin : In d (split CRLF output)).
  { rewrite Ho. unfold split.
    replace (pre0 ++ pre ++ (CRLF ++ d ++ CRLF) ++ post)%string
      with ((pre0 ++ pre) ++ CRLF ++ d ++ CRLF ++ post)%string
      by (now rewrite !append_assoc).
    apply split_aux_finds_digits;
      [now apply isdigit_all_digits | left; reflexivity]. }
  assert (Hf : In d (filter isdigit (split CRLF output)))
    by (apply filter_In; auto).
  destruct (filter isdigit (split CRLF output)) as [| x l] eqn:E
    using rev_ind; [destruct Hf |].
  exists x. apply last_opt_snoc.
Qed.

Lemma int_acc_nonneg d : forall acc,
  all_digits d = true -> 0 <= acc -> 0 <= int_acc d acc.
Proof.
  induction d as [| c d IH]; intros acc H Hacc; [exact Hacc |].
  cbn [all_digits] in H. apply andb_true_iff in H. destruct H as [Hc Hd].
  cbn [int_acc]. apply IH; [exact Hd |].
  unfold is_ascii_digit in Hc. apply andb_true_iff in Hc.
  destruct Hc as [Hlo _]. apply Nat.leb_le in Hlo. lia.
Qed.

Lemma continue_running_no_raise sp mml output w e :
  searchable sp mml ->
  snd (continue_running exit_status_ready sp mml output w) <> Raise e.
Proof.
  intros Hs. unfold continue_running, py_min, re_search.
  destruct sp as [p |]; cbn in Hs.
  - destruct Hs as [Hc Hm].
    destruct (Re.compile p) as [r |] eqn:Ec; [| contradiction].
    destruct mml as [m |]; [| contradiction].
    unfold bind, ret, exit_status_ready. cbn.
    destruct (Re.search r _); cbn; [discriminate |].
    destruct (chan w); cbn; discriminate.
  - unfold bind, ret, exit_status_ready. cbn.
    destruct (chan w); cbn; discriminate.
Qed.

Lemma watch_loop_no_raise sp mml dl so se e fuel :
  searchable sp mml ->
  forall output w,
    snd (watch_loop fuel exit_status_ready dl so se sp mml output w)
    <> Raise e.
Proof.
  intros Hc. induction fuel as [| fuel IH]; intros output w; [discriminate |].
  destruct (continue_running exit_status_ready sp mml output w)
    as [w0 r0] eqn:Ec.
  pose proof (continue_running_cases _ _ _ _ _ _ Ec) as [-> Hr].
  destruct r0 as [[|] | e0 |].
  - destruct Hr as [t [c [Hch _]]].
    rewrite (watch_loop_round _ _ _ _ _ _ _ _ _ _ Ec Hch).
    destruct (past dl _); [discriminate | apply IH].
  - cbn [watch_loop]. unfold bind at 1. rewrite Ec. discriminate.
  - exfalso. apply (continue_running_no_raise sp mml output w e0 Hc).
    rewrite Ec. reflexivity.
  - cbn [watch_loop]. unfold bind at 1. rewrite Ec. discriminate.
Qed.

Lemma watch_command_no_raise timeout so se sp mml w e :
  searchable sp mml ->
  snd (watch_command None timeout so se sp mml w) <> Raise e.
Proof. intros Hs. unfold watch_command. now apply watch_loop_no_raise. Qed.

Lemma stats_pattern_searchable : searchable (Some stats_pattern) (Some 1024).
Proof. split; [rewrite stats_pattern_compiled |]; discriminate. Qed.

(** X20.  On an active generator, a statistics query that returns a
    value returns a non-negative one, and the only exception it raises
    is [IndexError], which it raises only once the console process has
    exited: an answer that matched the stop pattern always has a
    digit-only line. *)
Theorem get_stats_value_or_index_error subtype stat_name port s s' r :
  pktgen_active (obj s) = true ->
  _get_stats subtype stat_name port s = (s', r) ->
  (forall v, r = Ok v -> 0 <= v)
  /\ (forall e, r = Raise e -> e = IndexError /\ has_exited (wld s')).
Proof.
  intros Ha H. rewrite (get_stats_run _ _ _ _ Ha) in H.
  destruct (stats_watch (after_send (stats_query subtype stat_name port)
                           (wld s))) as [w2 rw] eqn:Ew.
  destruct rw as [output | e0 |].
  - destruct (last_opt (filter isdigit (split CRLF output))) as [ln |] eqn:El.
    + inversion H; subst. split; [| discriminate].
      intros v [= <-].
      apply last_opt_filter in El. destruct El as (_ & _ & _ & Hd & _).
      apply int_acc_nonneg; [now apply isdigit_all_digits | lia].
    + inversion H; subst. split; [discriminate |].
      intros e [= <-]. split; [reflexivity |].
      unfold stats_watch, watch_command in Ew.
      apply watch_loop_returns in Ew.
      destruct Ew as (used & _ & _ & _ & [Hf | [Hx | Hp]]).
      * destruct Hf as (p & m & [= <-] & _ & Hf).
        destruct (found_stats_has_digit_line m output Hf) as [ln Hln].
        congruence.
      * exact Hx.
      * discriminate Hp.
  - exfalso. unfold stats_watch in Ew.
    apply (watch_command_no_raise None true true (Some stats_pattern)
             (Some 1024)
             (after_send (stats_query subtype stat_name port) (wld s)) e0
             stats_pattern_searchable).
    rewrite Ew. reflexivity.
  - inversion H; subst. split; discriminate.
Qed.

Lemma get_stats_value_or_index_error_witness :
  snd (_get_stats "port" "opackets" 1 crashed_console) = Raise IndexError
  /\ has_exited (wld (fst (_get_stats "port" "opackets" 1 crashed_console))).
Proof.
  assert (H : _get_stats "port" "opackets" 1 crashed_console
              = (fst (_get_stats "port" "opackets" 1 crashed_console),
                 Raise IndexError))
    by (vm_compute; reflexivity).
  split; [rewrite H; reflexivity |].
  exact (proj2 (proj2 (get_stats_value_or_index_error
                         "port" "opackets" 1 crashed_console _ _ eq_refl H)
                  IndexError eq_refl)).
Defined.

(** ** Returning from [wait_transmission_done] *)

Lemma poll_effect s s1 r :
  pktgen_active (obj s) = true ->
  poll s = (s1, r) ->
  obj s1 = obj s
  /\ sends (log (wld s1))
     = (sends (log (wld s))
        ++ [stats_query "port" "opackets" (tx_port (obj s))])%list
  /\ launches (log (wld s1)) = launches (log (wld s)).
Proof.
  intros Ha H. split; [exact (poll_obj _ _ _ H) |].
  rewrite poll_run, get_stats_run in H by exact Ha.
  destruct (stats_watch _) as [w2 rw] eqn:E.
  unfold stats_watch in E. apply listens_watch_command in E.
  pose proof (listens_sends _ _ E) as Hs.
  pose proof (listens_launches _ _ E) as Hl.
  cbn [after_send log wld snd] in Hs, Hl.
  rewrite !sends_app in Hs. rewrite !launches_app in Hl.
  cbn in Hs, Hl. rewrite !app_nil_r in Hs. rewrite !app_nil_r in Hl.
  destruct rw as [o | e |]; inversion H; subst; cbn [wld snd]; auto.
Qed.

Lemma last_cons {A} (v : A) l d : last (v :: l) d = last l v.
Proof.
  revert v d. induction l as [| x l IH]; intros v d; [reflexivity |].
  change (last (v :: x :: l) d) with (last (x :: l) d).
  now rewrite (IH x d), (IH x v).
Qed.

Lemma transmission_loop_ok fuel :
  forall old s s',
    pktgen_active (obj s) = true ->
    transmission_loop fuel old s = (s', Ok tt) ->
    exists counts,
      polls s counts s'
      /\ target_pkt_tx (obj s) <= last counts old
      /\ obj s' = obj s
      /\ sends (log (wld s'))
         = (sends (log (wld s))
            ++ repeat (stats_query "port" "opackets" (tx_port (obj s)))
                 (List.length counts))%list
      /\ launches (log (wld s')) = launches (log (wld s)).
Proof.
  induction fuel as [| fuel IH]; intros old s s' Ha H.
  - destruct (Z.ltb_spec old (target_pkt_tx (obj s))) as [Hlt | Hge].
    + cbn [transmission_loop] in H.
      rewrite (bind_ok get_self _ s s (fst s)) in H by reflexivity.
      unfold obj in Hlt.
      replace (old <? target_pkt_tx (fst s)) with true in H
        by (symmetry; apply Z.ltb_lt; exact Hlt).
      discriminate.
    + rewrite transmission_loop_done in H by exact Hge.
      inversion H; subst. exists []. cbn. rewrite app_nil_r.
      repeat split; auto. constructor.
  - destruct (Z.ltb_spec old (target_pkt_tx (obj s))) as [Hlt | Hge].
    + rewrite transmission_loop_step in H by exact Hlt.
      unfold bind at 1 in H.
      destruct (poll s) as [s1 [v | e |]] eqn:Ep; try discriminate.
      destruct (poll_effect _ _ _ Ha Ep) as (Ho & Hs & Hl).
      destruct (old =? v); [discriminate |].
      assert (Ha1 : pktgen_active (obj s1) = true) by (now rewrite Ho).
      destruct (IH v s1 s' Ha1 H) as (counts & Hp & Ht & Ho' & Hs' & Hl').
      exists (v :: counts).
      split; [econstructor; eassumption |].
      split; [rewrite last_cons; now rewrite <- Ho |].
      split; [congruence |].
      split; [| congruence].
      rewrite Hs', Hs, Ho. cbn [List.length repeat].
      rewrite <- app_assoc. reflexivity.
    + rewrite transmission_loop_done in H by exact Hge.
      inversion H; subst. exists []. cbn. rewrite app_nil_r.
      repeat split; auto. constructor.
Qed.

(** X21.  When [wait_transmission_done] returns, the generator is
    active and the counts it polled end with one that has reached the
    target (0, polled never, if the target is not positive); all it has
    sent is one query of the tx port's [opackets] per poll; it has
    started no process and the object is as before. *)
Theorem wait_transmission_done_returns_at_target s s' :
  wait_transmission_done s = (s', Ok tt) ->
  pktgen_active (obj s) = true
  /\ exists counts,
       polls s counts s'
       /\ target_pkt_tx (obj s) <= last counts 0
       /\ obj s' = obj s
       /\ sends (log (wld s'))
          = (sends (log (wld s))
             ++ repeat (stats_query "port" "opackets" (tx_port (obj s)))
                  (List.length counts))%list
       /\ launches (log (wld s')) = launches (log (wld s)).
Proof.
  intros H.
  destruct (pktgen_active (obj s)) eqn:Ha.
  - split; [reflexivity |].
    rewrite wait_transmission_done_run in H by exact Ha.
    exact (transmission_loop_ok _ _ _ _ Ha H).
  - exfalso. unfold wait_transmission_done in H.
    rewrite (bind_ok get_self _ s s (fst s)) in H by reflexivity.
    unfold obj in Ha. rewrite Ha in H. discriminate.
Qed.

Lemma wait_transmission_done_returns_at_target_witness :
  exists counts,
    polls finished_run counts (fst (wait_transmission_done finished_run))
    /\ target_pkt_tx (obj finished_run) <= last counts 0
    /\ obj (fst (wait_transmission_done finished_run)) = obj finished_run
    /\ sends (log (wld (fst (wait_transmission_done finished_run))))
       = (sends (log (wld finished_run))
          ++ repeat (stats_query "port" "opackets"
                       (tx_port (obj finished_run)))
               (List.length counts))%list
    /\ launches (log (wld (fst (wait_transmission_done finished_run))))
       = launches (log (wld finished_run)).
Proof.
  assert (H : wait_transmission_done finished_run
              = (fst (wait_transmission_done finished_run), Ok tt))
    by (vm_compute; reflexivity).
  exact (proj2 (wait_transmission_done_returns_at_target _ _ H)).
Defined.

(** ** Port arguments, [stop], [clear] and [clean_stats] *)

Lemma getter_run subtype stat_name port s :
  pktgen_active (obj s) = true ->
  sends (log (wld (fst (_get_stats subtype stat_name port s))))
  = (sends (log (wld s)) ++ [stats_query subtype stat_name port])%list.
Proof.
  intros Ha.
  pose proof (surjective_pairing (_get_stats subtype stat_name port s)) as H.
  destruct (get_stats_sends_at_once _ _ _ _ _ _ Ha H)
    as (_ & rest & Hl & Hs).
  rewrite Hl, sends_app.
  change (sends (Send (stats_query subtype stat_name port) :: rest))
    with (stats_query subtype stat_name port :: sends rest).
  now rewrite Hs.
Qed.

(** X24.  For the statistics getters a port argument of 0 is taken as
    no argument: the counter or rate is then read from the object's own
    rx or tx port.  On an active generator each getter sends the one
    query of its statistic for the port given or, for 0 and [None], the
    default one. *)
Theorem port_zero_is_default_port s :
  (get_pkts_rx_rate (Some 0) s = get_pkts_rx_rate None s
   /\ get_pkts_tx_rate (Some 0) s = get_pkts_tx_rate None s
   /\ get_mbits_rx (Some 0) s = get_mbits_rx None s
   /\ get_mbits_tx (Some 0) s = get_mbits_tx None s
   /\ get_nb_rx_pkts (Some 0) s = get_nb_rx_pkts None s
   /\ get_nb_rx_bytes (Some 0) s = get_nb_rx_bytes None s
   /\ get_nb_tx_pkts (Some 0) s = get_nb_tx_pkts None s
   /\ get_nb_tx_bytes (Some 0) s = get_nb_tx_bytes None s)
  /\ (pktgen_active (obj s) = true ->
      forall port,
        sends (log (wld (fst (get_nb_rx_pkts port s))))
        = (sends (log (wld s))
           ++ [stats_query "port" "ipackets"
                 (port_or port (rx_port (obj s)))])%list
        /\ sends (log (wld (fst (get_nb_rx_bytes port s))))
           = (sends (log (wld s))
              ++ [stats_query "port" "ibytes"
                    (port_or port (rx_port (obj s)))])%list
        /\ sends (log (wld (fst (get_nb_tx_pkts port s))))
           = (sends (log (wld s))
              ++ [stats_query "port" "opackets"
                    (port_or port (tx_port (obj s)))])%list
        /\ sends (log (wld (fst (get_nb_tx_bytes port s))))
           = (sends (log (wld s))
              ++ [stats_query "port" "obytes"
                    (port_or port (tx_port (obj s)))])%list
        /\ sends (log (wld (fst (get_pkts_rx_rate port s))))
           = (sends (log (wld s))
              ++ [stats_query "rate" "pkts_rx"
                    (port_or port (rx_port (obj s)))])%list
        /\ sends (log (wld (fst (get_pkts_tx_rate port s))))
           = (sends (log (wld s))
              ++ [stats_query "rate" "pkts_tx"
                    (port_or port (tx_port (obj s)))])%list).
Proof.
  split; [repeat split; reflexivity |].
  intros Ha port.
  repeat split;
    match goal with
    | |- sends (log (wld (fst (?g port s)))) = _ =>
        unfold g; rewrite (bind_ok get_self _ s s (fst s)) by reflexivity;
        exact (getter_run _ _ _ s Ha)
    end.
Qed.

Lemma port_zero_is_default_port_witness :
  get_nb_tx_pkts (Some 0) ready_at_500 = get_nb_tx_pkts None ready_at_500
  /\ sends (log (wld (fst (get_nb_tx_pkts (Some 0) ready_at_500))))
     = [stats_query "port" "opackets" 1].
Proof.
  destruct (port_zero_is_default_port ready_at_500) as [Heq Hs].
  split; [apply Heq |].
  exact (proj1 (proj2 (proj2 (Hs eq_refl (Some 0))))).
Defined.

(** X25.  [clean_stats] does exactly what [clear] does, on every
    generator, active or not.  [clear], when it returns, has sent [clr]
    followed by two line feeds (its own and the one [commands] adds)
    and nothing else, has started no process and has left the object as
    it was. *)
Theorem clear_sends_clr s :
  clean_stats s = clear s
  /\ (forall s',
        clear s = (s', Ok tt) ->
        sends (log (wld s'))
        = (sends (log (wld s)) ++ [("clr" ++ LF ++ LF)%string])%list
        /\ launches (log (wld s')) = launches (log (wld s))
        /\ obj s' = obj s).
Proof.
  split.
  { unfold clean_stats.
    rewrite (bind_ok get_self _ s s (fst s)) by reflexivity.
    destruct (pktgen_active (fst s)) eqn:Ha.
    - reflexivity.
    - unfold clear. rewrite (bind_ok get_self _ s s (fst s)) by reflexivity.
      rewrite Ha. reflexivity. }
  intros s' H.
  unfold clear in H.
  rewrite (bind_ok get_self _ s s (fst s)) in H by reflexivity.
  destruct (pktgen_active (fst s)) eqn:Ha; [| discriminate].
  rewrite (bind_ok (assert_ true) _ s s tt) in H by reflexivity.
  assert (Hl : launches (log (wld s')) = launches (log (wld s))).
  { unfold commands in H.
    rewrite (bind_ok get_self _ s s (fst s)) in H by reflexivity.
    rewrite Ha in H.
    rewrite (bind_ok (assert_ true) _ s s tt) in H by reflexivity.
    unfold bind at 1 in H.
    destruct (io _ s) as [s1 rr] eqn:E. apply io_inv in E.
    destruct E as [_ E]. unfold run_console_commands in E.
    apply run_each_sends in E. destruct E as [E _].
    destruct rr; inversion H; subst; exact E. }
  destruct (commands_sends _ _ _ _ _ H) as (Ho & k & Hs & Hk).
  destruct (Hk eq_refl) as [_ ->].
  split; [| auto].
  rewrite Hs. cbn [as_list List.length firstn map]. unfold as_sent.
  rewrite append_assoc. reflexivity.
Qed.

Lemma clear_sends_clr_witness :
  clean_stats closed_pktgen = clear closed_pktgen
  /\ sends (log (wld (fst (clear ready_at_500))))
     = [("clr" ++ LF ++ LF)%string].
Proof.
  assert (H : clear ready_at_500 = (fst (clear ready_at_500), Ok tt))
    by (vm_compute; reflexivity).
  split; [exact (proj1 (clear_sends_clr closed_pktgen)) |].
  exact (proj1 (proj2 (clear_sends_clr ready_at_500) _ H)).
Defined.
